(** * mcp-jira-server: the command dispatcher of [src/main.py]

    A shallow embedding of [MCPJiraServer] (its seven command handlers and
    [handle_mcp_message]) and the properties of its specification.

    - Decoded JSON values are the inductive [json]; a Python [dict] with
      string keys is a [gmap string json].
    - Python exceptions are values of [Exn]; code that may raise returns a
      [Result].
    - The issue tracker behind [self.jira] is a record of functions over an
      abstract world [W]; every call made to it is appended to a log, so
      that "creates nothing" and "performs no mutation" are statements about
      that log.
    - Strings are UTF-8 byte strings.  [repr], [str.lower], [str.upper] and
      [int] on strings belong to the Python runtime: they are the fields of
      a record [Python], a parameter of the development, together with what
      they do on ASCII strings.  Logging is not modelled. *)

From Stdlib Require Import ZArith String Ascii List Bool Lia QArith Qround SpecFloat Sorted.
From stdpp Require Import base option gmap strings list fin_maps pretty.

Local Open Scope string_scope.
Local Open Scope list_scope.
Local Open Scope Z_scope.

(** ** Python values *)

#[warnings="-register-all"]
Inductive json : Type :=
| JNull
| JBool (b : bool)
| JInt (z : Z)
| JFloat (f : spec_float)
| JStr (s : string)
| JList (l : list json)
| JDict (d : gmap string json).

(** The double quote character, and a dict literal. *)
Definition dq : string := String (ascii_of_nat 34) EmptyString.

Definition dict (l : list (string * json)) : json := JDict (list_to_map l).

(** ** Exceptions *)

(** [JIRAError] carries its [status_code] and [text] attributes; every
    exception carries what [str(e)] gives.  [OtherException] stands for any
    other subclass of [Exception], named by its class. *)
Inductive Exn : Type :=
| JIRAError (status_code text : json) (str : string)
| ValueError (str : string)
| OtherException (cls : string) (str : string).

Definition exn_str (e : Exn) : string :=
  match e with
  | JIRAError _ _ s => s
  | ValueError s => s
  | OtherException _ s => s
  end.

Inductive Result (A : Type) : Type :=
| Ok (a : A)
| Err (e : Exn).
Arguments Ok {A} a.
Arguments Err {A} e.

Definition TypeError := OtherException "TypeError".
Definition AttributeError := OtherException "AttributeError".
Definition KeyError := OtherException "KeyError".
Definition OverflowError := OtherException "OverflowError".
Definition ZeroDivisionError := OtherException "ZeroDivisionError".

(** ** Strings *)

Definition lower_ascii (c : ascii) : ascii :=
  let n := N_of_ascii c in
  if ((65 <=? n) && (n <=? 90))%N then ascii_of_N (n + 32) else c.

Definition upper_ascii (c : ascii) : ascii :=
  let n := N_of_ascii c in
  if ((97 <=? n) && (n <=? 122))%N then ascii_of_N (n - 32) else c.

Fixpoint str_map (f : ascii -> ascii) (s : string) : string :=
  match s with
  | EmptyString => EmptyString
  | String c r => String (f c) (str_map f r)
  end.

Definition ascii_lower : string -> string := str_map lower_ascii.
Definition ascii_upper : string -> string := str_map upper_ascii.

(** Every character of [s] is below 128. *)
Fixpoint is_ascii (s : string) : bool :=
  match s with
  | EmptyString => true
  | String c r => (N_of_ascii c <? 128)%N && is_ascii r
  end.

(** [sep.join(l)] *)
Fixpoint str_join (sep : string) (l : list string) : string :=
  match l with
  | [] => EmptyString
  | [x] => x
  | x :: r => x +:+ sep +:+ str_join sep r
  end.

(** [sub in s] for strings *)
Definition str_contains (sub s : string) : bool :=
  match index 0 sub s with Some _ => true | None => false end.

(** ** Integer literals in ASCII *)

(** White space as [int] strips it from an ASCII string: tab to carriage
    return, and the space. *)
Definition is_space (c : ascii) : bool :=
  let n := N_of_ascii c in ((9 <=? n) && (n <=? 13) || (n =? 32))%N.

Fixpoint lstrip (s : string) : string :=
  match s with
  | String c r => if is_space c then lstrip r else s
  | EmptyString => EmptyString
  end.

Definition digit_of (c : ascii) : option Z :=
  let n := N_of_ascii c in
  if ((48 <=? n) && (n <=? 57))%N then Some (Z.of_N n - 48) else None.

(** Digits of an integer literal, where one underscore may stand between
    two digits; what follows the literal may only be white space.
    [after_digit] says that the previous character was a digit. *)
Fixpoint parse_digits (s : string) (acc : Z) (after_digit : bool) : option Z :=
  match s with
  | EmptyString => if after_digit then Some acc else None
  | String c r =>
      match digit_of c with
      | Some d => parse_digits r (10 * acc + d) true
      | None =>
          if after_digit then
            if Ascii.eqb c "_" then
              match r with
              | String c' _ =>
                  match digit_of c' with
                  | Some _ => parse_digits r acc false
                  | None => None
                  end
              | EmptyString => None
              end
            else if is_space c then
              match lstrip r with EmptyString => Some acc | _ => None end
            else None
          else None
      end
  end.

Definition parse_int (s : string) : option Z :=
  match lstrip s with
  | String "-" r => Z.opp <$> parse_digits r 0 false
  | String "+" r => parse_digits r 0 false
  | r => parse_digits r 0 false
  end.

(** [int(x)] of a finite float: truncation towards zero. *)
Definition float_trunc (neg : bool) (m : positive) (e : Z) : Z :=
  let a := Z.shiftl (Z.pos m) e in if neg then - a else a.

(** What the embedding takes from the Python runtime: [repr(v)] (used for
    floats, containers and quoted strings), [s.lower()], [s.upper()] and
    [int(s)] on strings.  Strings are UTF-8; on ASCII strings the three
    string operations are the ones written out above. *)
Record Python : Type := {
  py_repr : json -> string;
  str_lower : string -> string;
  str_upper : string -> string;
  int_str : string -> Result Z;
  str_lower_ascii : forall s, is_ascii s = true -> str_lower s = ascii_lower s;
  str_upper_ascii : forall s, is_ascii s = true -> str_upper s = ascii_upper s;
  int_str_ascii : forall s,
      is_ascii s = true -> (String.length s <= 4300)%nat ->
      int_str s = match parse_int s with
                  | Some z => Ok z
                  | None => Err (ValueError ("invalid literal for int() with base 10: "
                                               +:+ py_repr (JStr s)))
                  end
}.

Section Python.

Variable py : Python.

Definition py_type_name (v : json) : string :=
  match v with
  | JNull => "NoneType"
  | JBool _ => "bool"
  | JInt _ => "int"
  | JFloat _ => "float"
  | JStr _ => "str"
  | JList _ => "list"
  | JDict _ => "dict"
  end.

(** Truth value of a value, as [if v:] and [not v] take it. *)
Definition py_truthy (v : json) : bool :=
  match v with
  | JNull => false
  | JBool b => b
  | JInt z => negb (z =? 0)
  | JFloat (S754_zero _) => false
  | JFloat _ => true
  | JStr s => negb (String.eqb s EmptyString)
  | JList l => match l with [] => false | _ => true end
  | JDict d => negb (bool_decide (d = ∅))
  end.

(** [str(v)], which is what an f-string interpolates. *)
Definition py_str (v : json) : string :=
  match v with
  | JNull => "None"
  | JBool true => "True"
  | JBool false => "False"
  | JInt z => pretty z
  | JStr s => s
  | _ => py_repr py v
  end.

(** [v == s] for a string literal [s]. *)
Definition py_eq_str (v : json) (s : string) : bool :=
  match v with
  | JStr t => String.eqb t s
  | _ => false
  end.

Definition no_attribute (v : json) (attr : string) : Exn :=
  AttributeError ("'" +:+ py_type_name v +:+ "' object has no attribute '" +:+ attr +:+ "'").

(** [d.get(k, default)] *)
Definition py_get (d : json) (k : string) (default : json) : Result json :=
  match d with
  | JDict m => Ok (match m !! k with Some v => v | None => default end)
  | _ => Err (no_attribute d "get")
  end.

(** [d[k]] for a string [k] *)
Definition py_getitem (d : json) (k : string) : Result json :=
  match d with
  | JDict m =>
      match m !! k with
      | Some v => Ok v
      | None => Err (KeyError (py_repr py (JStr k)))
      end
  | JStr _ => Err (TypeError "string indices must be integers, not 'str'")
  | JList _ => Err (TypeError "list indices must be integers or slices, not str")
  | _ => Err (TypeError ("'" +:+ py_type_name d +:+ "' object is not subscriptable"))
  end.

(** [k in d] for a string [k] *)
Definition py_contains (k : string) (d : json) : Result bool :=
  match d with
  | JDict m => Ok (bool_decide (is_Some (m !! k)))
  | JList l => Ok (existsb (fun v => py_eq_str v k) l)
  | JStr s => Ok (str_contains k s)
  | _ => Err (TypeError ("argument of type '" +:+ py_type_name d +:+ "' is not iterable"))
  end.

(** [v.lower()] and [v.upper()] *)
Definition py_lower (v : json) : Result string :=
  match v with
  | JStr s => Ok (str_lower py s)
  | _ => Err (no_attribute v "lower")
  end.

Definition py_upper (v : json) : Result string :=
  match v with
  | JStr s => Ok (str_upper py s)
  | _ => Err (no_attribute v "upper")
  end.

(** [int(v)] *)
Definition py_int (v : json) : Result Z :=
  match v with
  | JInt z => Ok z
  | JBool b => Ok (if b then 1 else 0)
  | JFloat (S754_zero _) => Ok 0
  | JFloat (S754_finite neg m e) => Ok (float_trunc neg m e)
  | JFloat (S754_infinity _) => Err (OverflowError "cannot convert float infinity to integer")
  | JFloat S754_nan => Err (ValueError "cannot convert float NaN to integer")
  | JStr s => int_str py s
  | _ => Err (TypeError ("int() argument must be a string, a bytes-like object or a real number, not '"
                           +:+ py_type_name v +:+ "'"))
  end.

(** [a // b] on integers: the quotient rounded towards minus infinity. *)
Definition py_floordiv (a b : Z) : Result Z :=
  if b =? 0 then Err (ZeroDivisionError "integer division or modulo by zero")
  else Ok (a / b).

End Python.

(** ** The issue tracker *)

(** An issue as the client library returns it: [key], [id], [self] and the
    attributes of [fields] that the handlers read.  [created] and [updated]
    hold [str(issue.fields.created)] and [str(issue.fields.updated)]; an
    optional attribute holds its [str(...)] when it is present and truthy. *)
Record Issue : Type := {
  i_key : string;
  i_id : string;
  i_self : string;
  i_summary : string;
  i_description : option string;
  i_status : string;
  i_created : string;
  i_updated : string;
  i_assignee : option string;
  i_reporter : option string;
  i_priority : option string;
  i_project_key : string;
  i_project_name : string;
  i_issuetype : string;
  i_subtask : bool;
  i_duedate : option string
}.

(** A workflow transition [t]: [t['id']], [t['name']], [t['to']['name']]. *)
Record Transition : Type := {
  t_id : string;
  t_name : string;
  t_to : string
}.

(** The list that [search_issues] returns, with its [total]. *)
Record ResultList : Type := {
  issues : list Issue;
  total : Z
}.

(** The calls the handlers make on the client. *)
Inductive Call : Type :=
| CreateIssue (fields : json)
| GetIssue (issue_key : json)
| GetTransitions (issue : Issue)
| TransitionIssue (issue : Issue) (transition_id : string)
| UpdateIssue (issue : Issue) (fields : json)
| SearchIssues (jql : string) (startAt maxResults : Z).

Definition is_mutation (c : Call) : bool :=
  match c with
  | CreateIssue _ | TransitionIssue _ _ | UpdateIssue _ _ => true
  | _ => false
  end.

(** The client over a world [W]: each operation answers or raises, and
    leaves a new world. *)
Record JiraClient (W : Type) : Type := {
  jira_create_issue : json -> W -> Result Issue * W;
  jira_issue : json -> W -> Result Issue * W;
  jira_transitions : Issue -> W -> Result (list Transition) * W;
  jira_transition_issue : Issue -> string -> W -> Result unit * W;
  issue_update : Issue -> json -> W -> Result unit * W;
  jira_search_issues : string -> Z -> Z -> W -> Result ResultList * W
}.
Arguments jira_create_issue {W}.
Arguments jira_issue {W}.
Arguments jira_transitions {W}.
Arguments jira_transition_issue {W}.
Arguments issue_update {W}.
Arguments jira_search_issues {W}.

Record JiraConfig : Type := {
  server : string;
  user : string;
  token : string;
  timeout : Z;
  max_results : Z
}.

(** ** The monad of the handlers: world, call log, exceptions *)

Record St (W : Type) : Type := { world : W; calls : list Call }.
Arguments world {W}.
Arguments calls {W}.

Definition M (W A : Type) : Type := St W -> Result A * St W.

Definition ret {W A} (a : A) : M W A := fun s => (Ok a, s).

Definition raise {W A} (e : Exn) : M W A := fun s => (Err e, s).

Definition bind {W A B} (m : M W A) (k : A -> M W B) : M W B :=
  fun s => match m s with
           | (Ok a, s') => k a s'
           | (Err e, s') => (Err e, s')
           end.

Definition lift {W A} (r : Result A) : M W A := fun s => (r, s).

(** [try: body except Exception as e: handler(e)] *)
Definition try_except {W A} (body : M W A) (handler : Exn -> M W A) : M W A :=
  fun s => match body s with
           | (Ok a, s') => (Ok a, s')
           | (Err e, s') => handler e s'
           end.

(** One call on the client: it is logged, then answered. *)
Definition call {W A} (c : Call) (op : W -> Result A * W) : M W A :=
  fun s => let (r, w) := op (world s) in
           (r, {| world := w; calls := calls s ++ [c] |}).

Notation "'let*' x ':=' m 'in' k" := (bind m (fun x => k))
  (at level 10, x name, m at level 100, k at level 200).
Notation "m ';;' k" := (bind m (fun _ => k))
  (at level 100, k at level 200, right associativity).

(** ** Response envelopes and result shaping *)

Definition error_envelope (msg : string) : json :=
  dict [("status", JStr "error"); ("message", JStr msg)].

Definition success_data (data : json) : json :=
  dict [("status", JStr "success"); ("data", data)].

Definition success_message (msg : string) : json :=
  dict [("status", JStr "success"); ("message", JStr msg)].

(** [x if x else None] for an optional attribute already turned to [str] *)
Definition opt_str (o : option string) : json :=
  match o with Some s => JStr s | None => JNull end.

Definition pagination (tot page page_size total_pages : Z) : json :=
  dict [("total", JInt tot); ("page", JInt page); ("page_size", JInt page_size);
        ("total_pages", JInt total_pages)].

(** The issue dictionaries of [_search_issues], of the subtasks of
    [_get_epic_with_subtasks], of its epic, and of [_get_my_issues]. *)
Definition search_row (issue : Issue) : json :=
  dict [("key", JStr (i_key issue)); ("summary", JStr (i_summary issue));
        ("description", opt_str (i_description issue));
        ("status", JStr (i_status issue));
        ("created", JStr (i_created issue)); ("updated", JStr (i_updated issue));
        ("assignee", opt_str (i_assignee issue))].

Definition subtask_row (task : Issue) : json :=
  dict [("key", JStr (i_key task)); ("summary", JStr (i_summary task));
        ("description", opt_str (i_description task));
        ("status", JStr (i_status task));
        ("issuetype", JStr (i_issuetype task));
        ("created", JStr (i_created task)); ("updated", JStr (i_updated task));
        ("assignee", opt_str (i_assignee task));
        ("priority", opt_str (i_priority task))].

Definition epic_block (epic : Issue) : json :=
  dict [("key", JStr (i_key epic)); ("summary", JStr (i_summary epic));
        ("description", opt_str (i_description epic));
        ("status", JStr (i_status epic));
        ("created", JStr (i_created epic)); ("updated", JStr (i_updated epic));
        ("assignee", opt_str (i_assignee epic));
        ("reporter", opt_str (i_reporter epic));
        ("priority", opt_str (i_priority epic))].

Definition my_issue_row (issue : Issue) : json :=
  dict [("key", JStr (i_key issue)); ("summary", JStr (i_summary issue));
        ("description", opt_str (i_description issue));
        ("status", JStr (i_status issue));
        ("created", JStr (i_created issue)); ("updated", JStr (i_updated issue));
        ("priority", opt_str (i_priority issue));
        ("project", dict [("key", JStr (i_project_key issue));
                          ("name", JStr (i_project_name issue))]);
        ("issuetype", dict [("name", JStr (i_issuetype issue));
                            ("subtask", JBool (i_subtask issue))]);
        ("duedate", opt_str (i_duedate issue))].

(** [sorted(list(set(names)))] *)
Fixpoint insert_sorted (x : string) (l : list string) : list string :=
  match l with
  | [] => [x]
  | y :: r =>
      match String.compare x y with
      | Lt => x :: l
      | Eq => l
      | Gt => y :: insert_sorted x r
      end
  end.

Definition sorted_set (l : list string) : list string :=
  foldr insert_sorted [] l.

(** The loop of [_update_issue] over the transitions: it collects the
    destination names seen so far and stops at the first one that matches
    [target_status]. *)
Fixpoint find_transition (py : Python) (target_status : string)
    (transitions : list Transition)
    (available_transitions : list string) : option string * list string :=
  match transitions with
  | [] => (None, available_transitions)
  | t :: r =>
      let available := (available_transitions ++ [t_to t])%list in
      if String.eqb (str_lower py (t_to t)) target_status
      then (Some (t_id t), available)
      else find_transition py target_status r available
  end.

(** [if transition_id:] on [None] or a string *)
Definition id_truthy (o : option string) : bool :=
  match o with
  | Some i => negb (String.eqb i EmptyString)
  | None => false
  end.

(** ** The server *)

Section Server.

Variable py : Python.
Context {W : Type}.
Variable jira : JiraClient W.
Variable config : JiraConfig.

(** [all(k in data for k in ks)] *)
Fixpoint all_in (ks : list string) (data : json) : Result bool :=
  match ks with
  | [] => Ok true
  | k :: r =>
      match py_contains k data with
      | Ok true => all_in r data
      | Ok false => Ok false
      | Err e => Err e
      end
  end.

Definition _create_issue (message : json) : M W json :=
  let* data := lift (py_get message "data" (dict [])) in
  let* present := lift (all_in ["project"; "summary"; "description"] data) in
  if negb present then ret (error_envelope "Missing required fields") else
  let* project := lift (py_getitem py data "project") in
  let* summary := lift (py_getitem py data "summary") in
  let* description := lift (py_getitem py data "description") in
  let* issue_type := lift (py_get data "issue_type" (JStr "Task")) in
  let issue_dict : gmap string json :=
    list_to_map [("project", dict [("key", project)]);
                 ("summary", summary);
                 ("description", description);
                 ("issuetype", dict [("name", issue_type)])] in
  let* requested_type := lift (py_get data "issue_type" JNull) in
  let* issue_dict :=
    if py_eq_str requested_type "Subtask" then
      let* parent_issue := lift (py_get data "parent_issue" JNull) in
      if py_truthy parent_issue then
        let* parent_key := lift (py_getitem py data "parent_issue") in
        ret (<["parent" := dict [("key", parent_key)]]> issue_dict)
      else ret issue_dict
    else ret issue_dict in
  let* issue := call (CreateIssue (JDict issue_dict))
                     (jira_create_issue jira (JDict issue_dict)) in
  ret (success_data (dict [("issue_key", JStr (i_key issue));
                           ("issue_id", JStr (i_id issue));
                           ("self", JStr (i_self issue))])).

Definition _get_issue (message : json) : M W json :=
  let* data := lift (py_get message "data" (dict [])) in
  let* issue_key := lift (py_get data "issue_key" JNull) in
  if negb (py_truthy issue_key) then ret (error_envelope "Missing issue key") else
  let* issue := call (GetIssue issue_key) (jira_issue jira issue_key) in
  ret (success_data (dict [("issue_key", JStr (i_key issue));
                           ("summary", JStr (i_summary issue));
                           ("description", opt_str (i_description issue));
                           ("status", JStr (i_status issue))])).

(** [if k in data: update_fields[k] = data[k]] *)
Definition copy_field (k : string) (data : json) (update_fields : gmap string json)
    : Result (gmap string json) :=
  match py_contains k data with
  | Ok true =>
      match py_getitem py data k with
      | Ok v => Ok (<[k := v]> update_fields)
      | Err e => Err e
      end
  | Ok false => Ok update_fields
  | Err e => Err e
  end.

Definition _update_issue (message : json) : M W json :=
  let* data := lift (py_get message "data" (dict [])) in
  let* issue_key := lift (py_get data "issue_key" JNull) in
  if negb (py_truthy issue_key) then ret (error_envelope "Missing issue key") else
  let* update_fields := lift (copy_field "summary" data ∅) in
  let* update_fields := lift (copy_field "description" data update_fields) in
  let* issue := call (GetIssue issue_key) (jira_issue jira issue_key) in
  let finish : M W json :=
    (if py_truthy (JDict update_fields)
     then call (UpdateIssue issue (JDict update_fields))
               (issue_update jira issue (JDict update_fields))
     else ret tt);;
    ret (success_message ("Updated issue " +:+ py_str py issue_key)) in
  let* has_status := lift (py_contains "status" data) in
  if has_status then
    let* transitions := call (GetTransitions issue) (jira_transitions jira issue) in
    let* status := lift (py_getitem py data "status") in
    let* target_status := lift (py_lower py status) in
    let '(transition_id, available_transitions) :=
      find_transition py target_status transitions [] in
    if id_truthy transition_id then
      call (TransitionIssue issue (default EmptyString transition_id))
           (jira_transition_issue jira issue (default EmptyString transition_id));;
      finish
    else
      let suggestion_msg :=
        "Available status transitions are: " +:+ str_join ", " available_transitions in
      let* status := lift (py_getitem py data "status") in
      ret (error_envelope ("No transition found to status: " +:+ py_str py status
                             +:+ ". " +:+ suggestion_msg))
  else finish.

(** The [except] clauses shared by the search and list handlers. *)
Definition api_except (e : Exn) : M W json :=
  match e with
  | JIRAError status_code text _ =>
      ret (error_envelope ("JIRA API error: " +:+ py_str py status_code
                             +:+ " - " +:+ py_str py text))
  | ValueError s => ret (error_envelope ("Invalid input: " +:+ s))
  | OtherException _ _ => ret (error_envelope "An unexpected error occurred")
  end.

(** [int(data.get(k, default))] *)
Definition requested_int (data : json) (k : string) (default : json) : Result Z :=
  match py_get data k default with
  | Ok v => py_int py v
  | Err e => Err e
  end.

(** [max(1, int(data.get('page', 1)))] and
    [min(self.config.max_results, int(data.get('page_size', 20)))] *)
Definition get_page (data : json) : Result Z :=
  match requested_int data "page" (JInt 1) with
  | Ok p => Ok (Z.max 1 p)
  | Err e => Err e
  end.

Definition get_page_size (data : json) : Result Z :=
  match requested_int data "page_size" (JInt 20) with
  | Ok n => Ok (Z.min (max_results config) n)
  | Err e => Err e
  end.

(** The pagination block: [(total + page_size - 1) // page_size] may raise. *)
Definition pagination_block (tot page page_size : Z) : Result json :=
  match py_floordiv (tot + page_size - 1) page_size with
  | Ok total_pages => Ok (pagination tot page page_size total_pages)
  | Err e => Err e
  end.

Definition search_jql (title_only search_text : json) : string :=
  if py_truthy title_only
  then "summary ~ " +:+ dq +:+ py_str py search_text +:+ dq +:+ " AND issuetype != Epic"
  else "(summary ~ " +:+ dq +:+ py_str py search_text +:+ dq
         +:+ " OR description ~ " +:+ dq +:+ py_str py search_text +:+ dq
         +:+ ") AND issuetype != Epic".

Definition _search_issues (message : json) : M W json :=
  let* data := lift (py_get message "data" (dict [])) in
  let* search_text := lift (py_get data "search_text" JNull) in
  let* title_only := lift (py_get data "title_only" (JBool false)) in
  let* page := lift (get_page data) in
  let* page_size := lift (get_page_size data) in
  if negb (py_truthy search_text) then ret (error_envelope "Missing search text") else
  try_except
    (let jql := search_jql title_only search_text in
     let start_at := (page - 1) * page_size in
     let* found := call (SearchIssues jql start_at page_size)
                        (jira_search_issues jira jql start_at page_size) in
     let results := map search_row (issues found) in
     let* pag := lift (pagination_block (total found) page page_size) in
     ret (success_data (dict [("issues", JList results); ("pagination", pag)])))
    api_except.

(** [next((e for e in epics if e.fields.summary.lower() == epic_name.lower()), None)]:
    the first epic whose summary equals [epic_name] up to case. *)
Fixpoint first_exact (epics : list Issue) (epic_name : json) : Result (option Issue) :=
  match epics with
  | [] => Ok None
  | e :: r =>
      match py_lower py epic_name with
      | Ok name =>
          if String.eqb (str_lower py (i_summary e)) name then Ok (Some e)
          else first_exact r epic_name
      | Err x => Err x
      end
  end.

(** [next((...), epics[0])] on a list that is not empty *)
Definition select_epic (first : Issue) (rest : list Issue) (epic_name : json)
    : Result Issue :=
  match first_exact (first :: rest) epic_name with
  | Ok (Some e) => Ok e
  | Ok None => Ok first
  | Err x => Err x
  end.

Definition epic_jql (epic_name : json) : string :=
  "issuetype = Epic AND (summary ~ " +:+ dq +:+ py_str py epic_name +:+ dq
    +:+ " OR summary = " +:+ dq +:+ py_str py epic_name +:+ dq +:+ ")".

Definition subtasks_jql (epic : Issue) : string :=
  dq +:+ "Epic Link" +:+ dq +:+ " = " +:+ i_key epic +:+ " ORDER BY created DESC".

(** The second half of [_get_epic_with_subtasks], once the epic is chosen:
    the page of its linked issues and the result. *)
Definition epic_subtasks (epic : Issue) (page page_size : Z) : M W json :=
  let start_at := (page - 1) * page_size in
  let* subtasks := call (SearchIssues (subtasks_jql epic) start_at page_size)
                        (jira_search_issues jira (subtasks_jql epic) start_at page_size) in
  let rows := map subtask_row (issues subtasks) in
  let* pag := lift (pagination_block (total subtasks) page page_size) in
  ret (success_data
         (dict [("epic", epic_block epic);
                ("subtasks", dict [("issues", JList rows); ("pagination", pag)])])).

Definition _get_epic_with_subtasks (message : json) : M W json :=
  let* data := lift (py_get message "data" (dict [])) in
  let* epic_name := lift (py_get data "epic_name" JNull) in
  let* page := lift (get_page data) in
  let* page_size := lift (get_page_size data) in
  if negb (py_truthy epic_name) then ret (error_envelope "Missing epic name") else
  try_except
    (let* epics := call (SearchIssues (epic_jql epic_name) 0 5)
                        (jira_search_issues jira (epic_jql epic_name) 0 5) in
     match issues epics with
     | [] => ret (error_envelope ("No epic found with name containing " +:+ dq
                                    +:+ py_str py epic_name +:+ dq))
     | first :: rest =>
         let* epic := lift (select_epic first rest epic_name) in
         epic_subtasks epic page page_size
     end)
    api_except.

Definition sort_fields : list string :=
  ["created"; "updated"; "priority"; "status"; "duedate"].

(** The query of [_get_my_issues]: the filters joined with [' AND '], then
    the sort clause when [sort_by] is one of [sort_fields]. *)
Definition my_issues_jql (status project sort_by : json) (sort_order : string) : string :=
  let jql_parts :=
    (["assignee = currentUser()"]
       ++ (if py_truthy status
           then ["status = " +:+ dq +:+ py_str py status +:+ dq] else [])
       ++ (if py_truthy project
           then ["project = " +:+ dq +:+ py_str py project +:+ dq] else []))%list in
  let jql := str_join " AND " jql_parts in
  if existsb (py_eq_str sort_by) sort_fields
  then jql +:+ " ORDER BY " +:+ py_str py sort_by +:+ " " +:+ sort_order
  else jql.

Definition _get_my_issues (message : json) : M W json :=
  try_except
    (let* data := lift (py_get message "data" (dict [])) in
     let* page := lift (get_page data) in
     let* page_size := lift (get_page_size data) in
     let* status := lift (py_get data "status" JNull) in
     let* project := lift (py_get data "project" JNull) in
     let* sort_by := lift (py_get data "sort_by" (JStr "updated")) in
     let* requested_order := lift (py_get data "sort_order" (JStr "DESC")) in
     let* sort_order := lift (py_upper py requested_order) in
     let jql := my_issues_jql status project sort_by sort_order in
     let start_at := (page - 1) * page_size in
     let* found := call (SearchIssues jql start_at page_size)
                        (jira_search_issues jira jql start_at page_size) in
     let results := map my_issue_row (issues found) in
     let* pag := lift (pagination_block (total found) page page_size) in
     ret (success_data (dict [("issues", JList results); ("pagination", pag)])))
    api_except.

Definition transition_detail (current_status : string) (t : Transition) : json :=
  dict [("id", JStr (t_id t)); ("name", JStr (t_name t));
        ("from_status", JStr current_status); ("to_status", JStr (t_to t))].

Definition _get_transitions (message : json) : M W json :=
  let* data := lift (py_get message "data" (dict [])) in
  let* issue_key := lift (py_get data "issue_key" JNull) in
  if negb (py_truthy issue_key) then ret (error_envelope "Missing issue key") else
  let* issue := call (GetIssue issue_key) (jira_issue jira issue_key) in
  let* transitions := call (GetTransitions issue) (jira_transitions jira issue) in
  let current_status := i_status issue in
  let next_possible := sorted_set (map t_to transitions) in
  ret (success_data
         (dict [("issue_key", issue_key);
                ("current_status", JStr current_status);
                ("available_transitions",
                 dict [("current", JStr current_status);
                       ("possible_next_statuses", JList (map JStr next_possible));
                       ("details", JList (map (transition_detail current_status) transitions))])])).

(** The seven recognised command names, in the order of the dispatch. *)
Definition commands : list string :=
  ["create_issue"; "get_issue"; "update_issue"; "search_issues";
   "get_epic_with_subtasks"; "get_my_issues"; "get_transitions"].

Definition dispatch (command message : json) : M W json :=
  if py_eq_str command "create_issue" then _create_issue message
  else if py_eq_str command "get_issue" then _get_issue message
  else if py_eq_str command "update_issue" then _update_issue message
  else if py_eq_str command "search_issues" then _search_issues message
  else if py_eq_str command "get_epic_with_subtasks" then _get_epic_with_subtasks message
  else if py_eq_str command "get_my_issues" then _get_my_issues message
  else if py_eq_str command "get_transitions" then _get_transitions message
  else ret (error_envelope ("Unknown command: " +:+ py_str py command)).

(** The body of the [try] of [handle_mcp_message]. *)
Definition handle_body (message : json) : M W json :=
  let* command := lift (py_get message "command" JNull) in
  if negb (py_truthy command) then ret (error_envelope "No command specified")
  else dispatch command message.

Definition handle_mcp_message (message : json) : M W json :=
  try_except (handle_body message)
             (fun e => ret (error_envelope (exn_str e))).

End Server.

(** ** Configuration and the HTTP boundary *)

(** What [await request.json()] gives: the decoded body, a
    [json.JSONDecodeError], or any other exception. *)
Inductive Body : Type :=
| Decoded (v : json)
| Malformed (msg : string)
| Unreadable (e : Exn).

Record Request : Type := { content_type : string; body : Body }.

(** [web.json_response(payload, status=http_status)] *)
Record Response : Type := { http_status : Z; payload : json }.

Section Boundary.

Variable py : Python.
Context {W : Type}.
Variable jira : JiraClient W.
Variable config : JiraConfig.

(** [os.getenv(name, default)] over the environment of the process *)
Definition getenv (environ : gmap string string) (name default : string) : string :=
  match environ !! name with Some v => v | None => default end.

(** [MCPJiraServer.__init__] up to its check of the configuration; the
    construction of the client that follows is the library's. *)
Definition init_config (environ : gmap string string) : Result JiraConfig :=
  let server := getenv environ "JIRA_SERVER" EmptyString in
  let user := getenv environ "JIRA_USER" EmptyString in
  let token := getenv environ "JIRA_TOKEN" EmptyString in
  match py_int py (JStr (getenv environ "JIRA_TIMEOUT" "30")) with
  | Err e => Err e
  | Ok timeout =>
      match py_int py (JStr (getenv environ "JIRA_MAX_RESULTS" "50")) with
      | Err e => Err e
      | Ok max_results =>
          if forallb (fun v => py_truthy (JStr v)) [server; user; token]
          then Ok {| server := server; user := user; token := token;
                     timeout := timeout; max_results := max_results |}
          else Err (ValueError "Missing required JIRA configuration")
      end
  end.

Definition request_json (request : Request) : Result json :=
  match body request with
  | Decoded v => Ok v
  | Malformed msg => Err (ValueError msg)
  | Unreadable e => Err e
  end.

Definition validate_request (request : Request) : Result (bool * option string) :=
  if negb (String.eqb (content_type request) "application/json")
  then Ok (false, Some "Content-Type must be application/json")
  else match body request with
       | Decoded _ => Ok (true, None)
       | Malformed _ => Ok (false, Some "Invalid JSON payload")
       | Unreadable e => Err e
       end.

(** [asyncio.wait_for(coroutine, timeout=30)]: the library's; it gives back
    the result of the coroutine or raises.  [asyncio.TimeoutError] is the
    exception of class ["TimeoutError"]. *)
Variable wait_for : M W json -> M W json.

Definition is_timeout (e : Exn) : bool :=
  match e with
  | OtherException cls _ => String.eqb cls "TimeoutError"
  | _ => false
  end.

Definition handle_request (request : Request) : M W Response :=
  try_except
    (let* validity := lift (validate_request request) in
     let '(is_valid, error_message) := validity in
     if negb is_valid then
       ret {| http_status := 400;
              payload := dict [("status", JStr "error");
                               ("message", opt_str error_message)] |}
     else
       try_except
         (let* data := lift (request_json request) in
          let* response := wait_for (handle_mcp_message py jira config data) in
          ret {| http_status := 200; payload := response |})
         (fun e =>
            if is_timeout e
            then ret {| http_status := 504; payload := error_envelope "Request timed out" |}
            else raise e))
    (fun e => ret {| http_status := 500;
                     payload := error_envelope "An unexpected error occurred" |}).

End Boundary.

(** ** Observations on envelopes, messages and logs *)

Definition has_key (k : string) (d : gmap string json) : bool :=
  bool_decide (is_Some (d !! k)).

(** An envelope of the shape [{status, data | message}]: the status is
    ["success"] or ["error"], exactly one of [data] and [message] is there,
    and an error carries [message]. *)
Definition envelope_ok (env : json) : bool :=
  match env with
  | JDict d =>
      match d !! "status" with
      | Some (JStr st) =>
          if String.eqb st "error" then has_key "message" d && negb (has_key "data" d)
          else if String.eqb st "success" then xorb (has_key "data" d) (has_key "message" d)
          else false
      | _ => false
      end
  | _ => false
  end.

Definition is_error (env : json) : bool :=
  match env with
  | JDict d => match d !! "status" with
               | Some (JStr st) => String.eqb st "error"
               | _ => false
               end
  | _ => false
  end.

(** The command of a message is one of the seven names. *)
Definition recognised (message : json) : bool :=
  match message with
  | JDict m => match m !! "command" with
               | Some (JStr c) => existsb (String.eqb c) commands
               | _ => false
               end
  | _ => false
  end.

Definition message_of (command : string) (data : list (string * json)) : json :=
  dict [("command", JStr command); ("data", dict data)].

Definition start {W} (w : W) : St W := {| world := w; calls := [] |}.

(** ** Sample clients *)

Module Sample.

Definition issue (k summ : string) : Issue :=
  {| i_key := k; i_id := "10001"; i_self := "https://jira.example/rest/api/2/issue/10001";
     i_summary := summ; i_description := None; i_status := "To Do";
     i_created := "2024-01-01"; i_updated := "2024-01-02";
     i_assignee := None; i_reporter := Some "ann"; i_priority := None;
     i_project_key := "PROJ"; i_project_name := "Project";
     i_issuetype := "Task"; i_subtask := false; i_duedate := None |}.

Definition transitions : list Transition :=
  [ {| t_id := "11"; t_name := "Start"; t_to := "In Progress" |};
    {| t_id := "21"; t_name := "Finish"; t_to := "Done" |} ].

Definition epics : list Issue :=
  [issue "EP-1" "Checkout flow v2"; issue "EP-2" "checkout FLOW"; issue "EP-3" "Checkout"].

(** A tracker that accepts every call; a search for epics finds [epics],
    any other search finds one issue out of [tot]. *)
Definition accepting (tot : Z) : JiraClient unit :=
  {| jira_create_issue := fun _ w => (Ok (issue "PROJ-7" "new"), w);
     jira_issue := fun _ w => (Ok (issue "PROJ-1" "old"), w);
     jira_transitions := fun _ w => (Ok transitions, w);
     jira_transition_issue := fun _ _ w => (Ok tt, w);
     issue_update := fun _ _ w => (Ok tt, w);
     jira_search_issues := fun jql _ _ w =>
       (Ok (if str_contains "issuetype = Epic" jql
            then {| issues := epics; total := 3 |}
            else {| issues := [issue "PROJ-1" "old"]; total := tot |}), w) |}.

(** A tracker that refuses every call. *)
Definition refusing : JiraClient unit :=
  let e := JIRAError (JInt 400) (JStr "Bad Request") "JiraError HTTP 400" in
  {| jira_create_issue := fun _ w => (Err e, w);
     jira_issue := fun _ w => (Err e, w);
     jira_transitions := fun _ w => (Err e, w);
     jira_transition_issue := fun _ _ w => (Err e, w);
     issue_update := fun _ _ w => (Err e, w);
     jira_search_issues := fun _ _ _ w => (Err e, w) |}.

(** A tracker that accepts every call but the update of fields. *)
Definition frozen_fields : JiraClient unit :=
  {| jira_create_issue := jira_create_issue (accepting 5);
     jira_issue := jira_issue (accepting 5);
     jira_transitions := jira_transitions (accepting 5);
     jira_transition_issue := jira_transition_issue (accepting 5);
     issue_update := fun _ _ w =>
       (Err (JIRAError (JInt 403) (JStr "Forbidden") "JiraError HTTP 403"), w);
     jira_search_issues := jira_search_issues (accepting 5) |}.

Definition config : JiraConfig :=
  {| server := "https://jira.example"; user := "ann"; token := "secret";
     timeout := 30; max_results := 50 |}.

Definition repr (v : json) : string := "<repr>".

(** A runtime for ASCII strings. *)
Definition python : Python :=
  {| py_repr := repr;
     str_lower := ascii_lower;
     str_upper := ascii_upper;
     int_str := fun s =>
       match parse_int s with
       | Some z => Ok z
       | None => Err (ValueError ("invalid literal for int() with base 10: "
                                    +:+ repr (JStr s)))
       end;
     str_lower_ascii := fun _ _ => eq_refl;
     str_upper_ascii := fun _ _ => eq_refl;
     int_str_ascii := fun _ _ _ => eq_refl |}.

End Sample.

(** ** The vocabulary of the properties *)

Section Vocabulary.

Variable py : Python.
Context {W : Type}.
Variable jira : JiraClient W.
Variable config : JiraConfig.

(** Every result that [m] returns satisfies [P]. *)
Definition post {A} (P : A -> Prop) (m : M W A) : Prop :=
  forall s, match fst (m s) with
            | Ok a => P a
            | Err _ => True
            end.

Definition envelopes : M W json -> Prop := post (fun env => envelope_ok env = true).

(** [m] returns: it raises in no state. *)
Definition returns {A} (m : M W A) : Prop :=
  forall s, exists a s', m s = (Ok a, s').

Definition is_an_error (env : json) : Prop := exists msg, env = error_envelope msg.

(** The envelope invariant in words: a dictionary whose [status] is
    ["error"] with a [message] and no [data], or ["success"] with exactly
    one of [data] and [message]. *)
Definition Envelope (env : json) : Prop :=
  exists d, env = JDict d /\
    ((d !! "status" = Some (JStr "error")
      /\ is_Some (d !! "message") /\ d !! "data" = None)
     \/ (d !! "status" = Some (JStr "success")
         /\ ((is_Some (d !! "data") /\ d !! "message" = None)
             \/ (d !! "data" = None /\ is_Some (d !! "message"))))).

(** [ceil(total / page_size)], the least integer not below the quotient. *)
Definition ceil_div (tot page_size : Z) : Z :=
  Qceiling (inject_Z tot / inject_Z page_size).

(** The value under a path of keys. *)
Fixpoint lookup_path (path : list string) (v : json) : option json :=
  match path with
  | [] => Some v
  | k :: r =>
      match v with
      | JDict d => match d !! k with
                   | Some x => lookup_path r x
                   | None => None
                   end
      | _ => None
      end
  end.

(** A pagination block that satisfies the specification, as far as the
    code goes: [page_size] is at most the configured maximum and, when
    [page_size] is positive, [total_pages] is [ceil(total / page_size)]. *)
Definition Paginated (maximum : Z) (block : option json) : Prop :=
  exists tot page page_size total_pages,
    block = Some (pagination tot page page_size total_pages)
    /\ page_size <= maximum
    /\ (0 < page_size -> total_pages = ceil_div tot page_size).

(** The message [m] with [d] as its data. *)
Definition with_data (m d : gmap string json) : json :=
  JDict (<["data" := JDict d]> m).

(** The data of a request for page [p] with page size [n]. *)
Definition paged (d : gmap string json) (p n : Z) : gmap string json :=
  <["page" := JInt p]> (<["page_size" := JInt n]> d).

(** The fields of a new issue of type [issue_type]. *)
Definition issue_fields (p su de issue_type : json) : gmap string json :=
  list_to_map [("project", dict [("key", p)]); ("summary", su); ("description", de);
               ("issuetype", dict [("name", issue_type)])].

(** The handler submits exactly [fields] to the tracker, once, and its
    result follows the tracker's answer: the success envelope of the new
    issue, or the exception the tracker raised. *)
Definition submits (message : json) (s : St W) (fields : json) : Prop :=
  _create_issue py jira message s
  = let '(answer, w) := jira_create_issue jira fields (world s) in
    (match answer with
     | Ok issue => Ok (success_data (dict [("issue_key", JStr (i_key issue));
                                           ("issue_id", JStr (i_id issue));
                                           ("self", JStr (i_self issue))]))
     | Err e => Err e
     end,
     {| world := w; calls := calls s ++ [CreateIssue fields] |}).

(** What a successful envelope holds under [path]. *)
Definition paginates (path : list string) (env : json) : Prop :=
  is_error env = false -> Paginated (max_results config) (lookup_path path env).

(** Two data dictionaries that the paginated handlers cannot tell apart:
    same page, same page size, and the same value under every other key
    that they read. *)
Definition same_request (d d' : gmap string json) : Prop :=
  get_page py (JDict d) = get_page py (JDict d')
  /\ get_page_size py config (JDict d) = get_page_size py config (JDict d')
  /\ forall k, k <> "page" -> k <> "page_size" -> d !! k = d' !! k.

(** The search of one page: for requested page [p] and page size [n], the
    offset is [(page - 1) * page_size] with [page = max(1, p)] and
    [page_size = min(max_results, n)]. *)
Definition page_search (p n : Z) (jql : string) : Call :=
  let page := Z.max 1 p in
  let page_size := Z.min (max_results config) n in
  SearchIssues jql ((page - 1) * page_size) page_size.

(** [e] matches [name] exactly, up to case. *)
Definition exact_match (name : string) (e : Issue) : Prop :=
  str_lower py (i_summary e) = str_lower py name.

(** [epic] is the choice among the candidates [epics]: the first exact
    match when there is one, the first candidate otherwise. *)
Definition chosen (name : string) (epics : list Issue) (epic : Issue) : Prop :=
  (exists before rest,
      epics = before ++ epic :: rest
      /\ exact_match name epic /\ Forall (fun e => ~ exact_match name e) before)
  \/ (Forall (fun e => ~ exact_match name e) epics /\ head epics = Some epic).

(** Whatever [m] adds to the log of calls satisfies [Q]; the log it found
    is kept. *)
Definition appends {A} (Q : Call -> Prop) (m : M W A) : Prop :=
  forall s, exists new, calls (m s).2 = calls s ++ new /\ Forall Q new.

Definition reads_only (c : Call) : Prop := is_mutation c = false.

(** [l] is in strictly increasing order of [String.compare]. *)
Definition increasing (l : list string) : Prop :=
  StronglySorted (fun x y => String.compare x y = Lt) l.

(** [asyncio.wait_for] gives the result of the coroutine or raises. *)
Definition awaits (wait_for : M W json -> M W json) : Prop :=
  forall m s, wait_for m s = m s \/ exists e s', wait_for m s = (Err e, s').

(** The fields that update_issue is asked to change: the summary and the
    description that the data holds. *)
Definition requested_fields (d : gmap string json) : gmap string json :=
  let with_summary : gmap string json :=
    match d !! "summary" with Some v => <["summary" := v]> ∅ | None => ∅ end in
  match d !! "description" with
  | Some v => <["description" := v]> with_summary
  | None => with_summary
  end.

(** The end of update_issue from world [w] and log [log]: the fields, if
    there are any, are sent in one update, whose failure is the failure of
    the handler; then the confirmation. *)
Definition update_outcome (issue : Issue) (issue_key : json) (fields : gmap string json)
    (w : W) (log : list Call) : Result json * St W :=
  let confirmation :=
    success_message ("Updated issue " +:+ py_str py issue_key) in
  if bool_decide (fields = ∅) then (Ok confirmation, {| world := w; calls := log |})
  else
    let '(answer, w') := issue_update jira issue (JDict fields) w in
    (match answer with Ok _ => Ok confirmation | Err e => Err e end,
     {| world := w'; calls := log ++ [UpdateIssue issue (JDict fields)] |}).

End Vocabulary.

(** ** Reasoning about handlers *)

Section Post.

Context {W : Type}.

Lemma post_ret {A} (P : A -> Prop) a : P a -> post (W := W) P (ret a).
Proof. intros H s. exact H. Qed.

Lemma post_bind {A B} (P : B -> Prop) (m : M W A) (k : A -> M W B) :
  (forall a, post P (k a)) -> post P (bind m k).
Proof.
  intros H s. unfold bind. destruct (m s) as [[a | e] s']; [apply H | exact I].
Qed.

(** Binding a pure result: the continuation knows what it was given. *)
Lemma post_bind_lift {A B} (P : B -> Prop) (r : Result A) (k : A -> M W B) :
  (forall a, r = Ok a -> post P (k a)) -> post P (bind (lift r) k).
Proof.
  intros H s. unfold bind, lift. destruct r as [a | e]; [ | exact I ].
  now apply H.
Qed.

Lemma post_try {A} (P : A -> Prop) (body : M W A) (h : Exn -> M W A) :
  post P body -> (forall e, post P (h e)) -> post P (try_except body h).
Proof.
  intros Hb Hh s. unfold try_except. specialize (Hb s).
  destruct (body s) as [[a | e] s']; [exact Hb | apply Hh].
Qed.

Lemma post_weaken {A} (P Q : A -> Prop) (m : M W A) :
  (forall a, P a -> Q a) -> post P m -> post Q m.
Proof.
  intros HPQ H s. specialize (H s). destruct (fst (m s)); auto.
Qed.

Lemma envelopes_ret env : envelope_ok env = true -> envelopes (W := W) (ret env).
Proof. exact (post_ret (fun e => envelope_ok e = true) env). Qed.

Lemma envelopes_bind {A} (m : M W A) (k : A -> M W json) :
  (forall a, envelopes (k a)) -> envelopes (bind m k).
Proof. exact (post_bind (fun e => envelope_ok e = true) m k). Qed.

Lemma envelopes_try (body : M W json) (h : Exn -> M W json) :
  envelopes body -> (forall e, envelopes (h e)) -> envelopes (try_except body h).
Proof. exact (post_try (fun e => envelope_ok e = true) body h). Qed.

Lemma error_envelope_ok msg : envelope_ok (error_envelope msg) = true.
Proof. reflexivity. Qed.

Lemma success_data_ok data : envelope_ok (success_data data) = true.
Proof. reflexivity. Qed.

Lemma success_message_ok msg : envelope_ok (success_message msg) = true.
Proof. reflexivity. Qed.

End Post.

Ltac envelopes_step :=
  first
    [ apply envelopes_ret;
      first [ apply error_envelope_ok | apply success_data_ok | apply success_message_ok ]
    | apply envelopes_bind; intros
    | apply envelopes_try; [ | intros ]
    | match goal with
      | |- envelopes (if ?b then _ else _) => destruct b
      | |- envelopes (match ?x with _ => _ end) => destruct x
      | |- envelopes (let '(_, _) := ?x in _) => destruct x
      end ].

Section Properties.

Variable py : Python.
Context {W : Type}.
Variable jira : JiraClient W.
Variable config : JiraConfig.

Lemma api_except_envelopes e : envelopes (api_except py (W := W) e).
Proof. destruct e; repeat envelopes_step. Qed.

Lemma create_issue_envelopes message : envelopes (_create_issue py jira message).
Proof. unfold _create_issue. repeat envelopes_step. Qed.

Lemma get_issue_envelopes message : envelopes (_get_issue jira message).
Proof. unfold _get_issue. repeat envelopes_step. Qed.

Lemma update_issue_envelopes message : envelopes (_update_issue py jira message).
Proof. unfold _update_issue. repeat envelopes_step. Qed.

Lemma search_issues_envelopes message :
  envelopes (_search_issues py jira config message).
Proof.
  unfold _search_issues. repeat first [ apply api_except_envelopes | envelopes_step ].
Qed.

Lemma get_epic_with_subtasks_envelopes message :
  envelopes (_get_epic_with_subtasks py jira config message).
Proof.
  unfold _get_epic_with_subtasks, epic_subtasks.
  repeat first [ apply api_except_envelopes | envelopes_step ].
Qed.

Lemma get_my_issues_envelopes message :
  envelopes (_get_my_issues py jira config message).
Proof.
  unfold _get_my_issues. repeat first [ apply api_except_envelopes | envelopes_step ].
Qed.

Lemma get_transitions_envelopes message : envelopes (_get_transitions jira message).
Proof. unfold _get_transitions. repeat envelopes_step. Qed.

Lemma dispatch_envelopes command message :
  envelopes (dispatch py jira config command message).
Proof.
  unfold dispatch.
  repeat match goal with
         | |- envelopes (if ?b then _ else _) => destruct b
         end;
    auto using create_issue_envelopes, get_issue_envelopes, update_issue_envelopes,
      search_issues_envelopes, get_epic_with_subtasks_envelopes,
      get_my_issues_envelopes, get_transitions_envelopes.
  apply envelopes_ret, error_envelope_ok.
Qed.

Lemma handle_mcp_message_envelopes message :
  envelopes (handle_mcp_message py jira config message).
Proof.
  unfold handle_mcp_message, handle_body.
  apply envelopes_try; [ | intros; apply envelopes_ret, error_envelope_ok ].
  apply envelopes_bind; intros command.
  destruct (negb (py_truthy command)).
  - apply envelopes_ret, error_envelope_ok.
  - apply dispatch_envelopes.
Qed.

(** [handle_mcp_message] returns: no exception leaves it. *)
Lemma handle_mcp_message_returns message s :
  exists env s', handle_mcp_message py jira config message s = (Ok env, s').
Proof.
  unfold handle_mcp_message, try_except.
  destruct (handle_body py jira config message s) as [[env | e] s']; eauto.
Qed.

End Properties.

(** ** The response envelope *)

Lemma has_key_true k (d : gmap string json) : has_key k d = true -> is_Some (d !! k).
Proof. unfold has_key. intros H. now apply bool_decide_eq_true in H. Qed.

Lemma has_key_false k (d : gmap string json) : has_key k d = false -> d !! k = None.
Proof.
  unfold has_key. intros H. apply bool_decide_eq_false in H.
  destruct (d !! k) eqn:E; [ | reflexivity ]. exfalso. apply H. eauto.
Qed.

Lemma envelope_ok_spec env : envelope_ok env = true -> Envelope env.
Proof.
  destruct env as [ | | | | | | d]; try discriminate. simpl.
  destruct (d !! "status") as [[ | | | | st | | ] | ] eqn:Est; try discriminate.
  destruct (String.eqb st "error") eqn:Eerr.
  - apply String.eqb_eq in Eerr. subst st. intros H.
    apply andb_prop in H. destruct H as [Hm Hd].
    apply negb_true_iff in Hd.
    exists d. split; [ reflexivity | left ].
    auto using has_key_true, has_key_false.
  - destruct (String.eqb st "success") eqn:Esuc; [ | discriminate ].
    apply String.eqb_eq in Esuc. subst st. intros H.
    exists d. split; [ reflexivity | right ]. split; [ exact Est | ].
    destruct (has_key "data" d) eqn:Hd, (has_key "message" d) eqn:Hm;
      try discriminate; auto using has_key_true, has_key_false.
Qed.

Section Dispatcher.

Variable py : Python.
Context {W : Type}.
Variable jira : JiraClient W.
Variable config : JiraConfig.

Local Abbreviation handle := (handle_mcp_message py jira config).

(** C9. For every message the dispatcher returns an envelope whose status
    is "success" or "error" and in which exactly one of [data] and
    [message] is present: an error envelope carries [message] and no
    [data], a success envelope carries exactly one of the two. *)
Theorem envelope_invariant (message : json) (s : St W) :
  exists env s', handle message s = (Ok env, s') /\ Envelope env.
Proof.
  destruct (handle_mcp_message_returns py jira config message s) as (env & s' & E).
  exists env, s'. split; [ exact E | ].
  apply envelope_ok_spec.
  pose proof (handle_mcp_message_envelopes py jira config message s) as H.
  now rewrite E in H.
Qed.

Lemma unknown_command_not_dispatched (command : json) (message : json) (s : St W) :
  (forall c, In c commands -> py_eq_str command c = false) ->
  dispatch py jira config command message s
  = (Ok (error_envelope ("Unknown command: " +:+ py_str py command)), s).
Proof.
  intros H. unfold dispatch.
  rewrite !H by (unfold commands; simpl; tauto). reflexivity.
Qed.

Lemma unrecognised_error (message : json) (s : St W) :
  recognised message = false ->
  exists msg, handle message s = (Ok (error_envelope msg), s).
Proof.
  intros Hrec. unfold handle_mcp_message, try_except, handle_body, bind, lift.
  destruct message as [ | | | | | | m]; try (eexists; reflexivity).
  cbn [py_get]. cbn [recognised] in Hrec.
  set (command := match m !! "command" with Some v => v | None => JNull end).
  destruct (negb (py_truthy command)) eqn:Et; [ eexists; reflexivity | ].
  rewrite unknown_command_not_dispatched; [ eexists; reflexivity | ].
  intros c Hc. subst command.
  destruct (m !! "command") as [[ | | | | name | | ] | ]; try reflexivity.
  cbn [py_eq_str].
  destruct (String.eqb name c) eqn:E; [ | reflexivity ].
  apply String.eqb_eq in E. subst c.
  assert (existsb (String.eqb name) commands = true) as Hex.
  { apply existsb_exists. exists name. split; [ exact Hc | apply String.eqb_refl ]. }
  congruence.
Qed.

(** C8. A message whose command is missing or is none of the seven names
    gets an error envelope and the tracker is left untouched (no call, same
    world); whatever exception the handling raises is turned into the error
    envelope of its [str]; and [handle_mcp_message] always returns. *)
Theorem dispatcher_catches_everything (message : json) (s : St W) :
  (recognised message = false ->
   exists msg, handle message s = (Ok (error_envelope msg), s))
  /\ (forall e s', handle_body py jira config message s = (Err e, s') ->
      handle message s = (Ok (error_envelope (exn_str e)), s'))
  /\ (exists env s', handle message s = (Ok env, s')).
Proof.
  split; [ apply unrecognised_error | split ].
  - intros e s' H. unfold handle_mcp_message, try_except. now rewrite H.
  - apply handle_mcp_message_returns.
Qed.

End Dispatcher.

(** A message with an unknown command, one without a command, and a
    request that the tracker refuses. *)
Lemma dispatcher_catches_everything_witness :
  (exists msg, handle_mcp_message Sample.python (Sample.accepting 5) Sample.config
                 (message_of "delete_issue" []) (start tt)
               = (Ok (error_envelope msg), start tt))
  /\ (exists msg, handle_mcp_message Sample.python (Sample.accepting 5) Sample.config
                    (dict [("data", dict [])]) (start tt)
                  = (Ok (error_envelope msg), start tt))
  /\ handle_mcp_message Sample.python Sample.refusing Sample.config
       (message_of "get_issue" [("issue_key", JStr "PROJ-1")]) (start tt)
     = (Ok (error_envelope "JiraError HTTP 400"),
        {| world := tt; calls := [GetIssue (JStr "PROJ-1")] |}).
Proof.
  split; [ | split ].
  - apply (dispatcher_catches_everything Sample.python (Sample.accepting 5) Sample.config
             (message_of "delete_issue" []) (start tt)).
    vm_compute. reflexivity.
  - apply (dispatcher_catches_everything Sample.python (Sample.accepting 5) Sample.config
             (dict [("data", dict [])]) (start tt)).
    vm_compute. reflexivity.
  - refine (proj1 (proj2 (dispatcher_catches_everything Sample.python Sample.refusing
                              Sample.config
                              (message_of "get_issue" [("issue_key", JStr "PROJ-1")])
                              (start tt)))
                  (JIRAError (JInt 400) (JStr "Bad Request") "JiraError HTTP 400") _ _).
    vm_compute. reflexivity.
Defined.

(** ** create_issue *)

Section CreateIssue.

Variable py : Python.
Context {W : Type}.
Variable jira : JiraClient W.

Lemma all_in_dict ks (d : gmap string json) :
  all_in ks (JDict d) = Ok (forallb (fun k => bool_decide (is_Some (d !! k))) ks).
Proof.
  induction ks as [ | k ks IH]; [ reflexivity | ].
  cbn [all_in py_contains forallb].
  destruct (bool_decide (is_Some (d !! k))); [ exact IH | reflexivity ].
Qed.

Lemma required_missing (d : gmap string json) :
  d !! "project" = None \/ d !! "summary" = None \/ d !! "description" = None ->
  all_in ["project"; "summary"; "description"] (JDict d) = Ok false.
Proof.
  intros H. rewrite all_in_dict. f_equal. cbn [forallb].
  destruct H as [H | [H | H]]; rewrite H;
    rewrite (bool_decide_eq_false_2 (is_Some None)) by (intros [? ?]; discriminate);
    rewrite ?andb_false_r; reflexivity.
Qed.

Lemma required_present (d : gmap string json) p su de :
  d !! "project" = Some p -> d !! "summary" = Some su -> d !! "description" = Some de ->
  all_in ["project"; "summary"; "description"] (JDict d) = Ok true.
Proof.
  intros Hp Hs Hd. rewrite all_in_dict. f_equal. cbn [forallb].
  rewrite Hp, Hs, Hd.
  rewrite !bool_decide_eq_true_2 by eauto. reflexivity.
Qed.

Lemma create_issue_steps (m d : gmap string json) (s : St W) p su de :
  py_get (JDict m) "data" (dict []) = Ok (JDict d) ->
  d !! "project" = Some p -> d !! "summary" = Some su -> d !! "description" = Some de ->
  let issue_type := default (JStr "Task") (d !! "issue_type") in
  let base : gmap string json :=
    list_to_map [("project", dict [("key", p)]); ("summary", su); ("description", de);
                 ("issuetype", dict [("name", issue_type)])] in
  let parent := default JNull (d !! "parent_issue") in
  let fields :=
    if py_eq_str (default JNull (d !! "issue_type")) "Subtask" && py_truthy parent
    then <["parent" := dict [("key", parent)]]> base else base in
  submits py jira (JDict m) s (JDict fields).
Proof.
  intros Hdata Hp Hs Hd. cbv zeta. unfold submits, _create_issue.
  unfold bind at 1. unfold lift at 1. rewrite Hdata.
  unfold bind at 1. unfold lift at 1. rewrite (required_present d p su de Hp Hs Hd).
  cbn [negb]. unfold bind, lift, ret, call. cbn [py_getitem py_get].
  rewrite Hp, Hs, Hd.
  destruct (d !! "issue_type") as [ty | ] eqn:Ety;
    destruct (d !! "parent_issue") as [pk | ] eqn:Epk;
    cbn [from_option]; unfold id;
    change (py_truthy JNull) with false;
    repeat match goal with
           | |- context [py_eq_str ?a ?b] => destruct (py_eq_str a b)
           | |- context [py_truthy ?a] => destruct (py_truthy a)
           end; cbn [andb];
    match goal with
    | |- context [jira_create_issue jira ?f ?w] =>
        destruct (jira_create_issue jira f w) as [[issue | e] w']
    end; reflexivity.
Qed.

(** C1, as the code has it.  When one of project, summary, description is
    absent from [data] the handler answers "Missing required fields" and
    calls nothing.  Otherwise the issue is submitted: with type "Task" when
    issue_type is absent; for a "Subtask" with a parent_issue, under that
    parent; and for a "Subtask" without parent_issue, without a parent --
    the request is not refused by the handler, its result is the tracker's
    answer. *)
Theorem create_issue_contract (m d : gmap string json) (s : St W) :
  py_get (JDict m) "data" (dict []) = Ok (JDict d) ->
  ((d !! "project" = None \/ d !! "summary" = None \/ d !! "description" = None) ->
   _create_issue py jira (JDict m) s
   = (Ok (error_envelope "Missing required fields"), s))
  /\ (forall p su de,
        d !! "project" = Some p -> d !! "summary" = Some su ->
        d !! "description" = Some de ->
        (d !! "issue_type" = None ->
         submits py jira (JDict m) s (JDict (issue_fields p su de (JStr "Task"))))
        /\ (forall parent,
              d !! "issue_type" = Some (JStr "Subtask") ->
              d !! "parent_issue" = Some parent -> py_truthy parent = true ->
              submits py jira (JDict m) s
                (JDict (<["parent" := dict [("key", parent)]]>
                          (issue_fields p su de (JStr "Subtask")))))
        /\ (d !! "issue_type" = Some (JStr "Subtask") ->
            py_truthy (default JNull (d !! "parent_issue")) = false ->
            submits py jira (JDict m) s (JDict (issue_fields p su de (JStr "Subtask"))))).
Proof.
  intros Hdata. split.
  - intros Hmiss. unfold _create_issue, bind, lift, ret.
    rewrite Hdata, (required_missing d Hmiss). reflexivity.
  - intros p su de Hp Hs Hd.
    pose proof (create_issue_steps m d s p su de Hdata Hp Hs Hd) as H.
    cbv zeta in H. repeat split.
    + intros Hty. rewrite Hty in H. exact H.
    + intros parent Hty Hpar Htrue. rewrite Hty, Hpar in H.
      cbn [from_option] in H. unfold id in H. rewrite Htrue in H. exact H.
    + intros Hty Hfalse. rewrite Hty in H. rewrite Hfalse in H.
      rewrite andb_false_r in H. exact H.
Qed.

End CreateIssue.

(** A request without a summary is refused before any call; a complete
    request without issue_type is submitted as a "Task"; a "Subtask" is
    submitted under its parent_issue when it has one, and without a parent
    when it has none. *)
Lemma create_issue_contract_witness :
  let three := [("project", JStr "PROJ"); ("summary", JStr "s"); ("description", JStr "d")] in
  let fields := issue_fields (JStr "PROJ") (JStr "s") (JStr "d") in
  let request d := JDict (list_to_map [("command", JStr "create_issue"); ("data", dict d)]) in
  let submitted d f :=
    submits Sample.python (Sample.accepting 5) (request d) (start tt) (JDict f) in
  _create_issue Sample.python (Sample.accepting 5)
    (request [("project", JStr "PROJ"); ("description", JStr "d")]) (start tt)
  = (Ok (error_envelope "Missing required fields"), start tt)
  /\ submitted three (fields (JStr "Task"))
  /\ submitted (three ++ [("issue_type", JStr "Subtask"); ("parent_issue", JStr "PROJ-1")])
       (<["parent" := dict [("key", JStr "PROJ-1")]]> (fields (JStr "Subtask")))
  /\ submitted (three ++ [("issue_type", JStr "Subtask")]) (fields (JStr "Subtask")).
Proof.
  cbv zeta.
  pose proof (fun d => create_issue_contract Sample.python (Sample.accepting 5)
                         (list_to_map [("command", JStr "create_issue");
                                       ("data", JDict d)]) d (start tt)) as T.
  split; [ | split; [ | split ] ].
  - pose proof (T (list_to_map [("project", JStr "PROJ"); ("description", JStr "d")])) as H.
    specialize (H ltac:(vm_compute; reflexivity)). destruct H as [H _].
    apply H. right. left. vm_compute. reflexivity.
  - pose proof (T (list_to_map [("project", JStr "PROJ"); ("summary", JStr "s");
                                ("description", JStr "d")])) as H.
    specialize (H ltac:(vm_compute; reflexivity)). destruct H as [_ H].
    specialize (H (JStr "PROJ") (JStr "s") (JStr "d")
                  ltac:(vm_compute; reflexivity) ltac:(vm_compute; reflexivity)
                  ltac:(vm_compute; reflexivity)).
    destruct H as [H _]. apply H. vm_compute. reflexivity.
  - pose proof (T (list_to_map [("project", JStr "PROJ"); ("summary", JStr "s");
                                ("description", JStr "d");
                                ("issue_type", JStr "Subtask");
                                ("parent_issue", JStr "PROJ-1")])) as H.
    specialize (H ltac:(vm_compute; reflexivity)). destruct H as [_ H].
    specialize (H (JStr "PROJ") (JStr "s") (JStr "d")
                  ltac:(vm_compute; reflexivity) ltac:(vm_compute; reflexivity)
                  ltac:(vm_compute; reflexivity)).
    destruct H as [_ [H _]].
    apply (H (JStr "PROJ-1")); vm_compute; reflexivity.
  - pose proof (T (list_to_map [("project", JStr "PROJ"); ("summary", JStr "s");
                                ("description", JStr "d");
                                ("issue_type", JStr "Subtask")])) as H.
    specialize (H ltac:(vm_compute; reflexivity)). destruct H as [_ H].
    specialize (H (JStr "PROJ") (JStr "s") (JStr "d")
                  ltac:(vm_compute; reflexivity) ltac:(vm_compute; reflexivity)
                  ltac:(vm_compute; reflexivity)).
    destruct H as [_ [_ H]].
    apply H; vm_compute; reflexivity.
Defined.

(** C1 as stated fails: a "Subtask" request without parent_issue is not
    answered with an error envelope.  The handler submits it without a
    parent, and when the tracker accepts it the envelope is a success. *)
Lemma subtask_without_parent_is_submitted :
  let message :=
    message_of "create_issue"
      [("project", JStr "PROJ"); ("summary", JStr "s"); ("description", JStr "d");
       ("issue_type", JStr "Subtask")] in
  let result :=
    handle_mcp_message Sample.python (Sample.accepting 5) Sample.config message (start tt) in
  result
  = (Ok (success_data (dict [("issue_key", JStr "PROJ-7"); ("issue_id", JStr "10001");
                             ("self", JStr "https://jira.example/rest/api/2/issue/10001")])),
     {| world := tt;
        calls := [CreateIssue
                    (dict [("project", dict [("key", JStr "PROJ")]);
                           ("summary", JStr "s"); ("description", JStr "d");
                           ("issuetype", dict [("name", JStr "Subtask")])])] |})
  /\ (forall env, result.1 = Ok env -> is_error env = false).
Proof.
  cbv zeta. split.
  - vm_compute. reflexivity.
  - intros env H. vm_compute in H. injection H as <-. vm_compute. reflexivity.
Qed.

(** ** update_issue *)

Section UpdateIssue.

Variable py : Python.
Context {W : Type}.
Variable jira : JiraClient W.

(** Without a match the loop visits every transition: no id is found and
    every destination name is collected, in order. *)
Lemma find_transition_no_match target (ts : list Transition) acc :
  Forall (fun t => str_lower py (t_to t) <> target) ts ->
  find_transition py target ts acc = (None, (acc ++ map t_to ts)%list).
Proof.
  intros H. revert acc. induction H as [ | t ts Ht _ IH]; intros acc; cbn [find_transition map].
  - now rewrite app_nil_r.
  - apply String.eqb_neq in Ht. rewrite Ht, IH, <- app_assoc. reflexivity.
Qed.

Lemma copy_field_dict k (d fields : gmap string json) :
  copy_field py k (JDict d) fields
  = Ok (match d !! k with Some v => <[k := v]> fields | None => fields end).
Proof.
  unfold copy_field. cbn [py_contains py_getitem].
  destruct (d !! k) as [v | ] eqn:E.
  - rewrite bool_decide_eq_true_2 by eauto. reflexivity.
  - rewrite bool_decide_eq_false_2 by (intros [? ?]; discriminate). reflexivity.
Qed.

Lemma update_issue_no_match (m d : gmap string json) (s : St W)
    (issue_key : json) (status : string) (issue : Issue) (transitions : list Transition)
    (w1 w2 : W) :
  py_get (JDict m) "data" (dict []) = Ok (JDict d) ->
  d !! "issue_key" = Some issue_key -> py_truthy issue_key = true ->
  d !! "status" = Some (JStr status) ->
  jira_issue jira issue_key (world s) = (Ok issue, w1) ->
  jira_transitions jira issue w1 = (Ok transitions, w2) ->
  Forall (fun t => str_lower py (t_to t) <> str_lower py status) transitions ->
  _update_issue py jira (JDict m) s
  = (Ok (error_envelope
           ("No transition found to status: " +:+ status
              +:+ ". Available status transitions are: "
              +:+ str_join ", " (map t_to transitions))),
     {| world := w2; calls := calls s ++ [GetIssue issue_key; GetTransitions issue] |}).
Proof.
  intros Hdata Hkey Htruthy Hstatus Hissue Htrans Hnone.
  unfold _update_issue.
  unfold bind at 1. unfold lift at 1. rewrite Hdata.
  unfold bind at 1. unfold lift at 1. cbn [py_get]. rewrite Hkey, Htruthy. cbn [negb].
  unfold bind, lift, ret, call. rewrite !copy_field_dict.
  cbn [py_contains py_getitem py_lower py_str].
  rewrite Hstatus, Hissue. cbn [world calls].
  rewrite bool_decide_eq_true_2 by eauto. cbn [world calls].
  rewrite Htrans. cbn [world calls py_lower py_str].
  rewrite (find_transition_no_match _ _ [] Hnone). cbn [id_truthy app].
  rewrite <- app_assoc. reflexivity.
Qed.

Lemma update_issue_status_without_lower (m d : gmap string json) (s : St W)
    (issue_key status : json) (issue : Issue) (transitions : list Transition)
    (w1 w2 : W) :
  py_get (JDict m) "data" (dict []) = Ok (JDict d) ->
  d !! "issue_key" = Some issue_key -> py_truthy issue_key = true ->
  d !! "status" = Some status -> (forall name, status <> JStr name) ->
  jira_issue jira issue_key (world s) = (Ok issue, w1) ->
  jira_transitions jira issue w1 = (Ok transitions, w2) ->
  _update_issue py jira (JDict m) s
  = (Err (no_attribute status "lower"),
     {| world := w2; calls := calls s ++ [GetIssue issue_key; GetTransitions issue] |}).
Proof.
  intros Hdata Hkey Htruthy Hstatus Hnot Hissue Htrans.
  unfold _update_issue.
  unfold bind at 1. unfold lift at 1. rewrite Hdata.
  unfold bind at 1. unfold lift at 1. cbn [py_get]. rewrite Hkey, Htruthy. cbn [negb].
  unfold bind, lift, ret, call. rewrite !copy_field_dict.
  cbn [py_contains py_getitem].
  rewrite Hstatus, Hissue. cbn [world calls].
  rewrite bool_decide_eq_true_2 by eauto. cbn [world calls].
  rewrite Htrans. cbn [world calls].
  destruct status as [ | b | z | f | name | l | ds ];
    try (cbn [py_lower]; rewrite <- app_assoc; reflexivity).
  now destruct (Hnot name).
Qed.

(** C2, as the code has it.  An update_issue request with a status that is
    a string and to which no available transition leads (destination names
    compared through [lower()], exactly) gets an error envelope whose
    message lists the destination names of all the available transitions.
    A status that is not a string has no [lower()]: the handler fails with
    that exception, which names no transition.  In both cases the tracker
    has only been read (the issue and its transitions): no transition is
    applied and no field is updated. *)
Theorem update_issue_unknown_status (m d : gmap string json) (s : St W)
    (issue_key status : json) (issue : Issue) (transitions : list Transition)
    (w1 w2 : W) :
  py_get (JDict m) "data" (dict []) = Ok (JDict d) ->
  d !! "issue_key" = Some issue_key -> py_truthy issue_key = true ->
  d !! "status" = Some status ->
  jira_issue jira issue_key (world s) = (Ok issue, w1) ->
  jira_transitions jira issue w1 = (Ok transitions, w2) ->
  let s' := {| world := w2;
               calls := calls s ++ [GetIssue issue_key; GetTransitions issue] |} in
  (forall name,
      status = JStr name ->
      Forall (fun t => str_lower py (t_to t) <> str_lower py name) transitions ->
      _update_issue py jira (JDict m) s
      = (Ok (error_envelope
               ("No transition found to status: " +:+ name
                  +:+ ". Available status transitions are: "
                  +:+ str_join ", " (map t_to transitions))), s'))
  /\ ((forall name, status <> JStr name) ->
      _update_issue py jira (JDict m) s = (Err (no_attribute status "lower"), s'))
  /\ forallb (fun c => negb (is_mutation c)) [GetIssue issue_key; GetTransitions issue] = true.
Proof.
  intros Hdata Hkey Htruthy Hstatus Hissue Htrans s'. split; [ | split ].
  - intros name -> Hnone.
    exact (update_issue_no_match m d s issue_key name issue transitions w1 w2
             Hdata Hkey Htruthy Hstatus Hissue Htrans Hnone).
  - intros Hnot.
    exact (update_issue_status_without_lower m d s issue_key status issue transitions
             w1 w2 Hdata Hkey Htruthy Hstatus Hnot Hissue Htrans).
  - reflexivity.
Qed.

End UpdateIssue.

(** The sample issue can move to "In Progress" and "Done"; "Closed" is
    neither. *)
Lemma update_issue_unknown_status_witness :
  handle_mcp_message Sample.python (Sample.accepting 5) Sample.config
    (message_of "update_issue"
       [("issue_key", JStr "PROJ-1"); ("status", JStr "Closed"); ("summary", JStr "new")])
    (start tt)
  = (Ok (error_envelope
           "No transition found to status: Closed. Available status transitions are: In Progress, Done"),
     {| world := tt;
        calls := [GetIssue (JStr "PROJ-1"); GetTransitions (Sample.issue "PROJ-1" "old")] |}).
Proof.
  pose proof (update_issue_unknown_status Sample.python (Sample.accepting 5)
                (list_to_map [("command", JStr "update_issue");
                              ("data", dict [("issue_key", JStr "PROJ-1");
                                             ("status", JStr "Closed");
                                             ("summary", JStr "new")])])
                (list_to_map [("issue_key", JStr "PROJ-1"); ("status", JStr "Closed");
                              ("summary", JStr "new")])
                (start tt) (JStr "PROJ-1") (JStr "Closed") (Sample.issue "PROJ-1" "old")
                Sample.transitions tt tt
                eq_refl eq_refl eq_refl eq_refl eq_refl eq_refl) as H.
  assert (Forall (fun t => str_lower Sample.python (t_to t)
                           <> str_lower Sample.python "Closed") Sample.transitions)
    as Hnone by (repeat constructor; discriminate).
  cbv zeta in H. destruct H as [H _].
  specialize (H "Closed" eq_refl Hnone). vm_compute in H. vm_compute. exact H.
Defined.

(** C2 as stated fails for a status that is not a string: the error
    envelope for the status 5 names no transition. *)
Lemma update_issue_status_not_a_string :
  handle_mcp_message Sample.python (Sample.accepting 5) Sample.config
    (message_of "update_issue" [("issue_key", JStr "PROJ-1"); ("status", JInt 5)])
    (start tt)
  = (Ok (error_envelope "'int' object has no attribute 'lower'"),
     {| world := tt;
        calls := [GetIssue (JStr "PROJ-1"); GetTransitions (Sample.issue "PROJ-1" "old")] |}).
Proof. vm_compute. reflexivity. Qed.

(** ** Pagination *)

Lemma floor_formula_is_ceiling (t p : Z) :
  0 < p -> (t + p - 1) / p = ceil_div t p.
Proof.
  intros Hp. unfold ceil_div. destruct p as [ | pp | pp]; try lia.
  unfold Qceiling, Qfloor, Qdiv, Qmult, Qinv, Qopp, inject_Z. cbn [Qnum Qden].
  rewrite Z.mul_1_r, Pos.mul_1_l.
  set (p := Z.pos pp) in *.
  pose proof (Z.div_mod (- t) p ltac:(lia)) as Hdm.
  pose proof (Z.mod_pos_bound (- t) p Hp) as Hb.
  symmetry. apply Z.div_unique with (r := p - 1 - (- t) mod p); [ lia | ].
  lia.
Qed.

Lemma is_error_error_envelope msg : is_error (error_envelope msg) = true.
Proof. reflexivity. Qed.

Section Pagination.

Variable py : Python.
Context {W : Type}.
Variable jira : JiraClient W.
Variable config : JiraConfig.

Lemma get_page_size_le data page_size :
  get_page_size py config data = Ok page_size -> page_size <= max_results config.
Proof.
  unfold get_page_size.
  destruct (requested_int py data "page_size" (JInt 20)); [ | discriminate ].
  intros [= <-]. lia.
Qed.

Lemma pagination_block_ok tot page page_size pag :
  pagination_block tot page page_size = Ok pag ->
  page_size <> 0 /\ pag = pagination tot page page_size ((tot + page_size - 1) / page_size).
Proof.
  unfold pagination_block, py_floordiv.
  destruct (Z.eqb_spec page_size 0); [ discriminate | ].
  now intros [= <-].
Qed.

Lemma pagination_block_paginated tot page page_size pag :
  page_size <= max_results config ->
  pagination_block tot page page_size = Ok pag ->
  Paginated (max_results config) (Some pag).
Proof.
  intros Hle H. apply pagination_block_ok in H as [_ ->].
  exists tot, page, page_size, ((tot + page_size - 1) / page_size).
  split; [ reflexivity | split; [ exact Hle | ] ].
  apply floor_formula_is_ceiling.
Qed.

Lemma paginates_error path msg : paginates config path (error_envelope msg).
Proof. intros H. rewrite is_error_error_envelope in H. discriminate. Qed.

Lemma api_except_paginates path e :
  post (paginates config path) (api_except py (W := W) e).
Proof. destruct e; apply post_ret, paginates_error. Qed.

Lemma search_issues_paginates message :
  post (paginates config ["data"; "pagination"]) (_search_issues py jira config message).
Proof.
  unfold _search_issues.
  do 4 (apply post_bind; intros). apply post_bind_lift. intros page_size Hsize.
  match goal with |- post _ (if ?b then _ else _) => destruct b end;
    [ apply post_ret, paginates_error | ].
  apply post_try; [ | apply api_except_paginates ].
  apply post_bind. intros found. apply post_bind_lift. intros pag Hpag.
  apply post_ret. intros _.
  apply (pagination_block_paginated _ _ _ _ (get_page_size_le _ _ Hsize) Hpag).
Qed.

Lemma get_my_issues_paginates message :
  post (paginates config ["data"; "pagination"]) (_get_my_issues py jira config message).
Proof.
  unfold _get_my_issues.
  apply post_try; [ | apply api_except_paginates ].
  do 2 (apply post_bind; intros). apply post_bind_lift. intros page_size Hsize.
  do 6 (apply post_bind; intros). apply post_bind_lift. intros pag Hpag.
  apply post_ret. intros _.
  apply (pagination_block_paginated _ _ _ _ (get_page_size_le _ _ Hsize) Hpag).
Qed.

Lemma get_epic_with_subtasks_paginates message :
  post (paginates config ["data"; "subtasks"; "pagination"])
       (_get_epic_with_subtasks py jira config message).
Proof.
  unfold _get_epic_with_subtasks, epic_subtasks.
  do 3 (apply post_bind; intros). apply post_bind_lift. intros page_size Hsize.
  match goal with |- post _ (if ?b then _ else _) => destruct b end;
    [ apply post_ret, paginates_error | ].
  apply post_try; [ | apply api_except_paginates ].
  apply post_bind. intros epics.
  destruct (issues epics); [ apply post_ret, paginates_error | ].
  do 2 (apply post_bind; intros). apply post_bind_lift. intros pag Hpag.
  apply post_ret. intros _.
  apply (pagination_block_paginated _ _ _ _ (get_page_size_le _ _ Hsize) Hpag).
Qed.

Lemma post_run {A} (P : A -> Prop) (m : M W A) s a s' :
  post P m -> m s = (Ok a, s') -> P a.
Proof. intros H E. specialize (H s). now rewrite E in H. Qed.

(** C3, as the code has it.  In every successful response of search_issues,
    get_epic_with_subtasks and get_my_issues the pagination block has
    [page_size] at most the configured maximum, whatever page_size was
    requested, and [total_pages = ceil(total / page_size)] whenever that
    [page_size] is positive. *)
Theorem pagination_block_sound (message : json) (s s' : St W) (env : json) :
  is_error env = false ->
  (_search_issues py jira config message s = (Ok env, s') ->
   Paginated (max_results config) (lookup_path ["data"; "pagination"] env))
  /\ (_get_epic_with_subtasks py jira config message s = (Ok env, s') ->
      Paginated (max_results config) (lookup_path ["data"; "subtasks"; "pagination"] env))
  /\ (_get_my_issues py jira config message s = (Ok env, s') ->
      Paginated (max_results config) (lookup_path ["data"; "pagination"] env)).
Proof.
  intros Hok. repeat split; intros E.
  - exact (post_run _ _ _ _ _ (search_issues_paginates message) E Hok).
  - exact (post_run _ _ _ _ _ (get_epic_with_subtasks_paginates message) E Hok).
  - exact (post_run _ _ _ _ _ (get_my_issues_paginates message) E Hok).
Qed.

End Pagination.

(** A search with page_size 100 against a maximum of 50: five issues make
    one page of fifty. *)
Lemma pagination_block_sound_witness :
  Paginated 50
    (lookup_path ["data"; "pagination"]
       (success_data (dict [("issues", JList [search_row (Sample.issue "PROJ-1" "old")]);
                            ("pagination", pagination 5 1 50 1)]))).
Proof.
  refine (proj1 (pagination_block_sound Sample.python (Sample.accepting 5) Sample.config
                   (message_of "search_issues"
                      [("search_text", JStr "bug"); ("page_size", JInt 100)])
                   (start tt)
                   {| world := tt;
                      calls := [SearchIssues
                                  ("(summary ~ " +:+ dq +:+ "bug" +:+ dq
                                     +:+ " OR description ~ " +:+ dq +:+ "bug" +:+ dq
                                     +:+ ") AND issuetype != Epic") 0 50] |}
                   _ _) _).
  - vm_compute. reflexivity.
  - vm_compute. reflexivity.
Defined.

(** C3 as stated fails for a negative page_size: with [page_size = -2] and
    five issues the response says [total_pages = -1], and
    [ceil(5 / -2) = -2]. *)
Lemma negative_page_size_total_pages :
  handle_mcp_message Sample.python (Sample.accepting 5) Sample.config
    (message_of "search_issues" [("search_text", JStr "bug"); ("page_size", JInt (-2))])
    (start tt)
  = (Ok (success_data (dict [("issues", JList [search_row (Sample.issue "PROJ-1" "old")]);
                             ("pagination", pagination 5 1 (-2) (-1))])),
     {| world := tt;
        calls := [SearchIssues
                    ("(summary ~ " +:+ dq +:+ "bug" +:+ dq
                       +:+ " OR description ~ " +:+ dq +:+ "bug" +:+ dq
                       +:+ ") AND issuetype != Epic") 0 (-2)] |})
  /\ ceil_div 5 (-2) = -2.
Proof. split; vm_compute; reflexivity. Qed.

(** ** Page and page size *)

Section Paging.

Variable py : Python.
Context {W : Type}.
Variable jira : JiraClient W.
Variable config : JiraConfig.

Lemma py_get_with_data m d default : py_get (with_data m d) "data" default = Ok (JDict d).
Proof. unfold with_data. cbn [py_get]. now rewrite lookup_insert_eq. Qed.

Lemma py_get_insert_ne (d : gmap string json) k k' v default :
  k' <> k -> py_get (JDict (<[k' := v]> d)) k default = py_get (JDict d) k default.
Proof. intros H. cbn [py_get]. now rewrite lookup_insert_ne. Qed.

Lemma requested_int_insert_eq (d : gmap string json) k v default :
  requested_int py (JDict (<[k := v]> d)) k default = py_int py v.
Proof. unfold requested_int. cbn [py_get]. now rewrite lookup_insert_eq. Qed.

Lemma requested_int_insert_ne (d : gmap string json) k k' v default :
  k' <> k ->
  requested_int py (JDict (<[k' := v]> d)) k default
  = requested_int py (JDict d) k default.
Proof. intros H. unfold requested_int. now rewrite py_get_insert_ne. Qed.

Lemma get_page_insert (d : gmap string json) v p :
  py_int py v = Ok p ->
  get_page py (JDict (<["page" := v]> d)) = Ok (Z.max 1 p).
Proof. intros H. unfold get_page. now rewrite requested_int_insert_eq, H. Qed.

Lemma get_page_size_insert (d : gmap string json) v n :
  py_int py v = Ok n ->
  get_page_size py config (JDict (<["page_size" := v]> d))
  = Ok (Z.min (max_results config) n).
Proof. intros H. unfold get_page_size. now rewrite requested_int_insert_eq, H. Qed.

Lemma get_page_insert_ne (d : gmap string json) k v :
  k <> "page" ->
  get_page py (JDict (<[k := v]> d)) = get_page py (JDict d).
Proof. intros H. unfold get_page. now rewrite requested_int_insert_ne. Qed.

Lemma get_page_size_insert_ne (d : gmap string json) k v :
  k <> "page_size" ->
  get_page_size py config (JDict (<[k := v]> d))
  = get_page_size py config (JDict d).
Proof. intros H. unfold get_page_size. now rewrite requested_int_insert_ne. Qed.

Lemma same_request_get d d' k default :
  same_request py config d d' -> k <> "page" -> k <> "page_size" ->
  py_get (JDict d) k default = py_get (JDict d') k default.
Proof. intros (_ & _ & H) H1 H2. cbn [py_get]. now rewrite H. Qed.

Ltac read_same H :=
  rewrite ?(same_request_get _ _ _ _ H) by discriminate;
  rewrite ?(proj1 H), ?(proj1 (proj2 H)).

Lemma search_issues_same m d d' s :
  same_request py config d d' ->
  _search_issues py jira config (with_data m d) s
  = _search_issues py jira config (with_data m d') s.
Proof.
  intros H. unfold _search_issues, bind, lift.
  rewrite !py_get_with_data. read_same H. reflexivity.
Qed.

Lemma get_epic_with_subtasks_same m d d' s :
  same_request py config d d' ->
  _get_epic_with_subtasks py jira config (with_data m d) s
  = _get_epic_with_subtasks py jira config (with_data m d') s.
Proof.
  intros H. unfold _get_epic_with_subtasks, bind, lift.
  rewrite !py_get_with_data. read_same H. reflexivity.
Qed.

Lemma get_my_issues_same m d d' s :
  same_request py config d d' ->
  _get_my_issues py jira config (with_data m d) s
  = _get_my_issues py jira config (with_data m d') s.
Proof.
  intros H. unfold _get_my_issues, try_except, bind, lift.
  rewrite !py_get_with_data. read_same H. reflexivity.
Qed.

Lemma same_request_page d v p :
  py_int py v = Ok p -> p <= 0 ->
  same_request py config (<["page" := v]> d) (<["page" := JInt 1]> d).
Proof.
  intros Hv Hp. split; [ | split ].
  - rewrite (get_page_insert d v p Hv), (get_page_insert d (JInt 1) 1 eq_refl).
    f_equal. lia.
  - now rewrite !get_page_size_insert_ne.
  - intros k Hk _. now rewrite !lookup_insert_ne.
Qed.

Lemma same_request_page_size d v n :
  py_int py v = Ok n -> max_results config < n ->
  same_request py config (<["page_size" := v]> d) (<["page_size" := JInt (max_results config)]> d).
Proof.
  intros Hv Hn. split; [ | split ].
  - now rewrite !get_page_insert_ne.
  - rewrite (get_page_size_insert d v n Hv),
      (get_page_size_insert d (JInt (max_results config)) _ eq_refl).
    f_equal. lia.
  - intros k _ Hk. now rewrite !lookup_insert_ne.
Qed.

End Paging.

Section Offsets.

Variable py : Python.
Context {W : Type}.
Variable jira : JiraClient W.
Variable config : JiraConfig.

Ltac crunch :=
  repeat (cbn [fst snd calls world];
          match goal with
          | |- context [jira_search_issues ?j ?q ?a ?b ?w] =>
              destruct (jira_search_issues j q a b w) as [[? | ?] ?]
          | |- context [pagination_block ?a ?b ?c] =>
              destruct (pagination_block a b c)
          end);
  cbn [fst snd calls world].

Lemma api_except_state e (s : St W) : (api_except py e s).2 = s.
Proof. destruct e; reflexivity. Qed.

(** The calls that [_search_issues] adds to the log: none, or one search at
    the offset of the page. *)
Lemma search_issues_calls message data p n s :
  py_get message "data" (dict []) = Ok data ->
  requested_int py data "page" (JInt 1) = Ok p ->
  requested_int py data "page_size" (JInt 20) = Ok n ->
  let page := Z.max 1 p in
  let page_size := Z.min (max_results config) n in
  let s' := (_search_issues py jira config message s).2 in
  calls s' = calls s
  \/ exists jql, calls s' = calls s ++ [SearchIssues jql ((page - 1) * page_size) page_size].
Proof.
  intros Hdata Hp Hn. cbv zeta.
  unfold _search_issues, try_except, bind, lift, ret, call, get_page, get_page_size.
  rewrite Hdata, Hp, Hn.
  destruct (py_get data "search_text" JNull) as [search_text | ]; [ | now left ].
  destruct (py_get data "title_only" (JBool false)) as [title_only | ]; [ | now left ].
  destruct (negb (py_truthy search_text)); [ now left | ].
  right. exists (search_jql py title_only search_text).
  crunch; rewrite ?api_except_state; reflexivity.
Qed.

Lemma get_my_issues_calls message data p n s :
  py_get message "data" (dict []) = Ok data ->
  requested_int py data "page" (JInt 1) = Ok p ->
  requested_int py data "page_size" (JInt 20) = Ok n ->
  let page := Z.max 1 p in
  let page_size := Z.min (max_results config) n in
  let s' := (_get_my_issues py jira config message s).2 in
  calls s' = calls s
  \/ exists jql, calls s' = calls s ++ [SearchIssues jql ((page - 1) * page_size) page_size].
Proof.
  intros Hdata Hp Hn. cbv zeta.
  unfold _get_my_issues, try_except, bind, lift, ret, call, get_page, get_page_size.
  rewrite Hdata, Hp, Hn.
  destruct (py_get data "status" JNull) as [status | ];
    [ | left; now rewrite api_except_state ].
  destruct (py_get data "project" JNull) as [project | ];
    [ | left; now rewrite api_except_state ].
  destruct (py_get data "sort_by" (JStr "updated")) as [sort_by | ];
    [ | left; now rewrite api_except_state ].
  destruct (py_get data "sort_order" (JStr "DESC")) as [requested_order | ];
    [ | left; now rewrite api_except_state ].
  destruct (py_upper py requested_order) as [sort_order | ];
    [ | left; now rewrite api_except_state ].
  right. exists (my_issues_jql py status project sort_by sort_order).
  crunch; rewrite ?api_except_state; reflexivity.
Qed.

Lemma get_epic_with_subtasks_calls message data p n s :
  py_get message "data" (dict []) = Ok data ->
  requested_int py data "page" (JInt 1) = Ok p ->
  requested_int py data "page_size" (JInt 20) = Ok n ->
  let page := Z.max 1 p in
  let page_size := Z.min (max_results config) n in
  let s' := (_get_epic_with_subtasks py jira config message s).2 in
  calls s' = calls s
  \/ (exists lookup, calls s' = calls s ++ [SearchIssues lookup 0 5])
  \/ (exists lookup jql,
        calls s' = calls s ++ [SearchIssues lookup 0 5;
                               SearchIssues jql ((page - 1) * page_size) page_size]).
Proof.
  intros Hdata Hp Hn. cbv zeta.
  unfold _get_epic_with_subtasks, epic_subtasks, try_except, bind, lift, ret, call,
    get_page, get_page_size.
  rewrite Hdata, Hp, Hn.
  destruct (py_get data "epic_name" JNull) as [epic_name | ]; [ | now left ].
  destruct (negb (py_truthy epic_name)); [ now left | ].
  right.
  destruct (jira_search_issues jira (epic_jql py epic_name) 0 5 (world s))
    as [[epics | e] w1].
  - cbn [fst snd calls world].
    destruct (issues epics) as [ | first rest].
    + left. eexists. reflexivity.
    + destruct (select_epic py first rest epic_name) as [epic | e].
      * right. exists (epic_jql py epic_name), (subtasks_jql epic).
        crunch; rewrite ?api_except_state; cbn [calls]; now rewrite <- app_assoc.
      * left. eexists. rewrite api_except_state. reflexivity.
  - left. eexists. rewrite api_except_state. reflexivity.
Qed.

(** The searches that the handlers make, when they come to search. *)
Lemma search_issues_log message (d : gmap string json) p n s :
  py_get message "data" (dict []) = Ok (JDict d) ->
  requested_int py (JDict d) "page" (JInt 1) = Ok p ->
  requested_int py (JDict d) "page_size" (JInt 20) = Ok n ->
  py_truthy (default JNull (d !! "search_text")) = true ->
  exists jql,
    calls (_search_issues py jira config message s).2
    = calls s ++ [SearchIssues jql ((Z.max 1 p - 1) * Z.min (max_results config) n)
                               (Z.min (max_results config) n)].
Proof.
  intros Hdata Hp Hn Htext.
  unfold _search_issues, try_except, bind, lift, ret, call, get_page, get_page_size.
  rewrite Hdata, Hp, Hn. cbn [py_get].
  change (match d !! "search_text" with Some v => v | None => JNull end)
    with (default JNull (d !! "search_text")).
  rewrite Htext. cbn [negb]. eexists.
  crunch; rewrite ?api_except_state; reflexivity.
Qed.

Lemma get_my_issues_log message (d : gmap string json) p n s order :
  py_get message "data" (dict []) = Ok (JDict d) ->
  requested_int py (JDict d) "page" (JInt 1) = Ok p ->
  requested_int py (JDict d) "page_size" (JInt 20) = Ok n ->
  default (JStr "DESC") (d !! "sort_order") = JStr order ->
  exists jql,
    calls (_get_my_issues py jira config message s).2
    = calls s ++ [SearchIssues jql ((Z.max 1 p - 1) * Z.min (max_results config) n)
                               (Z.min (max_results config) n)].
Proof.
  intros Hdata Hp Hn Horder.
  unfold _get_my_issues, try_except, bind, lift, ret, call, get_page, get_page_size.
  rewrite Hdata, Hp, Hn. cbn [py_get].
  change (match d !! "sort_order" with Some v => v | None => JStr "DESC" end)
    with (default (JStr "DESC") (d !! "sort_order")).
  rewrite Horder. cbn [py_upper]. eexists.
  crunch; rewrite ?api_except_state; reflexivity.
Qed.

Lemma select_epic_returns first rest name :
  exists epic, select_epic py first rest (JStr name) = Ok epic.
Proof.
  unfold select_epic.
  assert (forall epics, exists r, first_exact py epics (JStr name) = Ok r) as H.
  { induction epics as [ | e epics [r IH]]; cbn [first_exact py_lower]; [ eauto | ].
    destruct (String.eqb _ _); eauto. }
  destruct (H (first :: rest)) as [[epic | ] ->]; eauto.
Qed.

Lemma get_epic_with_subtasks_log message (d : gmap string json) p n s name found w1 :
  py_get message "data" (dict []) = Ok (JDict d) ->
  requested_int py (JDict d) "page" (JInt 1) = Ok p ->
  requested_int py (JDict d) "page_size" (JInt 20) = Ok n ->
  d !! "epic_name" = Some (JStr name) -> name <> EmptyString ->
  jira_search_issues jira (epic_jql py (JStr name)) 0 5 (world s) = (Ok found, w1) ->
  issues found <> [] ->
  exists lookup jql,
    calls (_get_epic_with_subtasks py jira config message s).2
    = calls s ++ [SearchIssues lookup 0 5;
                  SearchIssues jql ((Z.max 1 p - 1) * Z.min (max_results config) n)
                               (Z.min (max_results config) n)].
Proof.
  intros Hdata Hp Hn Hname Hnonempty Hlookup Hsome.
  unfold _get_epic_with_subtasks, epic_subtasks, try_except, bind, lift, ret, call,
    get_page, get_page_size.
  rewrite Hdata, Hp, Hn. cbn [py_get]. rewrite Hname.
  assert (py_truthy (JStr name) = true) as ->.
  { cbn [py_truthy]. apply negb_true_iff. now apply String.eqb_neq. }
  cbn [negb]. rewrite Hlookup. cbn [fst snd world calls].
  destruct (issues found) as [ | first rest]; [ now destruct Hsome | ].
  destruct (select_epic_returns first rest name) as [epic ->].
  exists (epic_jql py (JStr name)), (subtasks_jql epic).
  crunch; rewrite ?api_except_state; cbn [calls]; now rewrite <- app_assoc.
Qed.

(** C5. In search_issues, get_epic_with_subtasks and get_my_issues the one
    paginated search is made at [(page - 1) * page_size], for
    [page = max(1, requested page)] and
    [page_size = min(max_results, requested page_size)]; a requested page of
    zero or below gives the very result of page 1; a requested page_size
    above the configured maximum gives the very result of the maximum. *)
Theorem paging_contract (m d : gmap string json) (s : St W) :
  (forall p n,
      requested_int py (JDict d) "page" (JInt 1) = Ok p ->
      requested_int py (JDict d) "page_size" (JInt 20) = Ok n ->
      (py_truthy (default JNull (d !! "search_text")) = true ->
       exists jql,
         calls (_search_issues py jira config (with_data m d) s).2
         = calls s ++ [page_search config p n jql])
      /\ ((exists order, default (JStr "DESC") (d !! "sort_order") = JStr order) ->
          exists jql,
            calls (_get_my_issues py jira config (with_data m d) s).2
            = calls s ++ [page_search config p n jql])
      /\ (forall name found w1,
            d !! "epic_name" = Some (JStr name) -> name <> EmptyString ->
            jira_search_issues jira (epic_jql py (JStr name)) 0 5 (world s)
            = (Ok found, w1) ->
            issues found <> [] ->
            exists lookup jql,
              calls (_get_epic_with_subtasks py jira config (with_data m d) s).2
              = calls s ++ [SearchIssues lookup 0 5; page_search config p n jql]))
  /\ (forall p n,
      requested_int py (JDict d) "page" (JInt 1) = Ok p ->
      requested_int py (JDict d) "page_size" (JInt 20) = Ok n ->
      (let s' := (_search_issues py jira config (with_data m d) s).2 in
       calls s' = calls s \/ exists jql, calls s' = calls s ++ [page_search config p n jql])
      /\ (let s' := (_get_my_issues py jira config (with_data m d) s).2 in
          calls s' = calls s \/ exists jql, calls s' = calls s ++ [page_search config p n jql])
      /\ (let s' := (_get_epic_with_subtasks py jira config (with_data m d) s).2 in
          calls s' = calls s
          \/ (exists lookup, calls s' = calls s ++ [SearchIssues lookup 0 5])
          \/ (exists lookup jql,
                calls s' = calls s ++ [SearchIssues lookup 0 5; page_search config p n jql])))
  /\ (forall v p,
        py_int py v = Ok p -> p <= 0 ->
        let zero := with_data m (<["page" := v]> d) in
        let one := with_data m (<["page" := JInt 1]> d) in
        _search_issues py jira config zero s
        = _search_issues py jira config one s
        /\ _get_epic_with_subtasks py jira config zero s
           = _get_epic_with_subtasks py jira config one s
        /\ _get_my_issues py jira config zero s
           = _get_my_issues py jira config one s)
  /\ (forall v n,
        py_int py v = Ok n -> max_results config < n ->
        let above := with_data m (<["page_size" := v]> d) in
        let capped := with_data m (<["page_size" := JInt (max_results config)]> d) in
        _search_issues py jira config above s
        = _search_issues py jira config capped s
        /\ _get_epic_with_subtasks py jira config above s
           = _get_epic_with_subtasks py jira config capped s
        /\ _get_my_issues py jira config above s
           = _get_my_issues py jira config capped s).
Proof.
  pose proof (py_get_with_data m d (dict [])) as Hdata.
  split; [ | split; [ | split ] ].
  - intros p n Hp Hn. split; [ | split ].
    + intros Htext. exact (search_issues_log _ d p n s Hdata Hp Hn Htext).
    + intros [order Horder]. exact (get_my_issues_log _ d p n s order Hdata Hp Hn Horder).
    + intros name found w1 Hname Hnonempty Hlookup Hsome.
      exact (get_epic_with_subtasks_log _ d p n s name found w1 Hdata Hp Hn Hname
               Hnonempty Hlookup Hsome).
  - intros p n Hp Hn.
    split; [ | split ].
    + exact (search_issues_calls _ _ p n s Hdata Hp Hn).
    + exact (get_my_issues_calls _ _ p n s Hdata Hp Hn).
    + exact (get_epic_with_subtasks_calls _ _ p n s Hdata Hp Hn).
  - intros v p Hv Hp. cbv zeta.
    pose proof (same_request_page py config d v p Hv Hp) as H.
    auto using search_issues_same, get_epic_with_subtasks_same, get_my_issues_same.
  - intros v n Hv Hn. cbv zeta.
    pose proof (same_request_page_size py config d v n Hv Hn) as H.
    auto using search_issues_same, get_epic_with_subtasks_same, get_my_issues_same.
Qed.

End Offsets.

(** Page 3 of pages of 10 starts at offset 20; page -4 is page 1; a page
    size of 500 is a page size of 50. *)
Lemma paging_contract_witness :
  let m : gmap string json := list_to_map [("command", JStr "get_my_issues")] in
  let run d := _get_my_issues Sample.python (Sample.accepting 5) Sample.config
                 (with_data m d) (start tt) in
  (calls (run (list_to_map [("page", JInt 3); ("page_size", JInt 10)])).2
   = [SearchIssues "assignee = currentUser() ORDER BY updated DESC" 20 10])
  /\ run (<["page" := JInt (-4)]> ∅) = run (<["page" := JInt 1]> ∅)
  /\ run (<["page_size" := JInt 500]> ∅) = run (<["page_size" := JInt 50]> ∅).
Proof.
  cbv zeta.
  pose proof (paging_contract Sample.python (Sample.accepting 5) Sample.config
                (list_to_map [("command", JStr "get_my_issues")])) as T.
  split; [ | split ].
  - destruct (T (list_to_map [("page", JInt 3); ("page_size", JInt 10)]) (start tt))
      as [Hoff _].
    assert (requested_int Sample.python
              (JDict (list_to_map [("page", JInt 3); ("page_size", JInt 10)]))
              "page" (JInt 1) = Ok 3) as Hp by (vm_compute; reflexivity).
    assert (requested_int Sample.python
              (JDict (list_to_map [("page", JInt 3); ("page_size", JInt 10)]))
              "page_size" (JInt 20) = Ok 10) as Hn by (vm_compute; reflexivity).
    destruct (Hoff 3 10 Hp Hn) as [_ [Hmine _]].
    destruct Hmine as [jql H]; [ exists "DESC"; vm_compute; reflexivity | ].
    vm_compute. reflexivity.
  - destruct (T ∅ (start tt)) as [_ [_ [Hpage _]]].
    assert (py_int Sample.python (JInt (-4)) = Ok (-4)) as Hv by reflexivity.
    assert (-4 <= 0) as Hle by lia.
    exact (proj2 (proj2 (Hpage (JInt (-4)) (-4) Hv Hle))).
  - destruct (T ∅ (start tt)) as [_ [_ [_ Hsize]]].
    assert (py_int Sample.python (JInt 500) = Ok 500) as Hv by reflexivity.
    assert (max_results Sample.config < 500) as Hlt by reflexivity.
    exact (proj2 (proj2 (Hsize (JInt 500) 500 Hv Hlt))).
Defined.

(** ** Page sizes of zero and below *)

Section NonPositivePageSize.

Variable py : Python.
Context {W : Type}.
Variable jira : JiraClient W.
Variable config : JiraConfig.

Lemma returns_ret {A} (a : A) : returns (W := W) (ret a).
Proof. intros s. now exists a, s. Qed.

Lemma returns_try (body : M W json) (h : Exn -> M W json) :
  (forall e, returns (h e)) -> returns (try_except body h).
Proof.
  intros H s. unfold try_except.
  destruct (body s) as [[a | e] s']; [ now exists a, s' | apply H ].
Qed.

Lemma returns_bind_lift {A B} (r : Result A) (k : A -> M W B) a :
  r = Ok a -> returns (k a) -> returns (bind (lift r) k).
Proof. intros -> H s. unfold bind, lift. apply H. Qed.

Lemma api_except_returns e : returns (api_except py (W := W) e).
Proof. destruct e; apply returns_ret. Qed.

Lemma api_except_errors e : post is_an_error (api_except py (W := W) e).
Proof. destruct e; apply post_ret; eexists; reflexivity. Qed.

Lemma pagination_block_zero tot page :
  pagination_block tot page 0
  = Err (ZeroDivisionError "integer division or modulo by zero").
Proof. reflexivity. Qed.

Lemma no_page_of_size_zero {B} tot page (k : json -> M W B) (P : B -> Prop) :
  post P (bind (lift (pagination_block tot page 0)) k).
Proof. intros s. exact I. Qed.

Lemma get_page_paged d p n : get_page py (JDict (paged d p n)) = Ok (Z.max 1 p).
Proof. unfold paged. now apply get_page_insert. Qed.

Lemma get_page_size_paged d p n :
  get_page_size py config (JDict (paged d p n)) = Ok (Z.min (max_results config) n).
Proof.
  unfold paged. rewrite get_page_size_insert_ne by discriminate.
  now apply get_page_size_insert.
Qed.

Lemma requested_paged d p n :
  requested_int py (JDict (paged d p n)) "page" (JInt 1) = Ok p
  /\ requested_int py (JDict (paged d p n)) "page_size" (JInt 20) = Ok n.
Proof.
  unfold paged. split.
  - now rewrite requested_int_insert_eq.
  - rewrite requested_int_insert_ne by discriminate. now rewrite requested_int_insert_eq.
Qed.

Lemma search_issues_returns m d p n :
  returns (_search_issues py jira config (with_data m (paged d p n))).
Proof.
  unfold _search_issues.
  eapply returns_bind_lift; [ apply py_get_with_data | ].
  eapply returns_bind_lift; [ reflexivity | ].
  eapply returns_bind_lift; [ reflexivity | ].
  eapply returns_bind_lift; [ apply get_page_paged | ].
  eapply returns_bind_lift; [ apply get_page_size_paged | ].
  match goal with |- returns (if ?b then _ else _) => destruct b end;
    [ apply returns_ret | apply returns_try, api_except_returns ].
Qed.

Lemma get_epic_with_subtasks_returns m d p n :
  returns (_get_epic_with_subtasks py jira config (with_data m (paged d p n))).
Proof.
  unfold _get_epic_with_subtasks.
  eapply returns_bind_lift; [ apply py_get_with_data | ].
  eapply returns_bind_lift; [ reflexivity | ].
  eapply returns_bind_lift; [ apply get_page_paged | ].
  eapply returns_bind_lift; [ apply get_page_size_paged | ].
  match goal with |- returns (if ?b then _ else _) => destruct b end;
    [ apply returns_ret | apply returns_try, api_except_returns ].
Qed.

Lemma get_my_issues_returns message :
  returns (_get_my_issues py jira config message).
Proof. apply returns_try, api_except_returns. Qed.

Lemma search_issues_size_zero m d p n :
  Z.min (max_results config) n = 0 ->
  post is_an_error (_search_issues py jira config (with_data m (paged d p n))).
Proof.
  intros Hzero. unfold _search_issues. apply post_bind_lift. intros data Hdata.
  rewrite py_get_with_data in Hdata. injection Hdata as <-.
  do 3 (apply post_bind; intros). apply post_bind_lift. intros page_size Hsize.
  rewrite get_page_size_paged, Hzero in Hsize. injection Hsize as <-.
  match goal with |- post _ (if ?b then _ else _) => destruct b end;
    [ apply post_ret; eexists; reflexivity | ].
  apply post_try; [ | apply api_except_errors ].
  apply post_bind. intros found. apply no_page_of_size_zero.
Qed.

Lemma get_my_issues_size_zero m d p n :
  Z.min (max_results config) n = 0 ->
  post is_an_error (_get_my_issues py jira config (with_data m (paged d p n))).
Proof.
  intros Hzero. unfold _get_my_issues.
  apply post_try; [ | apply api_except_errors ].
  apply post_bind_lift. intros data Hdata.
  rewrite py_get_with_data in Hdata. injection Hdata as <-.
  apply post_bind; intros. apply post_bind_lift. intros page_size Hsize.
  rewrite get_page_size_paged, Hzero in Hsize. injection Hsize as <-.
  do 6 (apply post_bind; intros). apply no_page_of_size_zero.
Qed.

Lemma get_epic_with_subtasks_size_zero m d p n :
  Z.min (max_results config) n = 0 ->
  post is_an_error
       (_get_epic_with_subtasks py jira config (with_data m (paged d p n))).
Proof.
  intros Hzero. unfold _get_epic_with_subtasks, epic_subtasks.
  apply post_bind_lift. intros data Hdata.
  rewrite py_get_with_data in Hdata. injection Hdata as <-.
  do 2 (apply post_bind; intros). apply post_bind_lift. intros page_size Hsize.
  rewrite get_page_size_paged, Hzero in Hsize. injection Hsize as <-.
  match goal with |- post _ (if ?b then _ else _) => destruct b end;
    [ apply post_ret; eexists; reflexivity | ].
  apply post_try; [ | apply api_except_errors ].
  apply post_bind. intros epics.
  destruct (issues epics); [ apply post_ret; eexists; reflexivity | ].
  do 2 (apply post_bind; intros). apply no_page_of_size_zero.
Qed.

Lemma returns_error (m : M W json) s :
  returns m -> post is_an_error m -> exists msg s', m s = (Ok (error_envelope msg), s').
Proof.
  intros Hr Hp. destruct (Hr s) as (env & s' & E).
  specialize (Hp s). rewrite E in Hp. destruct Hp as [msg ->]. eauto.
Qed.

(** C10. For a request of page [p] with page size [n], in search_issues,
    get_epic_with_subtasks and get_my_issues: the handler returns an envelope
    for all integers [p] and [n]; a page size [n <= 0] that is not above the
    configured maximum is passed on as it is (the search asks for [n]
    results at offset [(page - 1) * n]); and with [n = 0] the computation of
    [total_pages] divides by zero, which is caught: the result is an error
    envelope. *)
Theorem page_size_not_clamped_below (m d : gmap string json) (p n : Z) (s : St W) :
  let message := with_data m (paged d p n) in
  let search := _search_issues py jira config message s in
  let epic := _get_epic_with_subtasks py jira config message s in
  let mine := _get_my_issues py jira config message s in
  ((exists env s', search = (Ok env, s'))
   /\ (exists env s', epic = (Ok env, s'))
   /\ (exists env s', mine = (Ok env, s')))
  /\ (n <= 0 -> n <= max_results config ->
      let paged_search jql := SearchIssues jql ((Z.max 1 p - 1) * n) n in
      (calls search.2 = calls s
       \/ exists jql, calls search.2 = calls s ++ [paged_search jql])
      /\ (calls epic.2 = calls s
          \/ (exists lookup, calls epic.2 = calls s ++ [SearchIssues lookup 0 5])
          \/ (exists lookup jql,
                calls epic.2 = calls s ++ [SearchIssues lookup 0 5; paged_search jql]))
      /\ (calls mine.2 = calls s
          \/ exists jql, calls mine.2 = calls s ++ [paged_search jql]))
  /\ (n = 0 -> 0 <= max_results config ->
      (forall tot page,
          pagination_block tot page n
          = Err (ZeroDivisionError "integer division or modulo by zero"))
      /\ (exists msg s', search = (Ok (error_envelope msg), s'))
      /\ (exists msg s', epic = (Ok (error_envelope msg), s'))
      /\ (exists msg s', mine = (Ok (error_envelope msg), s'))).
Proof.
  cbv zeta. split; [ | split ].
  - split; [ | split ].
    + apply search_issues_returns.
    + apply get_epic_with_subtasks_returns.
    + apply get_my_issues_returns.
  - intros Hn Hmax.
    pose proof (py_get_with_data m (paged d p n) (dict [])) as Hdata.
    destruct (requested_paged d p n) as [Hp Hs].
    pose proof (search_issues_calls py jira config _ _ p n s Hdata Hp Hs) as H1.
    pose proof (get_epic_with_subtasks_calls py jira config _ _ p n s Hdata Hp Hs) as H2.
    pose proof (get_my_issues_calls py jira config _ _ p n s Hdata Hp Hs) as H3.
    cbv zeta in H1, H2, H3.
    replace (Z.min (max_results config) n) with n in H1, H2, H3 by lia.
    auto.
  - intros -> Hmax.
    assert (Z.min (max_results config) 0 = 0) as Hzero by lia.
    split; [ intros; reflexivity | ].
    split; [ | split ]; apply returns_error.
    + apply search_issues_returns.
    + now apply search_issues_size_zero.
    + apply get_epic_with_subtasks_returns.
    + now apply get_epic_with_subtasks_size_zero.
    + apply get_my_issues_returns.
    + now apply get_my_issues_size_zero.
Qed.

End NonPositivePageSize.

(** A search with page size 0 is sent to the tracker with [maxResults = 0];
    the tracker answers, and the division by zero becomes the envelope of an
    unexpected error. *)
Lemma page_size_not_clamped_below_witness :
  _search_issues Sample.python (Sample.accepting 5) Sample.config
    (with_data ∅ (paged (<["search_text" := JStr "bug"]> ∅) 2 0)) (start tt)
  = (Ok (error_envelope "An unexpected error occurred"),
     {| world := tt;
        calls := [SearchIssues
                    ("(summary ~ " +:+ dq +:+ "bug" +:+ dq
                       +:+ " OR description ~ " +:+ dq +:+ "bug" +:+ dq
                       +:+ ") AND issuetype != Epic") 0 0] |}).
Proof.
  pose proof (page_size_not_clamped_below Sample.python (Sample.accepting 5) Sample.config
                ∅ (<["search_text" := JStr "bug"]> ∅) 2 0 (start tt)) as T.
  cbv zeta in T. destruct T as [_ [Hlow Hzero]].
  assert (0 <= 0) as H0 by lia.
  assert (0 <= max_results Sample.config) as Hmax by (vm_compute; discriminate).
  destruct (Hlow H0 Hmax) as [[Hc | [jql Hc]] _];
    destruct (Hzero eq_refl Hmax) as [_ [[msg [s' E]] _]].
  - rewrite E in Hc. vm_compute in E. injection E as <- <-. vm_compute. reflexivity.
  - rewrite E in Hc. vm_compute in E. injection E as <- <-. vm_compute. reflexivity.
Defined.

(** ** The query of search_issues *)

Lemma append_assoc (a b c : string) : (a +:+ b) +:+ c = a +:+ (b +:+ c).
Proof.
  induction a as [ | x a IH]; [ reflexivity | ].
  change (String x ((a +:+ b) +:+ c) = String x (a +:+ (b +:+ c))).
  now rewrite IH.
Qed.

Section SearchQuery.

Variable py : Python.
Context {W : Type}.
Variable jira : JiraClient W.
Variable config : JiraConfig.

(** C6. A search_issues request with a search text sends one query: the
    text filter and the exclusion of epics joined by AND, where the text
    filter matches the summary alone when title_only holds, and the summary
    or the description otherwise. *)
Theorem search_query (m d : gmap string json) (s : St W) (search_text : json) (p n : Z) :
  py_get (JDict m) "data" (dict []) = Ok (JDict d) ->
  d !! "search_text" = Some search_text -> py_truthy search_text = true ->
  requested_int py (JDict d) "page" (JInt 1) = Ok p ->
  requested_int py (JDict d) "page_size" (JInt 20) = Ok n ->
  let title_only := py_truthy (default (JBool false) (d !! "title_only")) in
  let text := dq +:+ py_str py search_text +:+ dq in
  let text_filter :=
    if title_only then "summary ~ " +:+ text
    else "(summary ~ " +:+ text +:+ " OR description ~ " +:+ text +:+ ")" in
  let jql := text_filter +:+ " AND " +:+ "issuetype != Epic" in
  calls (_search_issues py jira config (JDict m) s).2
  = calls s ++ [SearchIssues jql ((Z.max 1 p - 1) * Z.min (max_results config) n)
                             (Z.min (max_results config) n)].
Proof.
  intros Hdata Htext Htruthy Hp Hn. cbv zeta.
  unfold _search_issues, try_except, bind, lift, ret, call, get_page, get_page_size.
  rewrite Hdata, Hp, Hn. cbn [py_get]. rewrite Htext, Htruthy. cbn [negb].
  assert (forall (r : Result json * St W) jql jql' off size,
             jql = jql' ->
             calls r.2 = calls s ++ [SearchIssues jql off size] ->
             calls r.2 = calls s ++ [SearchIssues jql' off size]) as Hsame
      by (intros; subst; assumption).
  eapply Hsame.
  2: { repeat (cbn [fst snd calls world];
               match goal with
               | |- context [jira_search_issues ?j ?q ?a ?b ?w] =>
                   destruct (jira_search_issues j q a b w) as [[? | ?] ?]
               | |- context [pagination_block ?a ?b ?c] =>
                   destruct (pagination_block a b c)
               end);
       cbn [fst snd calls world]; rewrite ?api_except_state; reflexivity. }
  unfold search_jql.
  destruct (d !! "title_only") as [title_only | ]; cbn [from_option]; unfold id;
    [ destruct (py_truthy title_only) | cbn [py_truthy] ];
    rewrite ?append_assoc; reflexivity.
Qed.

End SearchQuery.

(** A title search for "login" is [summary ~ "login" AND issuetype != Epic]. *)
Lemma search_query_witness :
  calls (handle_mcp_message Sample.python (Sample.accepting 5) Sample.config
           (message_of "search_issues"
              [("search_text", JStr "login"); ("title_only", JBool true)])
           (start tt)).2
  = [SearchIssues ("summary ~ " +:+ dq +:+ "login" +:+ dq +:+ " AND issuetype != Epic")
       0 20].
Proof.
  pose proof (search_query Sample.python (Sample.accepting 5) Sample.config
                (list_to_map [("command", JStr "search_issues");
                              ("data", dict [("search_text", JStr "login");
                                             ("title_only", JBool true)])])
                (list_to_map [("search_text", JStr "login"); ("title_only", JBool true)])
                (start tt) (JStr "login") 1 20) as T.
  specialize (T ltac:(vm_compute; reflexivity) ltac:(vm_compute; reflexivity)
                ltac:(vm_compute; reflexivity) ltac:(vm_compute; reflexivity)
                ltac:(vm_compute; reflexivity)).
  vm_compute in T. vm_compute. exact T.
Defined.

(** ** The query of get_my_issues *)

Section MyIssuesQuery.

Variable py : Python.
Context {W : Type}.
Variable jira : JiraClient W.
Variable config : JiraConfig.

Lemma is_sort_field (sort_by : json) :
  existsb (py_eq_str sort_by) sort_fields = true
  <-> exists f, sort_by = JStr f /\ In f sort_fields.
Proof.
  rewrite existsb_exists. split.
  - intros (f & Hin & Heq). exists f. split; [ | exact Hin ].
    destruct sort_by; try discriminate. cbn [py_eq_str] in Heq.
    apply String.eqb_eq in Heq. now subst.
  - intros (f & -> & Hin). exists f. split; [ exact Hin | ].
    cbn [py_eq_str]. apply String.eqb_refl.
Qed.

Lemma my_issues_sort_of_order (m d : gmap string json) (s : St W) (p n : Z) (order : string) :
  py_get (JDict m) "data" (dict []) = Ok (JDict d) ->
  requested_int py (JDict d) "page" (JInt 1) = Ok p ->
  requested_int py (JDict d) "page_size" (JInt 20) = Ok n ->
  default (JStr "DESC") (d !! "sort_order") = JStr order ->
  let sort_by := default (JStr "updated") (d !! "sort_by") in
  let status := default JNull (d !! "status") in
  let project := default JNull (d !! "project") in
  let filters :=
    str_join " AND "
      (["assignee = currentUser()"]
         ++ (if py_truthy status
             then ["status = " +:+ dq +:+ py_str py status +:+ dq] else [])
         ++ (if py_truthy project
             then ["project = " +:+ dq +:+ py_str py project +:+ dq] else [])) in
  exists jql,
    calls (_get_my_issues py jira config (JDict m) s).2
    = calls s ++ [SearchIssues jql ((Z.max 1 p - 1) * Z.min (max_results config) n)
                               (Z.min (max_results config) n)]
    /\ ((exists f, sort_by = JStr f /\ In f sort_fields
                   /\ jql = filters +:+ " ORDER BY " +:+ f +:+ " " +:+ str_upper py order)
        \/ ((forall f, In f sort_fields -> sort_by <> JStr f) /\ jql = filters)).
Proof.
  intros Hdata Hp Hn Horder. cbv zeta.
  exists (my_issues_jql py (default JNull (d !! "status"))
            (default JNull (d !! "project"))
            (default (JStr "updated") (d !! "sort_by")) (str_upper py order)).
  split.
  - unfold _get_my_issues, try_except, bind, lift, ret, call, get_page, get_page_size.
    rewrite Hdata, Hp, Hn. cbn [py_get].
    change (match d !! "sort_order" with Some v => v | None => JStr "DESC" end)
      with (default (JStr "DESC") (d !! "sort_order")).
    rewrite Horder. cbn [py_upper].
    repeat (cbn [fst snd calls world];
            match goal with
            | |- context [jira_search_issues ?j ?q ?a ?b ?w] =>
                destruct (jira_search_issues j q a b w) as [[? | ?] ?]
            | |- context [pagination_block ?a ?b ?c] =>
                destruct (pagination_block a b c)
            end);
      cbn [fst snd calls world]; rewrite ?api_except_state; reflexivity.
  - unfold my_issues_jql.
    destruct (existsb (py_eq_str (default (JStr "updated") (d !! "sort_by"))) sort_fields)
      eqn:E.
    + left. apply is_sort_field in E as (f & Hf & Hin).
      exists f. rewrite Hf. repeat split; auto.
    + right. split; [ | reflexivity ].
      intros f Hin Hf.
      assert (existsb (py_eq_str (default (JStr "updated") (d !! "sort_by"))) sort_fields
              = true) as E' by (apply is_sort_field; eauto).
      congruence.
Qed.

(** C4, as the code has it.  The query of get_my_issues is its filters,
    followed by [ORDER BY sort_by direction] if and only if sort_by -- the
    requested one, or "updated" when the request has none -- is one of
    created, updated, priority, status, duedate; the direction is
    [sort_order.upper()] for the requested sort_order, a string, and "DESC"
    when the request has none: "ASC" for "asc", "DESC" for "desc", and
    whatever else was asked for, unchecked.  A sort_order that is not a
    string has no [upper()]: no query is sent and the answer is the envelope
    of an unexpected error. *)
Theorem my_issues_sort (m d : gmap string json) (s : St W) (p n : Z) :
  py_get (JDict m) "data" (dict []) = Ok (JDict d) ->
  requested_int py (JDict d) "page" (JInt 1) = Ok p ->
  requested_int py (JDict d) "page_size" (JInt 20) = Ok n ->
  let sort_order := default (JStr "DESC") (d !! "sort_order") in
  let sort_by := default (JStr "updated") (d !! "sort_by") in
  let status := default JNull (d !! "status") in
  let project := default JNull (d !! "project") in
  let filters :=
    str_join " AND "
      (["assignee = currentUser()"]
         ++ (if py_truthy status
             then ["status = " +:+ dq +:+ py_str py status +:+ dq] else [])
         ++ (if py_truthy project
             then ["project = " +:+ dq +:+ py_str py project +:+ dq] else [])) in
  (forall order,
      sort_order = JStr order ->
      exists jql,
        calls (_get_my_issues py jira config (JDict m) s).2
        = calls s ++ [SearchIssues jql ((Z.max 1 p - 1) * Z.min (max_results config) n)
                                   (Z.min (max_results config) n)]
        /\ ((exists f, sort_by = JStr f /\ In f sort_fields
                       /\ jql = filters +:+ " ORDER BY " +:+ f +:+ " "
                                  +:+ str_upper py order)
            \/ ((forall f, In f sort_fields -> sort_by <> JStr f) /\ jql = filters)))
  /\ ((forall order, sort_order <> JStr order) ->
      _get_my_issues py jira config (JDict m) s
      = (Ok (error_envelope "An unexpected error occurred"), s))
  /\ str_upper py "asc" = "ASC" /\ str_upper py "desc" = "DESC".
Proof.
  intros Hdata Hp Hn. cbv zeta. split; [ | split; [ | split ] ].
  - intros order Horder.
    exact (my_issues_sort_of_order m d s p n order Hdata Hp Hn Horder).
  - intros Hnot.
    unfold _get_my_issues, try_except, bind, lift, get_page, get_page_size.
    rewrite Hdata, Hp, Hn. cbn [py_get].
    change (match d !! "sort_order" with Some v => v | None => JStr "DESC" end)
      with (default (JStr "DESC") (d !! "sort_order")).
    destruct (default (JStr "DESC") (d !! "sort_order"))
      as [ | b | z | f | order | l | dn ]; try reflexivity.
    now destruct (Hnot order).
  - now rewrite str_upper_ascii.
  - now rewrite str_upper_ascii.
Qed.

End MyIssuesQuery.

(** Sorted by priority, ascending, within one project; and unsorted when
    sort_by is none of the five fields. *)
Lemma my_issues_sort_witness :
  let run d := calls (handle_mcp_message Sample.python (Sample.accepting 5) Sample.config
                        (message_of "get_my_issues" d) (start tt)).2 in
  run [("project", JStr "PROJ"); ("sort_by", JStr "priority"); ("sort_order", JStr "asc")]
  = [SearchIssues ("assignee = currentUser() AND project = " +:+ dq +:+ "PROJ" +:+ dq
                     +:+ " ORDER BY priority ASC") 0 20]
  /\ run [("sort_by", JStr "assignee")]
     = [SearchIssues "assignee = currentUser()" 0 20].
Proof.
  cbv zeta. split.
  - pose proof (my_issues_sort Sample.python (Sample.accepting 5) Sample.config
                  (list_to_map [("command", JStr "get_my_issues");
                                ("data", dict [("project", JStr "PROJ");
                                               ("sort_by", JStr "priority");
                                               ("sort_order", JStr "asc")])])
                  (list_to_map [("project", JStr "PROJ"); ("sort_by", JStr "priority");
                                ("sort_order", JStr "asc")])
                  (start tt) 1 20) as T.
    specialize (T ltac:(vm_compute; reflexivity) ltac:(vm_compute; reflexivity)
                  ltac:(vm_compute; reflexivity)).
    cbv zeta in T. destruct T as [T _].
    destruct (T "asc" ltac:(vm_compute; reflexivity)) as (jql & Hcalls & _).
    vm_compute in Hcalls. vm_compute. reflexivity.
  - pose proof (my_issues_sort Sample.python (Sample.accepting 5) Sample.config
                  (list_to_map [("command", JStr "get_my_issues");
                                ("data", dict [("sort_by", JStr "assignee")])])
                  (list_to_map [("sort_by", JStr "assignee")])
                  (start tt) 1 20) as T.
    specialize (T ltac:(vm_compute; reflexivity) ltac:(vm_compute; reflexivity)
                  ltac:(vm_compute; reflexivity)).
    cbv zeta in T. destruct T as [T _].
    destruct (T "DESC" ltac:(vm_compute; reflexivity)) as (jql & Hcalls & _).
    vm_compute in Hcalls. vm_compute. reflexivity.
Defined.

(** C4 as stated fails: a request without sort_by is sorted by "updated",
    and a sort_order that is neither asc nor desc is used as it is. *)
Lemma my_issues_sorted_by_default :
  let run d := calls (handle_mcp_message Sample.python (Sample.accepting 5) Sample.config
                        (message_of "get_my_issues" d) (start tt)).2 in
  run [] = [SearchIssues "assignee = currentUser() ORDER BY updated DESC" 0 20]
  /\ run [("sort_by", JStr "created"); ("sort_order", JStr "sideways")]
     = [SearchIssues "assignee = currentUser() ORDER BY created SIDEWAYS" 0 20].
Proof. cbv zeta. split; vm_compute; reflexivity. Qed.

(** ** The epic of get_epic_with_subtasks *)

Section EpicSelection.

Variable py : Python.
Context {W : Type}.
Variable jira : JiraClient W.
Variable config : JiraConfig.

Lemma first_exact_spec name (epics : list Issue) :
  (exists epic before rest,
      first_exact py epics (JStr name) = Ok (Some epic)
      /\ epics = before ++ epic :: rest
      /\ exact_match py name epic /\ Forall (fun e => ~ exact_match py name e) before)
  \/ (first_exact py epics (JStr name) = Ok None
      /\ Forall (fun e => ~ exact_match py name e) epics).
Proof.
  induction epics as [ | e epics IH]; [ right; split; [ reflexivity | constructor ] | ].
  cbn [first_exact py_lower].
  destruct (String.eqb_spec (str_lower py (i_summary e)) (str_lower py name)) as [Heq | Hne].
  - left. exists e, [], epics. repeat split; [ exact Heq | constructor ].
  - destruct IH as [(epic & before & rest & Hf & -> & Hex & Hno) | [Hf Hno]].
    + left. exists epic, (e :: before), rest. repeat split; auto.
    + right. split; [ exact Hf | constructor; auto ].
Qed.

Lemma select_epic_chosen name first rest :
  exists epic, select_epic py first rest (JStr name) = Ok epic
               /\ chosen py name (first :: rest) epic.
Proof.
  unfold select_epic.
  destruct (first_exact_spec name (first :: rest))
    as [(epic & before & after & -> & Hsplit & Hex & Hno) | [-> Hno]].
  - exists epic. split; [ reflexivity | left; eauto ].
  - exists first. split; [ reflexivity | right; auto ].
Qed.

Lemma api_except_result e (s : St W) :
  exists msg, api_except py e s = (Ok (error_envelope msg), s).
Proof. destruct e; eexists; reflexivity. Qed.

Lemma epic_selection_of_name (m d : gmap string json) (s : St W) (name : string) (p n : Z)
    (found : ResultList) (w1 : W) :
  py_get (JDict m) "data" (dict []) = Ok (JDict d) ->
  d !! "epic_name" = Some (JStr name) -> name <> EmptyString ->
  requested_int py (JDict d) "page" (JInt 1) = Ok p ->
  requested_int py (JDict d) "page_size" (JInt 20) = Ok n ->
  let lookup := "issuetype = Epic AND (summary ~ " +:+ dq +:+ name +:+ dq
                  +:+ " OR summary = " +:+ dq +:+ name +:+ dq +:+ ")" in
  jira_search_issues jira lookup 0 5 (world s) = (Ok found, w1) ->
  let result := _get_epic_with_subtasks py jira config (JDict m) s in
  match issues found with
  | [] =>
      result = (Ok (error_envelope ("No epic found with name containing "
                                      +:+ dq +:+ name +:+ dq)),
                {| world := w1; calls := calls s ++ [SearchIssues lookup 0 5] |})
  | _ :: _ =>
      exists epic,
        chosen py name (issues found) epic
        /\ calls result.2
           = calls s ++ [SearchIssues lookup 0 5;
                         SearchIssues (dq +:+ "Epic Link" +:+ dq +:+ " = " +:+ i_key epic
                                         +:+ " ORDER BY created DESC")
                           ((Z.max 1 p - 1) * Z.min (max_results config) n)
                           (Z.min (max_results config) n)]
        /\ (forall env, result.1 = Ok env -> is_error env = false ->
                        lookup_path ["data"; "epic"] env = Some (epic_block epic))
  end.
Proof.
  intros Hdata Hname Hnonempty Hp Hn lookup Hlookup. cbv zeta.
  unfold _get_epic_with_subtasks, try_except, bind, lift, ret, call, get_page, get_page_size.
  rewrite Hdata, Hp, Hn. cbn [py_get]. rewrite Hname.
  assert (py_truthy (JStr name) = true) as ->.
  { cbn [py_truthy]. apply negb_true_iff. now apply String.eqb_neq. }
  cbn [negb]. unfold epic_jql. cbn [py_str]. fold lookup. rewrite Hlookup.
  cbn [fst snd world calls].
  destruct (issues found) as [ | first rest]; [ reflexivity | ].
  destruct (select_epic_chosen name first rest) as (epic & -> & Hchosen).
  exists epic. split; [ exact Hchosen | ].
  unfold epic_subtasks, subtasks_jql, bind, lift, ret, call. cbn [fst snd world calls].
  match goal with
  | |- context [jira_search_issues ?j ?q ?a ?b ?w] =>
      destruct (jira_search_issues j q a b w) as [[subtasks | e] w2]
  end; cbn [fst snd world calls].
  - destruct (pagination_block (total subtasks) (Z.max 1 p) (Z.min (max_results config) n))
      as [pag | e]; cbn [fst snd world calls].
    + split; [ now rewrite <- app_assoc | ].
      intros env [= <-] _. reflexivity.
    + destruct (api_except_result e
                  {| world := w2;
                     calls := (calls s ++ [SearchIssues lookup 0 5])
                                ++ [SearchIssues (dq +:+ "Epic Link" +:+ dq +:+ " = "
                                                    +:+ i_key epic
                                                    +:+ " ORDER BY created DESC")
                                      ((Z.max 1 p - 1) * Z.min (max_results config) n)
                                      (Z.min (max_results config) n)] |})
        as [msg ->].
      cbn [fst snd world calls]. split; [ now rewrite <- app_assoc | ].
      intros env [= <-] H. now rewrite is_error_error_envelope in H.
  - destruct (api_except_result e
                {| world := w2;
                   calls := (calls s ++ [SearchIssues lookup 0 5])
                              ++ [SearchIssues (dq +:+ "Epic Link" +:+ dq +:+ " = "
                                                  +:+ i_key epic
                                                  +:+ " ORDER BY created DESC")
                                    ((Z.max 1 p - 1) * Z.min (max_results config) n)
                                    (Z.min (max_results config) n)] |})
      as [msg ->].
    cbn [fst snd world calls]. split; [ now rewrite <- app_assoc | ].
    intros env [= <-] H. now rewrite is_error_error_envelope in H.
Qed.

Lemma epic_lookup (m d : gmap string json) (s : St W) (epic_name : json) (p n : Z)
    (found : ResultList) (w1 : W) :
  py_get (JDict m) "data" (dict []) = Ok (JDict d) ->
  d !! "epic_name" = Some epic_name -> py_truthy epic_name = true ->
  requested_int py (JDict d) "page" (JInt 1) = Ok p ->
  requested_int py (JDict d) "page_size" (JInt 20) = Ok n ->
  jira_search_issues jira (epic_jql py epic_name) 0 5 (world s) = (Ok found, w1) ->
  let s1 := {| world := w1; calls := calls s ++ [SearchIssues (epic_jql py epic_name) 0 5] |} in
  _get_epic_with_subtasks py jira config (JDict m) s
  = match issues found with
    | [] => (Ok (error_envelope ("No epic found with name containing " +:+ dq
                                   +:+ py_str py epic_name +:+ dq)), s1)
    | first :: rest =>
        try_except
          (let* epic := lift (select_epic py first rest epic_name) in
           epic_subtasks jira epic (Z.max 1 p) (Z.min (max_results config) n))
          (api_except py) s1
    end.
Proof.
  intros Hdata Hname Htruthy Hp Hn Hlookup. cbv zeta.
  unfold _get_epic_with_subtasks, get_page, get_page_size.
  unfold bind at 1. unfold lift at 1. rewrite Hdata.
  unfold bind at 1. unfold lift at 1. cbn [py_get]. rewrite Hname.
  unfold bind at 1. unfold lift at 1. rewrite Hp.
  unfold bind at 1. unfold lift at 1. rewrite Hn.
  rewrite Htruthy. cbn [negb].
  unfold try_except at 1. unfold bind at 1. unfold call at 1. rewrite Hlookup.
  cbn [world calls].
  destruct (issues found) as [ | first rest]; reflexivity.
Qed.

(** C7, as the code has it.  The lookup of the epic is a search limited to
    5 results for epics whose summary matches or equals epic_name.  When it
    finds no candidate, the result is an error envelope.  When it finds
    some and epic_name is a string, the epic whose summary equals epic_name
    through [lower()] is chosen if there is one (the first such), the first
    candidate otherwise: the linked issues are searched under the key of
    the chosen epic and a successful response describes that epic.  When it
    finds some and epic_name is not a string, there is no [lower()] to
    compare with: no epic is chosen and the answer is the envelope of an
    unexpected error. *)
Theorem epic_selection (m d : gmap string json) (s : St W) (epic_name : json) (p n : Z)
    (found : ResultList) (w1 : W) :
  py_get (JDict m) "data" (dict []) = Ok (JDict d) ->
  d !! "epic_name" = Some epic_name -> py_truthy epic_name = true ->
  requested_int py (JDict d) "page" (JInt 1) = Ok p ->
  requested_int py (JDict d) "page_size" (JInt 20) = Ok n ->
  let lookup := "issuetype = Epic AND (summary ~ " +:+ dq +:+ py_str py epic_name +:+ dq
                  +:+ " OR summary = " +:+ dq +:+ py_str py epic_name +:+ dq +:+ ")" in
  jira_search_issues jira lookup 0 5 (world s) = (Ok found, w1) ->
  let result := _get_epic_with_subtasks py jira config (JDict m) s in
  let looked_up := {| world := w1; calls := calls s ++ [SearchIssues lookup 0 5] |} in
  (issues found = [] ->
   result = (Ok (error_envelope ("No epic found with name containing "
                                   +:+ dq +:+ py_str py epic_name +:+ dq)), looked_up))
  /\ (forall name,
        epic_name = JStr name -> issues found <> [] ->
        exists epic,
          chosen py name (issues found) epic
          /\ calls result.2
             = calls s ++ [SearchIssues lookup 0 5;
                           SearchIssues (dq +:+ "Epic Link" +:+ dq +:+ " = " +:+ i_key epic
                                           +:+ " ORDER BY created DESC")
                             ((Z.max 1 p - 1) * Z.min (max_results config) n)
                             (Z.min (max_results config) n)]
          /\ (forall env, result.1 = Ok env -> is_error env = false ->
                          lookup_path ["data"; "epic"] env = Some (epic_block epic)))
  /\ ((forall name, epic_name <> JStr name) -> issues found <> [] ->
      result = (Ok (error_envelope "An unexpected error occurred"), looked_up)).
Proof.
  intros Hdata Hname Htruthy Hp Hn lookup Hlookup result looked_up.
  pose proof (epic_lookup m d s epic_name p n found w1 Hdata Hname Htruthy Hp Hn Hlookup)
    as Hsteps.
  cbv zeta in Hsteps. fold result in Hsteps.
  split; [ | split ].
  - intros Hnone. rewrite Hnone in Hsteps. exact Hsteps.
  - intros name -> Hsome.
    assert (name <> EmptyString) as Hnonempty.
    { intros ->. discriminate Htruthy. }
    pose proof (epic_selection_of_name m d s name p n found w1 Hdata Hname Hnonempty
                  Hp Hn Hlookup) as H.
    cbv zeta in H. destruct (issues found); [ now destruct Hsome | exact H ].
  - intros Hnot Hsome. rewrite Hsteps.
    destruct (issues found) as [ | first rest]; [ now destruct Hsome | ].
    unfold try_except, bind, lift, select_epic. cbn [first_exact].
    destruct epic_name as [ | b | z | f | name | l | dn ];
      try reflexivity.
    now destruct (Hnot name).
Qed.

End EpicSelection.

(** Of the three candidates for "Checkout Flow", the second matches exactly
    up to case; it is preferred to the first. *)
Lemma epic_selection_witness :
  let message :=
    JDict (list_to_map [("command", JStr "get_epic_with_subtasks");
                        ("data", dict [("epic_name", JStr "Checkout Flow")])]) in
  let result :=
    _get_epic_with_subtasks Sample.python (Sample.accepting 5) Sample.config message
      (start tt) in
  let lookup := "issuetype = Epic AND (summary ~ " +:+ dq +:+ "Checkout Flow" +:+ dq
                  +:+ " OR summary = " +:+ dq +:+ "Checkout Flow" +:+ dq +:+ ")" in
  exists epic,
    chosen Sample.python "Checkout Flow" Sample.epics epic
    /\ calls result.2
       = [SearchIssues lookup 0 5;
          SearchIssues (dq +:+ "Epic Link" +:+ dq +:+ " = " +:+ i_key epic
                          +:+ " ORDER BY created DESC") 0 20]
    /\ (forall env, result.1 = Ok env -> is_error env = false ->
                    lookup_path ["data"; "epic"] env = Some (epic_block epic)).
Proof.
  cbv zeta.
  pose proof (epic_selection Sample.python (Sample.accepting 5) Sample.config
                (list_to_map [("command", JStr "get_epic_with_subtasks");
                              ("data", dict [("epic_name", JStr "Checkout Flow")])])
                (list_to_map [("epic_name", JStr "Checkout Flow")])
                (start tt) (JStr "Checkout Flow") 1 20
                {| issues := Sample.epics; total := 3 |} tt) as T.
  specialize (T ltac:(vm_compute; reflexivity) ltac:(vm_compute; reflexivity)
                ltac:(vm_compute; reflexivity) ltac:(vm_compute; reflexivity)
                ltac:(vm_compute; reflexivity)).
  cbv zeta in T. specialize (T ltac:(vm_compute; reflexivity)).
  destruct T as [_ [T _]].
  exact (T "Checkout Flow" eq_refl ltac:(discriminate)).
Defined.

(** C7 as stated fails for an epic_name that is truthy and not a string:
    the lookup for the name 5 finds candidates, and none is selected. *)
Lemma epic_name_not_a_string :
  handle_mcp_message Sample.python (Sample.accepting 5) Sample.config
    (message_of "get_epic_with_subtasks" [("epic_name", JInt 5)]) (start tt)
  = (Ok (error_envelope "An unexpected error occurred"),
     {| world := tt;
        calls := [SearchIssues ("issuetype = Epic AND (summary ~ " +:+ dq +:+ "5" +:+ dq
                                  +:+ " OR summary = " +:+ dq +:+ "5" +:+ dq +:+ ")")
                    0 5] |}).
Proof. vm_compute. reflexivity. Qed.

Example exact_epic_preferred :
  calls (handle_mcp_message Sample.python (Sample.accepting 5) Sample.config
           (message_of "get_epic_with_subtasks" [("epic_name", JStr "Checkout Flow")])
           (start tt)).2
  = [SearchIssues ("issuetype = Epic AND (summary ~ " +:+ dq +:+ "Checkout Flow" +:+ dq
                     +:+ " OR summary = " +:+ dq +:+ "Checkout Flow" +:+ dq +:+ ")") 0 5;
     SearchIssues (dq +:+ "Epic Link" +:+ dq +:+ " = EP-2 ORDER BY created DESC") 0 20].
Proof. vm_compute. reflexivity. Qed.

Example first_epic_otherwise :
  calls (handle_mcp_message Sample.python (Sample.accepting 5) Sample.config
           (message_of "get_epic_with_subtasks" [("epic_name", JStr "flow")])
           (start tt)).2
  = [SearchIssues ("issuetype = Epic AND (summary ~ " +:+ dq +:+ "flow" +:+ dq
                     +:+ " OR summary = " +:+ dq +:+ "flow" +:+ dq +:+ ")") 0 5;
     SearchIssues (dq +:+ "Epic Link" +:+ dq +:+ " = EP-1 ORDER BY created DESC") 0 20].
Proof. vm_compute. reflexivity. Qed.

(** ** What the handlers add to the log *)

Section Logs.

Context {W : Type}.

Lemma appends_ret {A} Q (a : A) : appends (W := W) Q (ret a).
Proof. intros s. exists []. now rewrite app_nil_r. Qed.

Lemma appends_lift {A} Q (r : Result A) : appends (W := W) Q (lift r).
Proof. intros s. exists []. now rewrite app_nil_r. Qed.

Lemma appends_raise {A} Q e : appends (W := W) (A := A) Q (raise e).
Proof. intros s. exists []. now rewrite app_nil_r. Qed.

Lemma appends_call {A} (Q : Call -> Prop) c (op : W -> Result A * W) :
  Q c -> appends Q (call c op).
Proof.
  intros H s. exists [c]. unfold call. destruct (op (world s)). cbn. auto.
Qed.

Lemma appends_bind {A B} Q (m : M W A) (k : A -> M W B) :
  appends Q m -> (forall a, appends Q (k a)) -> appends Q (bind m k).
Proof.
  intros Hm Hk s. unfold bind. destruct (Hm s) as (new & E & HQ).
  destruct (m s) as [[a | e] s1]; cbn [snd] in *.
  - destruct (Hk a s1) as (new' & E' & HQ').
    exists (new ++ new'). rewrite E', E, app_assoc. split; [ reflexivity | ].
    apply Forall_app; auto.
  - exists new. auto.
Qed.

Lemma appends_try {A} Q (body : M W A) (h : Exn -> M W A) :
  appends Q body -> (forall e, appends Q (h e)) -> appends Q (try_except body h).
Proof.
  intros Hm Hk s. unfold try_except. destruct (Hm s) as (new & E & HQ).
  destruct (body s) as [[a | e] s1]; cbn [snd] in *.
  - exists new. auto.
  - destruct (Hk e s1) as (new' & E' & HQ').
    exists (new ++ new'). rewrite E', E, app_assoc. split; [ reflexivity | ].
    apply Forall_app; auto.
Qed.

Lemma appends_weaken {A} (Q Q' : Call -> Prop) (m : M W A) :
  (forall c, Q c -> Q' c) -> appends Q m -> appends Q' m.
Proof.
  intros H Hm s. destruct (Hm s) as (new & E & HQ). exists new. split; [ exact E | ].
  eapply Forall_impl; eauto.
Qed.

End Logs.

Ltac appends_step :=
  first
    [ apply appends_ret
    | apply appends_lift
    | apply appends_raise
    | apply appends_call; reflexivity
    | apply appends_bind; [ | intros ]
    | apply appends_try; [ | intros ]
    | match goal with
      | |- appends _ (if ?b then _ else _) => destruct b
      | |- appends _ (match ?x with _ => _ end) => destruct x
      | |- appends _ (let '(_, _) := ?x in _) => destruct x
      end ].

Section ReadOnly.

Variable py : Python.
Context {W : Type}.
Variable jira : JiraClient W.
Variable config : JiraConfig.

Lemma api_except_appends Q e : appends Q (api_except py (W := W) e).
Proof. destruct e; apply appends_ret. Qed.

Lemma get_issue_reads message : appends reads_only (_get_issue jira message).
Proof. unfold _get_issue. repeat appends_step. Qed.

Lemma search_issues_reads message :
  appends reads_only (_search_issues py jira config message).
Proof.
  unfold _search_issues. repeat first [ apply api_except_appends | appends_step ].
Qed.

Lemma get_epic_with_subtasks_reads message :
  appends reads_only (_get_epic_with_subtasks py jira config message).
Proof.
  unfold _get_epic_with_subtasks, epic_subtasks.
  repeat first [ apply api_except_appends | appends_step ].
Qed.

Lemma get_my_issues_reads message :
  appends reads_only (_get_my_issues py jira config message).
Proof.
  unfold _get_my_issues. repeat first [ apply api_except_appends | appends_step ].
Qed.

Lemma get_transitions_reads message : appends reads_only (_get_transitions jira message).
Proof. unfold _get_transitions. repeat appends_step. Qed.

(** Only create_issue and update_issue change the tracker: a message with
    any other command, or with none, or that is no dictionary at all, adds
    only reads (fetching an issue, its transitions, a search) to the log of
    calls, whatever the tracker answers. *)
Theorem other_commands_read_only (message : json) (s : St W) :
  (forall command, py_get message "command" JNull = Ok command ->
                   py_eq_str command "create_issue" = false
                   /\ py_eq_str command "update_issue" = false) ->
  exists new,
    calls (handle_mcp_message py jira config message s).2 = calls s ++ new
    /\ Forall reads_only new.
Proof.
  intros Hcmd. revert s.
  change (appends reads_only (handle_mcp_message py jira config message)).
  unfold handle_mcp_message, handle_body.
  apply appends_try; [ | intros; apply appends_ret ].
  unfold bind at 1, lift at 1.
  destruct (py_get message "command" JNull) as [command | e] eqn:E.
  - destruct (Hcmd command eq_refl) as [Hc Hu].
    assert (appends reads_only
              (if negb (py_truthy command)
               then ret (error_envelope "No command specified")
               else dispatch py jira config command message)) as H.
    { destruct (negb (py_truthy command)); [ apply appends_ret | ].
      unfold dispatch. rewrite Hc, Hu.
      repeat match goal with
             | |- appends _ (if ?b then _ else _) => destruct b
             end;
        auto using get_issue_reads, search_issues_reads, get_epic_with_subtasks_reads,
          get_my_issues_reads, get_transitions_reads.
      apply appends_ret. }
    intros s. exact (H s).
  - intros s. exists []. cbn. now rewrite app_nil_r.
Qed.

(** create_issue calls the tracker at most once, to create; update_issue
    never creates an issue. *)
Theorem create_and_update_calls (message : json) (s : St W) :
  (calls (_create_issue py jira message s).2 = calls s
   \/ exists fields, calls (_create_issue py jira message s).2
                     = calls s ++ [CreateIssue fields])
  /\ exists new,
       calls (_update_issue py jira message s).2 = calls s ++ new
       /\ Forall (fun c => match c with CreateIssue _ => False | _ => True end) new.
Proof.
  split.
  - unfold _create_issue, bind, lift, ret, call.
    repeat match goal with
           | |- context [match ?x with _ => _ end] =>
               match x with
               | jira_create_issue _ _ _ => fail 1
               | _ => destruct x; [ | now left ]
               end
           | |- context [if ?b then _ else _] => destruct b; try (now left)
           end;
      right; eexists;
      match goal with
      | |- context [jira_create_issue ?j ?f ?w] =>
          destruct (jira_create_issue j f w) as [[? | ?] ?]
      end; reflexivity.
  - revert s.
    change (appends (fun c => match c with CreateIssue _ => False | _ => True end)
              (_update_issue py jira message)).
    unfold _update_issue.
    repeat first
      [ apply appends_call; exact I
      | appends_step ].
Qed.

End ReadOnly.

(** A search by a reader never mutates; "delete_issue" is no command. *)
Lemma other_commands_read_only_witness :
  exists new,
    calls (handle_mcp_message Sample.python (Sample.accepting 5) Sample.config
             (message_of "get_transitions" [("issue_key", JStr "PROJ-1")]) (start tt)).2
    = [] ++ new
    /\ Forall reads_only new.
Proof.
  apply (other_commands_read_only Sample.python (Sample.accepting 5) Sample.config
           (message_of "get_transitions" [("issue_key", JStr "PROJ-1")]) (start tt)).
  intros command H. vm_compute in H. injection H as <-. split; reflexivity.
Defined.

(** ** Issue keys *)

Section IssueKey.

Variable py : Python.
Context {W : Type}.
Variable jira : JiraClient W.

(** get_issue, update_issue and get_transitions answer "Missing issue key"
    without calling the tracker when issue_key is absent from the data or is
    falsy (null, the empty string, zero). *)
Theorem missing_issue_key (m d : gmap string json) (s : St W) :
  py_get (JDict m) "data" (dict []) = Ok (JDict d) ->
  py_truthy (default JNull (d !! "issue_key")) = false ->
  let refused := (Ok (error_envelope "Missing issue key"), s) in
  _get_issue jira (JDict m) s = refused
  /\ _update_issue py jira (JDict m) s = refused
  /\ _get_transitions jira (JDict m) s = refused.
Proof.
  intros Hdata Hkey. cbv zeta.
  unfold _get_issue, _update_issue, _get_transitions, bind, lift, ret.
  rewrite Hdata. cbn [py_get].
  change (match d !! "issue_key" with Some v => v | None => JNull end)
    with (default JNull (d !! "issue_key")).
  rewrite Hkey. auto.
Qed.

End IssueKey.

Lemma missing_issue_key_witness :
  let refused := (Ok (error_envelope "Missing issue key"), start tt) in
  let m : gmap string json :=
    list_to_map [("data", dict [("issue_key", JStr EmptyString); ("status", JStr "Done")])] in
  _get_issue (Sample.accepting 5) (JDict m) (start tt) = refused
  /\ _update_issue Sample.python (Sample.accepting 5) (JDict m) (start tt) = refused
  /\ _get_transitions (Sample.accepting 5) (JDict m) (start tt) = refused.
Proof.
  cbv zeta.
  pose proof (missing_issue_key Sample.python (Sample.accepting 5)
                (list_to_map [("data", dict [("issue_key", JStr EmptyString);
                                             ("status", JStr "Done")])])
                (list_to_map [("issue_key", JStr EmptyString); ("status", JStr "Done")])
                (start tt)) as T.
  specialize (T ltac:(vm_compute; reflexivity) ltac:(vm_compute; reflexivity)).
  exact T.
Defined.

(** ** update_issue: transitions and fields *)

Section UpdateApplied.

Variable py : Python.
Context {W : Type}.
Variable jira : JiraClient W.

(** The loop stops at the first transition whose destination matches: it
    yields that transition's id, and the names seen up to it. *)
Lemma find_transition_first_match target (before rest : list Transition) t acc :
  Forall (fun t => str_lower py (t_to t) <> target) before ->
  str_lower py (t_to t) = target ->
  find_transition py target (before ++ t :: rest) acc
  = (Some (t_id t), acc ++ map t_to before ++ [t_to t]).
Proof.
  intros Hno Hyes. revert acc.
  induction Hno as [ | b before Hb _ IH]; intros acc; cbn [find_transition app map].
  - apply String.eqb_eq in Hyes. now rewrite Hyes.
  - apply String.eqb_neq in Hb. rewrite Hb, IH, <- app_assoc. reflexivity.
Qed.

Lemma copy_fields (d : gmap string json) :
  match copy_field py "summary" (JDict d) ∅ with
  | Ok f => copy_field py "description" (JDict d) f
  | Err e => Err e
  end = Ok (requested_fields d).
Proof.
  unfold requested_fields, copy_field. cbn [py_contains py_getitem].
  destruct (d !! "summary") as [v | ] eqn:Es.
  - rewrite bool_decide_eq_true_2 by eauto.
    destruct (d !! "description") as [v' | ] eqn:Ed.
    + rewrite bool_decide_eq_true_2 by eauto. reflexivity.
    + rewrite bool_decide_eq_false_2 by (intros [? ?]; discriminate). reflexivity.
  - rewrite bool_decide_eq_false_2 by (intros [? ?]; discriminate).
    destruct (d !! "description") as [v' | ] eqn:Ed.
    + rewrite bool_decide_eq_true_2 by eauto. reflexivity.
    + rewrite bool_decide_eq_false_2 by (intros [? ?]; discriminate). reflexivity.
Qed.

(** The start of update_issue on a request with an issue key: the fields
    are collected and the issue is fetched. *)
Lemma update_issue_fetch (m d : gmap string json) (s : St W) issue_key :
  py_get (JDict m) "data" (dict []) = Ok (JDict d) ->
  d !! "issue_key" = Some issue_key -> py_truthy issue_key = true ->
  _update_issue py jira (JDict m) s
  = let '(fetched, w1) := jira_issue jira issue_key (world s) in
    let s1 := {| world := w1; calls := calls s ++ [GetIssue issue_key] |} in
    match fetched with
    | Err e => (Err e, s1)
    | Ok issue =>
        let fields := requested_fields d in
        let finish : M W json :=
          (if py_truthy (JDict fields)
           then call (UpdateIssue issue (JDict fields))
                     (issue_update jira issue (JDict fields))
           else ret tt);;
          ret (success_message ("Updated issue " +:+ py_str py issue_key)) in
        if bool_decide (is_Some (d !! "status")) then
          (let* transitions := call (GetTransitions issue) (jira_transitions jira issue) in
           let* status := lift (py_getitem py (JDict d) "status") in
           let* target_status := lift (py_lower py status) in
           let '(transition_id, available_transitions) :=
             find_transition py target_status transitions [] in
           if id_truthy transition_id then
             call (TransitionIssue issue (default EmptyString transition_id))
                  (jira_transition_issue jira issue (default EmptyString transition_id));;
             finish
           else
             let suggestion_msg :=
               "Available status transitions are: "
                 +:+ str_join ", " available_transitions in
             let* status := lift (py_getitem py (JDict d) "status") in
             ret (error_envelope ("No transition found to status: "
                                    +:+ py_str py status +:+ ". " +:+ suggestion_msg))) s1
        else finish s1
    end.
Proof.
  intros Hdata Hkey Htruthy. unfold _update_issue.
  unfold bind at 1. unfold lift at 1. rewrite Hdata.
  unfold bind at 1. unfold lift at 1. cbn [py_get]. rewrite Hkey, Htruthy. cbn [negb].
  unfold bind at 1. unfold lift at 1.
  pose proof (copy_fields d) as Hf.
  destruct (copy_field py "summary" (JDict d) ∅) as [f1 | ]; [ | discriminate ].
  unfold bind at 1. unfold lift at 1. rewrite Hf.
  unfold bind at 1. unfold call at 1.
  destruct (jira_issue jira issue_key (world s)) as [[issue | e] w1]; [ | reflexivity ].
  unfold bind at 1. unfold lift at 1. cbn [py_contains].
  destruct (bool_decide (is_Some (d !! "status"))); reflexivity.
Qed.

Lemma finish_outcome issue issue_key (fields : gmap string json) (s1 : St W) :
  ((if py_truthy (JDict fields)
    then call (UpdateIssue issue (JDict fields)) (issue_update jira issue (JDict fields))
    else ret tt);;
   ret (success_message ("Updated issue " +:+ py_str py issue_key))) s1
  = update_outcome py jira issue issue_key fields (world s1) (calls s1).
Proof.
  unfold update_outcome, bind, call, ret. cbn [py_truthy].
  destruct (bool_decide (fields = ∅)); cbn [negb].
  - now destruct s1.
  - destruct (issue_update jira issue (JDict fields) (world s1)) as [[[] | e] w']; reflexivity.
Qed.

Lemma update_issue_matched (m d : gmap string json) (s : St W)
    (issue_key : json) (status : string) (issue : Issue)
    (before rest : list Transition) (t : Transition) (w1 w2 w3 : W) :
  py_get (JDict m) "data" (dict []) = Ok (JDict d) ->
  d !! "issue_key" = Some issue_key -> py_truthy issue_key = true ->
  d !! "status" = Some (JStr status) ->
  jira_issue jira issue_key (world s) = (Ok issue, w1) ->
  jira_transitions jira issue w1 = (Ok (before ++ t :: rest), w2) ->
  Forall (fun t => str_lower py (t_to t) <> str_lower py status) before ->
  str_lower py (t_to t) = str_lower py status -> t_id t <> EmptyString ->
  jira_transition_issue jira issue (t_id t) w2 = (Ok tt, w3) ->
  _update_issue py jira (JDict m) s
  = update_outcome py jira issue issue_key (requested_fields d) w3
      (calls s ++ [GetIssue issue_key; GetTransitions issue; TransitionIssue issue (t_id t)]).
Proof.
  intros Hdata Hkey Htruthy Hstatus Hissue Htrans Hno Hyes Hid Happlied.
  rewrite (update_issue_fetch m d s issue_key Hdata Hkey Htruthy), Hissue.
  cbv zeta. rewrite Hstatus. rewrite bool_decide_eq_true_2 by eauto.
  unfold bind at 1. unfold call at 1. cbn [world calls]. rewrite Htrans.
  unfold bind at 1. unfold lift at 1. cbn [py_getitem]. rewrite Hstatus.
  unfold bind at 1. unfold lift at 1. cbn [py_lower].
  rewrite (find_transition_first_match _ before rest t [] Hno Hyes).
  cbn [id_truthy from_option]. unfold id.
  apply String.eqb_neq in Hid. rewrite Hid. cbn [negb].
  unfold bind at 1. unfold call at 1. cbn [world calls]. rewrite Happlied.
  rewrite finish_outcome. cbn [world calls]. f_equal.
  rewrite <- !app_assoc. reflexivity.
Qed.

(** An update_issue request whose status matches the destination of a
    transition up to case applies the first such transition, by its id, and
    then sends the requested fields. *)
Theorem update_issue_applies_first_match (m d : gmap string json) (s : St W)
    (issue_key : json) (status : string) (issue : Issue)
    (before rest : list Transition) (t : Transition) (w1 w2 w3 : W) :
  py_get (JDict m) "data" (dict []) = Ok (JDict d) ->
  d !! "issue_key" = Some issue_key -> py_truthy issue_key = true ->
  d !! "status" = Some (JStr status) ->
  jira_issue jira issue_key (world s) = (Ok issue, w1) ->
  jira_transitions jira issue w1 = (Ok (before ++ t :: rest), w2) ->
  Forall (fun t => str_lower py (t_to t) <> str_lower py status) before ->
  str_lower py (t_to t) = str_lower py status -> t_id t <> EmptyString ->
  jira_transition_issue jira issue (t_id t) w2 = (Ok tt, w3) ->
  _update_issue py jira (JDict m) s
  = update_outcome py jira issue issue_key (requested_fields d) w3
      (calls s ++ [GetIssue issue_key; GetTransitions issue; TransitionIssue issue (t_id t)]).
Proof.
  intros Hdata Hkey Htruthy Hstatus Hissue Htrans Hno Hyes Hid Happlied.
  rewrite (update_issue_fetch m d s issue_key Hdata Hkey Htruthy), Hissue.
  cbv zeta. rewrite Hstatus. rewrite bool_decide_eq_true_2 by eauto.
  unfold bind at 1. unfold call at 1. cbn [world calls]. rewrite Htrans.
  unfold bind at 1. unfold lift at 1. cbn [py_getitem]. rewrite Hstatus.
  unfold bind at 1. unfold lift at 1. cbn [py_lower].
  rewrite (find_transition_first_match _ before rest t [] Hno Hyes).
  cbn [id_truthy from_option]. unfold id.
  apply String.eqb_neq in Hid. rewrite Hid. cbn [negb].
  unfold bind at 1. unfold call at 1. cbn [world calls]. rewrite Happlied.
  rewrite finish_outcome. cbn [world calls]. f_equal.
  rewrite <- !app_assoc. reflexivity.
Qed.

(** update_issue is not atomic: when the transition has been applied and
    the update of the fields then fails, the caller gets the error envelope
    of that failure while the issue has already changed status. *)
Theorem failed_update_keeps_transition (m d : gmap string json) (s : St W)
    (config : JiraConfig) (issue_key : json) (status : string) (issue : Issue)
    (before rest : list Transition) (t : Transition) (w1 w2 w3 w4 : W) (e : Exn) :
  m !! "command" = Some (JStr "update_issue") ->
  py_get (JDict m) "data" (dict []) = Ok (JDict d) ->
  d !! "issue_key" = Some issue_key -> py_truthy issue_key = true ->
  d !! "status" = Some (JStr status) ->
  jira_issue jira issue_key (world s) = (Ok issue, w1) ->
  jira_transitions jira issue w1 = (Ok (before ++ t :: rest), w2) ->
  Forall (fun t => str_lower py (t_to t) <> str_lower py status) before ->
  str_lower py (t_to t) = str_lower py status -> t_id t <> EmptyString ->
  jira_transition_issue jira issue (t_id t) w2 = (Ok tt, w3) ->
  requested_fields d <> ∅ ->
  issue_update jira issue (JDict (requested_fields d)) w3 = (Err e, w4) ->
  handle_mcp_message py jira config (JDict m) s
  = (Ok (error_envelope (exn_str e)),
     {| world := w4;
        calls := calls s ++ [GetIssue issue_key; GetTransitions issue;
                             TransitionIssue issue (t_id t);
                             UpdateIssue issue (JDict (requested_fields d))] |}).
Proof.
  intros Hcmd Hdata Hkey Htruthy Hstatus Hissue Htrans Hno Hyes Hid Happlied Hfields Hfail.
  unfold handle_mcp_message, try_except, handle_body, bind, lift.
  cbn [py_get]. rewrite Hcmd. cbn [py_truthy negb String.eqb Ascii.eqb Bool.eqb].
  unfold dispatch. cbn [py_eq_str].
  change (String.eqb "update_issue" "create_issue") with false.
  change (String.eqb "update_issue" "get_issue") with false.
  change (String.eqb "update_issue" "update_issue") with true. cbv iota.
  rewrite (update_issue_matched m d s issue_key status issue before rest t w1 w2 w3
             Hdata Hkey Htruthy Hstatus Hissue Htrans Hno Hyes Hid Happlied).
  unfold update_outcome. rewrite bool_decide_eq_false_2 by exact Hfields.
  rewrite Hfail. unfold ret. rewrite <- app_assoc. reflexivity.
Qed.

(** An update_issue request without a status fetches the issue and sends
    the summary and the description that it holds in one update; when it
    holds neither, nothing is sent and the update is still confirmed. *)
Theorem update_issue_fields_only (m d : gmap string json) (s : St W)
    (issue_key : json) (issue : Issue) (w1 : W) :
  py_get (JDict m) "data" (dict []) = Ok (JDict d) ->
  d !! "issue_key" = Some issue_key -> py_truthy issue_key = true ->
  d !! "status" = None ->
  jira_issue jira issue_key (world s) = (Ok issue, w1) ->
  _update_issue py jira (JDict m) s
  = update_outcome py jira issue issue_key (requested_fields d) w1
      (calls s ++ [GetIssue issue_key]).
Proof.
  intros Hdata Hkey Htruthy Hstatus Hissue.
  rewrite (update_issue_fetch m d s issue_key Hdata Hkey Htruthy), Hissue.
  cbv zeta. rewrite Hstatus.
  rewrite bool_decide_eq_false_2 by (intros [? ?]; discriminate).
  now rewrite finish_outcome.
Qed.

End UpdateApplied.

(** "done" is the destination of the second transition, of id 21. *)
Lemma update_issue_applies_first_match_witness :
  _update_issue Sample.python (Sample.accepting 5)
    (message_of "update_issue"
       [("issue_key", JStr "PROJ-1"); ("status", JStr "done"); ("summary", JStr "new")])
    (start tt)
  = (Ok (success_message "Updated issue PROJ-1"),
     {| world := tt;
        calls := [GetIssue (JStr "PROJ-1");
                  GetTransitions (Sample.issue "PROJ-1" "old");
                  TransitionIssue (Sample.issue "PROJ-1" "old") "21";
                  UpdateIssue (Sample.issue "PROJ-1" "old")
                    (dict [("summary", JStr "new")])] |}).
Proof.
  pose proof (update_issue_applies_first_match Sample.python (Sample.accepting 5)
                (list_to_map [("command", JStr "update_issue");
                              ("data", dict [("issue_key", JStr "PROJ-1");
                                             ("status", JStr "done");
                                             ("summary", JStr "new")])])
                (list_to_map [("issue_key", JStr "PROJ-1"); ("status", JStr "done");
                              ("summary", JStr "new")])
                (start tt) (JStr "PROJ-1") "done" (Sample.issue "PROJ-1" "old")
                [ {| t_id := "11"; t_name := "Start"; t_to := "In Progress" |} ] []
                {| t_id := "21"; t_name := "Finish"; t_to := "Done" |} tt tt tt) as T.
  specialize (T ltac:(vm_compute; reflexivity) ltac:(vm_compute; reflexivity)
                ltac:(vm_compute; reflexivity) ltac:(vm_compute; reflexivity)
                ltac:(vm_compute; reflexivity) ltac:(vm_compute; reflexivity)
                ltac:(repeat constructor; discriminate)
                ltac:(vm_compute; reflexivity) ltac:(discriminate)
                ltac:(vm_compute; reflexivity)).
  vm_compute in T. vm_compute. exact T.
Defined.

(** The tracker moves the issue to "Done" and then refuses the new summary. *)
Lemma failed_update_keeps_transition_witness :
  handle_mcp_message Sample.python Sample.frozen_fields Sample.config
    (message_of "update_issue"
       [("issue_key", JStr "PROJ-1"); ("status", JStr "done"); ("summary", JStr "new")])
    (start tt)
  = (Ok (error_envelope "JiraError HTTP 403"),
     {| world := tt;
        calls := [GetIssue (JStr "PROJ-1");
                  GetTransitions (Sample.issue "PROJ-1" "old");
                  TransitionIssue (Sample.issue "PROJ-1" "old") "21";
                  UpdateIssue (Sample.issue "PROJ-1" "old")
                    (dict [("summary", JStr "new")])] |}).
Proof.
  pose proof (failed_update_keeps_transition Sample.python Sample.frozen_fields
                (list_to_map [("command", JStr "update_issue");
                              ("data", dict [("issue_key", JStr "PROJ-1");
                                             ("status", JStr "done");
                                             ("summary", JStr "new")])])
                (list_to_map [("issue_key", JStr "PROJ-1"); ("status", JStr "done");
                              ("summary", JStr "new")])
                (start tt) Sample.config (JStr "PROJ-1") "done"
                (Sample.issue "PROJ-1" "old")
                [ {| t_id := "11"; t_name := "Start"; t_to := "In Progress" |} ] []
                {| t_id := "21"; t_name := "Finish"; t_to := "Done" |} tt tt tt tt
                (JIRAError (JInt 403) (JStr "Forbidden") "JiraError HTTP 403")) as T.
  specialize (T ltac:(vm_compute; reflexivity) ltac:(vm_compute; reflexivity)
                ltac:(vm_compute; reflexivity) ltac:(vm_compute; reflexivity)
                ltac:(vm_compute; reflexivity) ltac:(vm_compute; reflexivity)
                ltac:(vm_compute; reflexivity)
                ltac:(repeat constructor; discriminate)
                ltac:(vm_compute; reflexivity) ltac:(discriminate)
                ltac:(vm_compute; reflexivity)
                ltac:(vm_compute; discriminate)
                ltac:(vm_compute; reflexivity)).
  vm_compute in T. vm_compute. exact T.
Defined.

(** An update with a description only; and one with nothing to update. *)
Lemma update_issue_fields_only_witness :
  let run d := _update_issue Sample.python (Sample.accepting 5)
                 (message_of "update_issue" d) (start tt) in
  run [("issue_key", JStr "PROJ-1"); ("description", JStr "text")]
  = (Ok (success_message "Updated issue PROJ-1"),
     {| world := tt;
        calls := [GetIssue (JStr "PROJ-1");
                  UpdateIssue (Sample.issue "PROJ-1" "old")
                    (dict [("description", JStr "text")])] |})
  /\ run [("issue_key", JStr "PROJ-1")]
     = (Ok (success_message "Updated issue PROJ-1"),
        {| world := tt; calls := [GetIssue (JStr "PROJ-1")] |}).
Proof.
  cbv zeta. split.
  - pose proof (update_issue_fields_only Sample.python (Sample.accepting 5)
                  (list_to_map [("command", JStr "update_issue");
                                ("data", dict [("issue_key", JStr "PROJ-1");
                                               ("description", JStr "text")])])
                  (list_to_map [("issue_key", JStr "PROJ-1");
                                ("description", JStr "text")])
                  (start tt) (JStr "PROJ-1") (Sample.issue "PROJ-1" "old") tt) as T.
    specialize (T ltac:(vm_compute; reflexivity) ltac:(vm_compute; reflexivity)
                  ltac:(vm_compute; reflexivity) ltac:(vm_compute; reflexivity)
                  ltac:(vm_compute; reflexivity)).
    vm_compute in T. vm_compute. exact T.
  - pose proof (update_issue_fields_only Sample.python (Sample.accepting 5)
                  (list_to_map [("command", JStr "update_issue");
                                ("data", dict [("issue_key", JStr "PROJ-1")])])
                  (list_to_map [("issue_key", JStr "PROJ-1")])
                  (start tt) (JStr "PROJ-1") (Sample.issue "PROJ-1" "old") tt) as T.
    specialize (T ltac:(vm_compute; reflexivity) ltac:(vm_compute; reflexivity)
                  ltac:(vm_compute; reflexivity) ltac:(vm_compute; reflexivity)
                  ltac:(vm_compute; reflexivity)).
    vm_compute in T. vm_compute. exact T.
Defined.

(** ** get_transitions *)

Lemma ascii_compare_refl a : Ascii.compare a a = Eq.
Proof. unfold Ascii.compare. apply N.compare_refl. Qed.

Lemma ascii_compare_lt_trans a b c :
  Ascii.compare a b = Lt -> Ascii.compare b c = Lt -> Ascii.compare a c = Lt.
Proof. unfold Ascii.compare. rewrite !N.compare_lt_iff. lia. Qed.

Lemma string_compare_lt_trans a : forall b c,
  String.compare a b = Lt -> String.compare b c = Lt -> String.compare a c = Lt.
Proof.
  induction a as [ | x a IH]; intros [ | y b] [ | z c]; cbn [String.compare];
    try discriminate; try reflexivity.
  destruct (Ascii.compare x y) eqn:Exy; try discriminate;
    destruct (Ascii.compare y z) eqn:Eyz; try discriminate; intros H1 H2.
  - apply Ascii.compare_eq_iff in Exy, Eyz. subst. rewrite ascii_compare_refl. eauto.
  - apply Ascii.compare_eq_iff in Exy. subst. now rewrite Eyz.
  - apply Ascii.compare_eq_iff in Eyz. subst. now rewrite Exy.
  - now rewrite (ascii_compare_lt_trans x y z).
Qed.

Lemma string_compare_refl a : String.compare a a = Eq.
Proof.
  induction a as [ | x a IH]; [ reflexivity | ].
  cbn [String.compare]. now rewrite ascii_compare_refl.
Qed.

Lemma insert_sorted_In x y l : In y (insert_sorted x l) <-> y = x \/ In y l.
Proof.
  induction l as [ | z l IH]; cbn [insert_sorted In]; [ intuition | ].
  destruct (String.compare x z) eqn:E; cbn [In].
  - apply String.compare_eq_iff in E. subst. intuition.
  - intuition.
  - rewrite IH. intuition.
Qed.

Lemma insert_sorted_increasing x l : increasing l -> increasing (insert_sorted x l).
Proof.
  unfold increasing. intros H. induction H as [ | z l Hl IH Hz]; cbn [insert_sorted].
  - repeat constructor.
  - destruct (String.compare x z) eqn:E.
    + now constructor.
    + constructor; [ now constructor | ].
      constructor; [ exact E | ].
      eapply Forall_impl; [ exact Hz | ].
      intros a Ha. exact (string_compare_lt_trans x z a E Ha).
    + constructor; [ exact IH | ].
      apply List.Forall_forall. intros a Ha. apply insert_sorted_In in Ha as [-> | Ha].
      * rewrite String.compare_antisym, E. reflexivity.
      * rewrite List.Forall_forall in Hz. now apply Hz.
Qed.

Lemma increasing_NoDup l : increasing l -> NoDup l.
Proof.
  unfold increasing. intros H. induction H as [ | z l Hl IH Hz]; constructor; [ | exact IH ].
  intros Hin. apply list_elem_of_In in Hin.
  rewrite List.Forall_forall in Hz. specialize (Hz z Hin).
  rewrite string_compare_refl in Hz. discriminate.
Qed.

Lemma sorted_set_increasing names : increasing (sorted_set names).
Proof.
  induction names as [ | n names IH]; [ constructor | ].
  unfold sorted_set in *. cbn [foldr]. now apply insert_sorted_increasing.
Qed.

Lemma sorted_set_In names x : In x (sorted_set names) <-> In x names.
Proof.
  induction names as [ | n names IH]; [ reflexivity | ].
  unfold sorted_set in *. cbn [foldr In]. rewrite insert_sorted_In, IH. intuition.
Qed.

(** [sorted(list(set(names)))]: the result is in strictly increasing order,
    so it has no duplicates, and it holds exactly the given names. *)
Theorem sorted_set_spec (names : list string) :
  increasing (sorted_set names)
  /\ NoDup (sorted_set names)
  /\ forall x, In x (sorted_set names) <-> In x names.
Proof.
  split; [ apply sorted_set_increasing | split ].
  - apply increasing_NoDup, sorted_set_increasing.
  - intros x. apply sorted_set_In.
Qed.

Section Transitions.

Context {W : Type}.
Variable jira : JiraClient W.

(** get_transitions on an issue that the tracker returns with its
    transitions: two reads, and a response that gives the current status of
    the issue, the distinct destination names in increasing order, and one
    detail per transition, in the tracker's order. *)
Theorem get_transitions_response (m d : gmap string json) (s : St W)
    (issue_key : json) (issue : Issue) (transitions : list Transition) (w1 w2 : W) :
  py_get (JDict m) "data" (dict []) = Ok (JDict d) ->
  d !! "issue_key" = Some issue_key -> py_truthy issue_key = true ->
  jira_issue jira issue_key (world s) = (Ok issue, w1) ->
  jira_transitions jira issue w1 = (Ok transitions, w2) ->
  exists env names,
    _get_transitions jira (JDict m) s
    = (Ok env, {| world := w2;
                  calls := calls s ++ [GetIssue issue_key; GetTransitions issue] |})
    /\ is_error env = false
    /\ lookup_path ["data"; "current_status"] env = Some (JStr (i_status issue))
    /\ lookup_path ["data"; "available_transitions"; "possible_next_statuses"] env
       = Some (JList (map JStr names))
    /\ increasing names
    /\ (forall x, In x names <-> exists t, In t transitions /\ t_to t = x)
    /\ lookup_path ["data"; "available_transitions"; "details"] env
       = Some (JList (map (fun t => dict [("id", JStr (t_id t)); ("name", JStr (t_name t));
                                          ("from_status", JStr (i_status issue));
                                          ("to_status", JStr (t_to t))])
                          transitions)).
Proof.
  intros Hdata Hkey Htruthy Hissue Htrans.
  eexists. exists (sorted_set (map t_to transitions)).
  split; [ | split; [ | split; [ | split; [ | split; [ | split ] ] ] ] ].
  - unfold _get_transitions, bind, lift, ret, call.
    rewrite Hdata. cbn [py_get]. rewrite Hkey, Htruthy. cbn [negb].
    rewrite Hissue. cbn [world calls]. rewrite Htrans. cbn [world calls].
    rewrite <- app_assoc. reflexivity.
  - reflexivity.
  - reflexivity.
  - reflexivity.
  - apply sorted_set_increasing.
  - intros x. rewrite sorted_set_In, in_map_iff.
    split; intros (t & A & B); eauto.
  - reflexivity.
Qed.

End Transitions.

(** The sample issue can move to "In Progress" and to "Done". *)
Lemma get_transitions_response_witness :
  exists env names,
    _get_transitions (Sample.accepting 5)
      (message_of "get_transitions" [("issue_key", JStr "PROJ-1")]) (start tt)
    = (Ok env, {| world := tt;
                  calls := [GetIssue (JStr "PROJ-1");
                            GetTransitions (Sample.issue "PROJ-1" "old")] |})
    /\ lookup_path ["data"; "available_transitions"; "possible_next_statuses"] env
       = Some (JList (map JStr names))
    /\ increasing names.
Proof.
  pose proof (get_transitions_response (Sample.accepting 5)
                (list_to_map [("command", JStr "get_transitions");
                              ("data", dict [("issue_key", JStr "PROJ-1")])])
                (list_to_map [("issue_key", JStr "PROJ-1")])
                (start tt) (JStr "PROJ-1") (Sample.issue "PROJ-1" "old")
                Sample.transitions tt tt) as T.
  specialize (T ltac:(vm_compute; reflexivity) ltac:(vm_compute; reflexivity)
                ltac:(vm_compute; reflexivity) ltac:(vm_compute; reflexivity)
                ltac:(vm_compute; reflexivity)).
  destruct T as (env & names & E & _ & _ & Hnames & Hinc & _).
  exists env, names. auto.
Defined.

(** ** Data that is no dictionary *)

Section MalformedData.

Variable py : Python.
Context {W : Type}.
Variable jira : JiraClient W.
Variable config : JiraConfig.

(** The handler stops in the state it found, with an exception or with an
    error envelope. *)
Lemma stops_quietly (h : json -> M W json) (message : json) (s : St W) :
  ((exists e, h message s = (Err e, s))
   \/ exists msg, h message s = (Ok (error_envelope msg), s)) ->
  exists msg,
    try_except (h message) (fun e => ret (error_envelope (exn_str e))) s
    = (Ok (error_envelope msg), s).
Proof.
  unfold try_except. intros [[e ->] | [msg ->]]; eexists; reflexivity.
Qed.

Ltac quiet := first [ left; eexists; reflexivity | right; eexists; reflexivity ].

Lemma handlers_refuse_other_data (m : gmap string json) (v : json) (s : St W) :
  m !! "data" = Some v -> (forall d, v <> JDict d) ->
  forall h,
    In h [_create_issue py jira; _get_issue jira; _update_issue py jira;
          _search_issues py jira config; _get_epic_with_subtasks py jira config;
          _get_my_issues py jira config; _get_transitions jira] ->
    (exists e, h (JDict m) s = (Err e, s))
    \/ exists msg, h (JDict m) s = (Ok (error_envelope msg), s).
Proof.
  intros Hdata Hnot h Hin.
  assert (py_get (JDict m) "data" (dict []) = Ok v) as Hget
      by (cbn [py_get]; now rewrite Hdata).
  cbn [In] in Hin.
  destruct Hin as [<- | [<- | [<- | [<- | [<- | [<- | [<- | []]]]]]]];
    unfold _create_issue, _get_issue, _update_issue, _search_issues,
      _get_epic_with_subtasks, _get_my_issues, _get_transitions,
      try_except, bind, lift, ret;
    rewrite Hget;
    (destruct v as [ | b | z | f | str | l | d ]; [ .. | now destruct (Hnot d) ]);
    cbn [py_get all_in py_contains py_getitem negb api_except no_attribute AttributeError];
    unfold ret;
    repeat match goal with
           | |- context [if ?b then _ else _] => destruct b
           end;
    cbn [negb]; quiet.
Qed.

(** Whatever the command, a message whose data is not a dictionary (a
    string, a list, a number, null) is answered with an error envelope and
    the tracker is not called. *)
Theorem data_must_be_a_dictionary (m : gmap string json) (v : json) (s : St W) :
  m !! "data" = Some v -> (forall d, v <> JDict d) ->
  exists msg,
    handle_mcp_message py jira config (JDict m) s = (Ok (error_envelope msg), s).
Proof.
  intros Hdata Hnot.
  pose proof (handlers_refuse_other_data m v s Hdata Hnot) as H.
  destruct (recognised (JDict m)) eqn:Hrec;
    [ | now apply unrecognised_error ].
  cbn [recognised] in Hrec.
  destruct (m !! "command") as [[ | | | | name | | ] | ] eqn:Ecmd; try discriminate.
  unfold commands in Hrec. cbn [existsb] in Hrec.
  assert (forall h : json -> M W json,
             dispatch py jira config (JStr name) (JDict m) = h (JDict m) ->
             negb (py_truthy (JStr name)) = false ->
             In h [_create_issue py jira; _get_issue jira; _update_issue py jira;
                   _search_issues py jira config;
                   _get_epic_with_subtasks py jira config;
                   _get_my_issues py jira config; _get_transitions jira] ->
             exists msg,
               handle_mcp_message py jira config (JDict m) s
               = (Ok (error_envelope msg), s)) as Hroute.
  { intros h Hh Hname Hin.
    destruct (stops_quietly h (JDict m) s (H h Hin)) as [msg E].
    exists msg. rewrite <- E.
    unfold handle_mcp_message, try_except, handle_body, bind, lift.
    cbn [py_get]. rewrite Ecmd, Hname, Hh. reflexivity. }
  repeat (apply orb_prop in Hrec as [Hrec | Hrec]); try discriminate;
    apply String.eqb_eq in Hrec; subst name.
  - apply (Hroute (_create_issue py jira)); [ reflexivity | reflexivity | ].
    cbn [In]; auto.
  - apply (Hroute (_get_issue jira)); [ reflexivity | reflexivity | ].
    cbn [In]; auto.
  - apply (Hroute (_update_issue py jira)); [ reflexivity | reflexivity | ].
    cbn [In]; auto.
  - apply (Hroute (_search_issues py jira config)); [ reflexivity | reflexivity | ].
    cbn [In]; auto.
  - apply (Hroute (_get_epic_with_subtasks py jira config));
      [ reflexivity | reflexivity | ].
    cbn [In]; auto 10.
  - apply (Hroute (_get_my_issues py jira config)); [ reflexivity | reflexivity | ].
    cbn [In]; auto 10.
  - apply (Hroute (_get_transitions jira)); [ reflexivity | reflexivity | ].
    cbn [In]; auto 10.
Qed.

End MalformedData.

(** A create_issue request whose data is the list of the three field names
    passes the check of presence and fails on the first subscript. *)
Lemma data_must_be_a_dictionary_witness :
  exists msg,
    handle_mcp_message Sample.python (Sample.accepting 5) Sample.config
      (dict [("command", JStr "create_issue");
             ("data", JList [JStr "project"; JStr "summary"; JStr "description"])])
      (start tt)
    = (Ok (error_envelope msg), start tt).
Proof.
  apply (data_must_be_a_dictionary Sample.python (Sample.accepting 5) Sample.config
           (list_to_map [("command", JStr "create_issue");
                         ("data", JList [JStr "project"; JStr "summary";
                                         JStr "description"])])
           (JList [JStr "project"; JStr "summary"; JStr "description"]) (start tt)).
  - vm_compute. reflexivity.
  - intros d. discriminate.
Defined.

(** ** Page values that are not integers *)

Section PageValues.

Variable py : Python.
Context {W : Type}.
Variable jira : JiraClient W.
Variable config : JiraConfig.

Lemma same_request_as_integer_page d v p :
  py_int py v = Ok p ->
  same_request py config (<["page" := v]> d) (<["page" := JInt p]> d).
Proof.
  intros Hv. split; [ | split ].
  - now rewrite (get_page_insert py d v p Hv),
      (get_page_insert py d (JInt p) p eq_refl).
  - now rewrite !get_page_size_insert_ne.
  - intros k Hk _. now rewrite !lookup_insert_ne.
Qed.

Lemma same_request_as_integer_size d v n :
  py_int py v = Ok n ->
  same_request py config (<["page_size" := v]> d) (<["page_size" := JInt n]> d).
Proof.
  intros Hv. split; [ | split ].
  - now rewrite !get_page_insert_ne.
  - now rewrite (get_page_size_insert py config d v n Hv),
      (get_page_size_insert py config d (JInt n) n eq_refl).
  - intros k _ Hk. now rewrite !lookup_insert_ne.
Qed.

(** A page or a page size given as anything that [int] converts -- a
    numeric string, a boolean, a float, which is truncated -- gives the very
    result of the integer it converts to, in the three paginated handlers. *)
Theorem converted_page_values (m d : gmap string json) (s : St W) (k : string)
    (v : json) (z : Z) :
  k = "page" \/ k = "page_size" ->
  py_int py v = Ok z ->
  let given := with_data m (<[k := v]> d) in
  let integer := with_data m (<[k := JInt z]> d) in
  _search_issues py jira config given s
  = _search_issues py jira config integer s
  /\ _get_epic_with_subtasks py jira config given s
     = _get_epic_with_subtasks py jira config integer s
  /\ _get_my_issues py jira config given s
     = _get_my_issues py jira config integer s.
Proof.
  intros Hk Hv. cbv zeta.
  assert (same_request py config (<[k := v]> d) (<[k := JInt z]> d)) as H.
  { destruct Hk as [-> | ->];
      auto using same_request_as_integer_page, same_request_as_integer_size. }
  auto using search_issues_same, get_epic_with_subtasks_same, get_my_issues_same.
Qed.

(** When page or page_size cannot be converted, the tracker is not called.
    search_issues and get_epic_with_subtasks convert outside their [try]:
    the exception leaves the handler, and the dispatcher reports its text.
    get_my_issues converts inside: it answers "Invalid input: ..." for a
    [ValueError] and "An unexpected error occurred" for another exception. *)
Theorem unconvertible_page_values (m d : gmap string json) (s : St W) (e : Exn) :
  py_get (JDict m) "data" (dict []) = Ok (JDict d) ->
  get_page py (JDict d) = Err e
  \/ ((exists page, get_page py (JDict d) = Ok page)
      /\ get_page_size py config (JDict d) = Err e) ->
  (forall status_code text str, e <> JIRAError status_code text str) ->
  _search_issues py jira config (JDict m) s = (Err e, s)
  /\ _get_epic_with_subtasks py jira config (JDict m) s = (Err e, s)
  /\ _get_my_issues py jira config (JDict m) s
     = (Ok (error_envelope
              match e with
              | ValueError msg => "Invalid input: " +:+ msg
              | _ => "An unexpected error occurred"
              end), s).
Proof.
  intros Hdata Hbad Hclass.
  unfold _search_issues, _get_epic_with_subtasks, _get_my_issues, try_except, bind, lift.
  rewrite Hdata. cbn [py_get].
  destruct Hbad as [Hp | [[page Hp] Hn]]; rewrite Hp; [ | rewrite Hn ];
    (destruct e as [code text str | msg | cls msg];
     [ now destruct (Hclass code text str) | .. ]); auto.
Qed.

Lemma get_page_at_least_one data page :
  get_page py data = Ok page -> 1 <= page.
Proof.
  unfold get_page. destruct (requested_int py data "page" (JInt 1)); [ | discriminate ].
  intros [= <-]. lia.
Qed.

End PageValues.

(** The second page asked for as the string " 2 " and as the float 2.5;
    [true] is page 1. *)
Lemma converted_page_values_witness :
  let run v := _get_my_issues Sample.python (Sample.accepting 5) Sample.config
                 (with_data ∅ (<["page" := v]> ∅)) (start tt) in
  run (JStr " 2 ") = run (JInt 2)
  /\ run (JFloat (S754_finite false 5 (-1))) = run (JInt 2)
  /\ run (JBool true) = run (JInt 1).
Proof.
  cbv zeta.
  pose proof (fun v z => converted_page_values Sample.python (Sample.accepting 5)
                           Sample.config ∅ ∅ (start tt) "page" v z (or_introl eq_refl))
    as T.
  split; [ | split ].
  - exact (proj2 (proj2 (T (JStr " 2 ") 2 ltac:(vm_compute; reflexivity)))).
  - exact (proj2 (proj2 (T (JFloat (S754_finite false 5 (-1))) 2
                           ltac:(vm_compute; reflexivity)))).
  - exact (proj2 (proj2 (T (JBool true) 1 ltac:(vm_compute; reflexivity)))).
Defined.

(** The page "two" is no integer. *)
Lemma unconvertible_page_values_witness :
  let m : gmap string json :=
    list_to_map [("data", dict [("page", JStr "two"); ("search_text", JStr "bug")])] in
  let e := ValueError ("invalid literal for int() with base 10: " +:+ "<repr>") in
  _search_issues Sample.python (Sample.accepting 5) Sample.config (JDict m) (start tt)
  = (Err e, start tt)
  /\ _get_epic_with_subtasks Sample.python (Sample.accepting 5) Sample.config (JDict m)
       (start tt) = (Err e, start tt)
  /\ _get_my_issues Sample.python (Sample.accepting 5) Sample.config (JDict m) (start tt)
     = (Ok (error_envelope
              ("Invalid input: invalid literal for int() with base 10: " +:+ "<repr>")),
        start tt).
Proof.
  cbv zeta.
  pose proof (unconvertible_page_values Sample.python (Sample.accepting 5) Sample.config
                (list_to_map [("data", dict [("page", JStr "two");
                                             ("search_text", JStr "bug")])])
                (list_to_map [("page", JStr "two"); ("search_text", JStr "bug")])
                (start tt)
                (ValueError ("invalid literal for int() with base 10: " +:+ "<repr>")))
    as T.
  specialize (T ltac:(vm_compute; reflexivity)
                ltac:(left; vm_compute; reflexivity)
                ltac:(intros; discriminate)).
  exact T.
Defined.

(** ** Failures of the tracker in the search handlers *)

Section SearchFailures.

Variable py : Python.
Context {W : Type}.
Variable jira : JiraClient W.
Variable config : JiraConfig.

(** When the tracker fails the (first) search of search_issues,
    get_epic_with_subtasks or get_my_issues, the handler itself answers,
    after that one call: status code and text for a [JIRAError], the text
    for a [ValueError], and for any other exception a fixed message that
    shows nothing of it. *)
Theorem search_failures_reported (m d : gmap string json) (s : St W) (e : Exn) (w1 : W)
    (p n : Z) :
  py_get (JDict m) "data" (dict []) = Ok (JDict d) ->
  requested_int py (JDict d) "page" (JInt 1) = Ok p ->
  requested_int py (JDict d) "page_size" (JInt 20) = Ok n ->
  (forall jql off size, jira_search_issues jira jql off size (world s) = (Err e, w1)) ->
  let report :=
    match e with
    | JIRAError status_code text _ =>
        "JIRA API error: " +:+ py_str py status_code +:+ " - " +:+ py_str py text
    | ValueError msg => "Invalid input: " +:+ msg
    | OtherException _ _ => "An unexpected error occurred"
    end in
  let reported (result : Result json * St W) :=
    exists jql off size,
      result = (Ok (error_envelope report),
                {| world := w1; calls := calls s ++ [SearchIssues jql off size] |}) in
  (py_truthy (default JNull (d !! "search_text")) = true ->
   reported (_search_issues py jira config (JDict m) s))
  /\ (py_truthy (default JNull (d !! "epic_name")) = true ->
      reported (_get_epic_with_subtasks py jira config (JDict m) s))
  /\ ((exists order, default (JStr "DESC") (d !! "sort_order") = JStr order) ->
      reported (_get_my_issues py jira config (JDict m) s)).
Proof.
  intros Hdata Hp Hn Hfail. cbv zeta.
  unfold _search_issues, _get_epic_with_subtasks, _get_my_issues, try_except, bind, lift,
    call, get_page, get_page_size.
  rewrite Hdata, Hp, Hn. cbn [py_get].
  change (match d !! "search_text" with Some v => v | None => JNull end)
    with (default JNull (d !! "search_text")).
  change (match d !! "epic_name" with Some v => v | None => JNull end)
    with (default JNull (d !! "epic_name")).
  change (match d !! "sort_order" with Some v => v | None => JStr "DESC" end)
    with (default (JStr "DESC") (d !! "sort_order")).
  split; [ | split ].
  - intros ->. cbn [negb]. rewrite Hfail. do 3 eexists. destruct e; reflexivity.
  - intros ->. cbn [negb]. rewrite Hfail. do 3 eexists. destruct e; reflexivity.
  - intros [order ->]. cbn [py_upper]. rewrite Hfail. do 3 eexists.
    destruct e; reflexivity.
Qed.

End SearchFailures.

(** The tracker that refuses every call answers 400 "Bad Request". *)
Lemma search_failures_reported_witness :
  exists jql off size,
    _search_issues Sample.python Sample.refusing Sample.config
      (message_of "search_issues" [("search_text", JStr "bug")]) (start tt)
    = (Ok (error_envelope "JIRA API error: 400 - Bad Request"),
       {| world := tt; calls := [] ++ [SearchIssues jql off size] |}).
Proof.
  pose proof (search_failures_reported Sample.python Sample.refusing Sample.config
                (list_to_map [("command", JStr "search_issues");
                              ("data", dict [("search_text", JStr "bug")])])
                (list_to_map [("search_text", JStr "bug")])
                (start tt)
                (JIRAError (JInt 400) (JStr "Bad Request") "JiraError HTTP 400") tt 1 20)
    as T.
  specialize (T ltac:(vm_compute; reflexivity) ltac:(vm_compute; reflexivity)
                ltac:(vm_compute; reflexivity) ltac:(intros; reflexivity)).
  cbv zeta in T. destruct T as [T _].
  exact (T ltac:(vm_compute; reflexivity)).
Defined.

(** ** The configuration *)

Section Configuration.

Variable py : Python.

Lemma nonempty_truthy v : py_truthy (JStr v) = true <-> v <> EmptyString.
Proof.
  cbn [py_truthy]. rewrite negb_true_iff. split.
  - intros H. now apply String.eqb_neq.
  - intros H. now apply String.eqb_neq.
Qed.

(** The server is configured exactly when JIRA_SERVER, JIRA_USER and
    JIRA_TOKEN are set and not empty, given numeric settings that convert;
    otherwise the constructor raises "Missing required JIRA configuration".
    The timeout defaults to 30 and the maximum page size to 50. *)
Theorem init_config_contract (environ : gmap string string) (t mx : Z) :
  py_int py (JStr (getenv environ "JIRA_TIMEOUT" "30")) = Ok t ->
  py_int py (JStr (getenv environ "JIRA_MAX_RESULTS" "50")) = Ok mx ->
  let given k := exists v, environ !! k = Some v /\ v <> EmptyString in
  (given "JIRA_SERVER" /\ given "JIRA_USER" /\ given "JIRA_TOKEN" ->
   exists config,
     init_config py environ = Ok config
     /\ environ !! "JIRA_SERVER" = Some (server config)
     /\ environ !! "JIRA_USER" = Some (user config)
     /\ environ !! "JIRA_TOKEN" = Some (token config)
     /\ timeout config = t /\ max_results config = mx)
  /\ (~ (given "JIRA_SERVER" /\ given "JIRA_USER" /\ given "JIRA_TOKEN") ->
      init_config py environ = Err (ValueError "Missing required JIRA configuration"))
  /\ (environ !! "JIRA_TIMEOUT" = None -> t = 30)
  /\ (environ !! "JIRA_MAX_RESULTS" = None -> mx = 50).
Proof.
  intros Ht Hmx given. split; [ | split; [ | split ] ].
  - intros ((sv & Es & Hs) & (u & Eu & Hu) & (tk & Et & Htk)).
    unfold init_config. rewrite Ht, Hmx. unfold getenv.
    rewrite Es, Eu, Et. cbn [forallb].
    rewrite !(proj2 (nonempty_truthy _)) by assumption. cbn [andb].
    eexists. repeat split.
  - intros Hnot. unfold init_config. rewrite Ht, Hmx.
    destruct (forallb (fun v => py_truthy (JStr v))
                [getenv environ "JIRA_SERVER" EmptyString;
                 getenv environ "JIRA_USER" EmptyString;
                 getenv environ "JIRA_TOKEN" EmptyString]) eqn:E; [ | reflexivity ].
    exfalso. apply Hnot. cbn [forallb] in E.
    apply andb_prop in E as [E1 E]. apply andb_prop in E as [E2 E].
    apply andb_prop in E as [E3 _].
    apply nonempty_truthy in E1, E2, E3. unfold getenv in E1, E2, E3. unfold given.
    destruct (environ !! "JIRA_SERVER"), (environ !! "JIRA_USER"),
      (environ !! "JIRA_TOKEN"); try congruence; eauto 10.
  - intros E. unfold getenv in Ht. rewrite E in Ht. cbn [py_int] in Ht.
    rewrite int_str_ascii in Ht by (reflexivity || (cbn; lia)).
    vm_compute in Ht. congruence.
  - intros E. unfold getenv in Hmx. rewrite E in Hmx. cbn [py_int] in Hmx.
    rewrite int_str_ascii in Hmx by (reflexivity || (cbn; lia)).
    vm_compute in Hmx. congruence.
Qed.

(** A numeric setting that [int] does not convert makes the constructor
    fail on it, before the credentials are looked at. *)
Theorem init_config_numeric_settings (environ : gmap string string) (e : Exn) :
  py_int py (JStr (getenv environ "JIRA_TIMEOUT" "30")) = Err e
  \/ ((exists t, py_int py (JStr (getenv environ "JIRA_TIMEOUT" "30")) = Ok t)
      /\ py_int py (JStr (getenv environ "JIRA_MAX_RESULTS" "50")) = Err e) ->
  init_config py environ = Err e.
Proof.
  unfold init_config. intros [-> | [[t ->] ->]]; reflexivity.
Qed.

End Configuration.

Section ZeroMaximum.

Variable py : Python.
Context {W : Type}.
Variable jira : JiraClient W.

(** JIRA_MAX_RESULTS=0 is accepted as a configuration, and under it no
    search or list request with a page size of zero or more can succeed:
    each is answered with an error envelope. *)
Theorem zero_max_results (environ : gmap string string) (config : JiraConfig)
    (m d : gmap string json) (p n : Z) (s : St W) :
  init_config py environ = Ok config ->
  environ !! "JIRA_MAX_RESULTS" = Some "0" ->
  0 <= n ->
  let message := with_data m (paged d p n) in
  (exists msg s', _search_issues py jira config message s
                  = (Ok (error_envelope msg), s'))
  /\ (exists msg s', _get_epic_with_subtasks py jira config message s
                     = (Ok (error_envelope msg), s'))
  /\ (exists msg s', _get_my_issues py jira config message s
                     = (Ok (error_envelope msg), s')).
Proof.
  intros Hinit Hzero Hn. cbv zeta.
  assert (max_results config = 0) as Hmax.
  { unfold init_config in Hinit.
    destruct (py_int py (JStr (getenv environ "JIRA_TIMEOUT" "30"))) as [t | ];
      [ | discriminate ].
    unfold getenv at 1 in Hinit. rewrite Hzero in Hinit.
    cbn [py_int] in Hinit.
    rewrite int_str_ascii in Hinit by (reflexivity || (cbn; lia)).
    change (parse_int "0") with (Some 0) in Hinit. cbv iota in Hinit.
    destruct (forallb _ _) in Hinit; [ | discriminate ].
    now injection Hinit as <-. }
  assert (Z.min (max_results config) n = 0) as Hmin by lia.
  split; [ | split ]; apply returns_error.
  - apply search_issues_returns.
  - now apply search_issues_size_zero.
  - apply get_epic_with_subtasks_returns.
  - now apply get_epic_with_subtasks_size_zero.
  - apply get_my_issues_returns.
  - now apply get_my_issues_size_zero.
Qed.

End ZeroMaximum.

(** Credentials alone: the defaults apply.  Without a token: refused. *)
Lemma init_config_contract_witness :
  init_config Sample.python
    (list_to_map [("JIRA_SERVER", "https://jira.example"); ("JIRA_USER", "ann");
                  ("JIRA_TOKEN", "secret")])
  = Ok Sample.config
  /\ init_config Sample.python
       (list_to_map [("JIRA_SERVER", "https://jira.example"); ("JIRA_USER", "ann");
                     ("JIRA_TOKEN", EmptyString); ("JIRA_MAX_RESULTS", "100")])
     = Err (ValueError "Missing required JIRA configuration").
Proof.
  split.
  - pose proof (init_config_contract Sample.python
                  (list_to_map [("JIRA_SERVER", "https://jira.example");
                                ("JIRA_USER", "ann"); ("JIRA_TOKEN", "secret")]) 30 50)
      as T.
    specialize (T ltac:(vm_compute; reflexivity) ltac:(vm_compute; reflexivity)).
    cbv zeta in T. destruct T as [T _].
    destruct T as (config & E & _).
    + repeat split; eexists; (split; [ vm_compute; reflexivity | discriminate ]).
    + rewrite E. vm_compute in E. injection E as <-. reflexivity.
  - pose proof (init_config_contract Sample.python
                  (list_to_map [("JIRA_SERVER", "https://jira.example");
                                ("JIRA_USER", "ann"); ("JIRA_TOKEN", EmptyString);
                                ("JIRA_MAX_RESULTS", "100")]) 30 100) as T.
    specialize (T ltac:(vm_compute; reflexivity) ltac:(vm_compute; reflexivity)).
    cbv zeta in T. destruct T as [_ [T _]]. apply T.
    intros (_ & _ & (v & E & Hv)). vm_compute in E. congruence.
Defined.

(** A maximum page size of "fifty" is no number. *)
Lemma init_config_numeric_settings_witness :
  init_config Sample.python
    (list_to_map [("JIRA_SERVER", "https://jira.example"); ("JIRA_USER", "ann");
                  ("JIRA_TOKEN", "secret"); ("JIRA_MAX_RESULTS", "fifty")])
  = Err (ValueError ("invalid literal for int() with base 10: " +:+ "<repr>")).
Proof.
  apply (init_config_numeric_settings Sample.python).
  right. split; [ exists 30 | ]; vm_compute; reflexivity.
Defined.

(** With a maximum of zero even the default page size fails. *)
Lemma zero_max_results_witness :
  exists msg s',
    _get_my_issues Sample.python (Sample.accepting 5)
      {| server := "https://jira.example"; user := "ann"; token := "secret";
         timeout := 30; max_results := 0 |}
      (with_data ∅ (paged ∅ 1 20)) (start tt)
    = (Ok (error_envelope msg), s').
Proof.
  pose proof (zero_max_results Sample.python (Sample.accepting 5)
                (list_to_map [("JIRA_SERVER", "https://jira.example");
                              ("JIRA_USER", "ann"); ("JIRA_TOKEN", "secret");
                              ("JIRA_MAX_RESULTS", "0")])
                {| server := "https://jira.example"; user := "ann"; token := "secret";
                   timeout := 30; max_results := 0 |}
                ∅ ∅ 1 20 (start tt)) as T.
  specialize (T ltac:(vm_compute; reflexivity) ltac:(vm_compute; reflexivity)
                ltac:(lia)).
  cbv zeta in T. exact (proj2 (proj2 T)).
Defined.

(** ** The HTTP boundary *)

Section Http.

Variable py : Python.
Context {W : Type}.
Variable jira : JiraClient W.
Variable config : JiraConfig.
Variable wait_for : M W json -> M W json.

Local Abbreviation serve := (handle_request py jira config wait_for).

(** A request that is not of content type application/json, or whose body
    is not JSON, is answered 400 with the reason; the dispatcher is not run
    and the tracker is not called. *)
Theorem bad_requests_rejected (request : Request) (s : St W) :
  (content_type request <> "application/json" ->
   serve request s
   = (Ok {| http_status := 400;
            payload := error_envelope "Content-Type must be application/json" |}, s))
  /\ (forall msg,
        content_type request = "application/json" -> body request = Malformed msg ->
        serve request s
        = (Ok {| http_status := 400; payload := error_envelope "Invalid JSON payload" |},
           s)).
Proof.
  split.
  - intros H. apply String.eqb_neq in H.
    unfold handle_request, try_except, bind, lift, validate_request.
    rewrite H. reflexivity.
  - intros msg Hct Hbody.
    unfold handle_request, try_except, bind, lift, validate_request.
    rewrite Hct, Hbody. reflexivity.
Qed.

Lemma dispatcher_envelope data s env s' :
  handle_mcp_message py jira config data s = (Ok env, s') -> Envelope env.
Proof.
  intros E. apply envelope_ok_spec.
  pose proof (handle_mcp_message_envelopes py jira config data s) as H.
  now rewrite E in H.
Qed.

(** Provided [wait_for] gives the result of the dispatcher or raises,
    every request gets a response: 200 with the envelope of the dispatcher,
    or 400, 504 or 500 with an error envelope; 504 exactly when [wait_for]
    raised a timeout. *)
Theorem handle_request_responds (request : Request) (s : St W) :
  awaits wait_for ->
  exists response s',
    serve request s = (Ok response, s')
    /\ Envelope (payload response)
    /\ ((http_status response = 200
         /\ exists data, body request = Decoded data
                         /\ handle_mcp_message py jira config data s
                            = (Ok (payload response), s'))
        \/ (http_status response = 400 /\ s' = s
            /\ is_error (payload response) = true)
        \/ (http_status response = 504
            /\ payload response = error_envelope "Request timed out"
            /\ exists data e,
                 body request = Decoded data
                 /\ wait_for (handle_mcp_message py jira config data) s = (Err e, s')
                 /\ is_timeout e = true)
        \/ (http_status response = 500
            /\ payload response = error_envelope "An unexpected error occurred")).
Proof.
  intros Hwait.
  unfold handle_request, try_except, bind, lift, validate_request, request_json.
  destruct (negb (String.eqb (content_type request) "application/json")).
  { do 2 eexists. split; [ reflexivity | ]. split.
    - apply envelope_ok_spec. reflexivity.
    - right. left. auto. }
  destruct (body request) as [data | msg | e] eqn:Hbody.
  - cbn [negb].
    destruct (Hwait (handle_mcp_message py jira config data) s)
      as [E | (e & s' & E)]; rewrite E.
    + destruct (handle_mcp_message_returns py jira config data s)
        as (env & s' & Henv).
      rewrite Henv. do 2 eexists. split; [ reflexivity | ]. split.
      * exact (dispatcher_envelope _ _ _ _ Henv).
      * left. split; [ reflexivity | ]. exists data. auto.
    + destruct (is_timeout e) eqn:Ht.
      * do 2 eexists. split; [ reflexivity | ]. split.
        -- apply envelope_ok_spec. reflexivity.
        -- right. right. left. split; [ reflexivity | ]. split; [ reflexivity | ].
           exists data, e. auto.
      * do 2 eexists. split; [ reflexivity | ]. split.
        -- apply envelope_ok_spec. reflexivity.
        -- right. right. right. auto.
  - do 2 eexists. split; [ reflexivity | ]. split.
    + apply envelope_ok_spec. reflexivity.
    + right. left. auto.
  - do 2 eexists. split; [ reflexivity | ]. split.
    + apply envelope_ok_spec. reflexivity.
    + right. right. right. auto.
Qed.

End Http.

(** A form post, and a JSON post that is cut short. *)
Lemma bad_requests_rejected_witness :
  let serve := handle_request Sample.python (Sample.accepting 5) Sample.config (fun m => m) in
  serve {| content_type := "application/x-www-form-urlencoded";
           body := Decoded (message_of "get_issue" [("issue_key", JStr "PROJ-1")]) |}
    (start tt)
  = (Ok {| http_status := 400;
           payload := error_envelope "Content-Type must be application/json" |}, start tt)
  /\ serve {| content_type := "application/json";
              body := Malformed "Expecting value: line 1 column 1 (char 0)" |}
       (start tt)
     = (Ok {| http_status := 400; payload := error_envelope "Invalid JSON payload" |},
        start tt).
Proof.
  cbv zeta. split.
  - apply (bad_requests_rejected Sample.python (Sample.accepting 5) Sample.config
             (fun m => m)
             {| content_type := "application/x-www-form-urlencoded";
                body := Decoded (message_of "get_issue" [("issue_key", JStr "PROJ-1")]) |}
             (start tt)).
    discriminate.
  - refine (proj2 (bad_requests_rejected Sample.python (Sample.accepting 5) Sample.config
                     (fun m => m)
                     {| content_type := "application/json";
                        body := Malformed "Expecting value: line 1 column 1 (char 0)" |}
                     (start tt))
              "Expecting value: line 1 column 1 (char 0)" eq_refl eq_refl).
Defined.

(** A request served in time, and one on which the deadline passes. *)
Lemma handle_request_responds_witness :
  let request :=
    {| content_type := "application/json";
       body := Decoded (message_of "get_issue" [("issue_key", JStr "PROJ-1")]) |} in
  let late : M unit json -> M unit json :=
    fun _ s => (Err (OtherException "TimeoutError" EmptyString), s) in
  (exists response s',
      handle_request Sample.python (Sample.accepting 5) Sample.config (fun m => m) request
        (start tt) = (Ok response, s')
      /\ Envelope (payload response))
  /\ (exists response s',
         handle_request Sample.python (Sample.accepting 5) Sample.config late request
           (start tt) = (Ok response, s')
         /\ Envelope (payload response)).
Proof.
  cbv zeta. split.
  - destruct (handle_request_responds Sample.python (Sample.accepting 5) Sample.config
                (fun m => m)
                {| content_type := "application/json";
                   body := Decoded (message_of "get_issue"
                                      [("issue_key", JStr "PROJ-1")]) |}
                (start tt))
      as (response & s' & E & Henv & _).
    + intros m s. now left.
    + eauto.
  - destruct (handle_request_responds Sample.python (Sample.accepting 5) Sample.config
                (fun _ s => (Err (OtherException "TimeoutError" EmptyString), s))
                {| content_type := "application/json";
                   body := Decoded (message_of "get_issue"
                                      [("issue_key", JStr "PROJ-1")]) |}
                (start tt))
      as (response & s' & E & Henv & _).
    + intros m s. right. eauto.
    + eauto.
Defined.

Example served_in_time :
  handle_request Sample.python (Sample.accepting 5) Sample.config (fun m => m)
    {| content_type := "application/json";
       body := Decoded (message_of "get_issue" [("issue_key", JStr "PROJ-1")]) |}
    (start tt)
  = (Ok {| http_status := 200;
           payload := success_data (dict [("issue_key", JStr "PROJ-1");
                                          ("summary", JStr "old");
                                          ("description", JNull);
                                          ("status", JStr "To Do")]) |},
     {| world := tt; calls := [GetIssue (JStr "PROJ-1")] |}).
Proof. vm_compute. reflexivity. Qed.

Example deadline_passed :
  handle_request Sample.python (Sample.accepting 5) Sample.config
    (fun _ s => (Err (OtherException "TimeoutError" EmptyString), s))
    {| content_type := "application/json";
       body := Decoded (message_of "get_issue" [("issue_key", JStr "PROJ-1")]) |}
    (start tt)
  = (Ok {| http_status := 504; payload := error_envelope "Request timed out" |}, start tt).
Proof. vm_compute. reflexivity. Qed.

(** ** Requests for a search *)

Section SearchRequests.

Variable py : Python.
Context {W : Type}.
Variable jira : JiraClient W.
Variable config : JiraConfig.

(** With page values that convert, search_issues without a search text and
    get_epic_with_subtasks without an epic name (absent, null or empty) are
    refused by name of the missing field, and the tracker is not called. *)
Theorem missing_search_terms (m d : gmap string json) (s : St W) (p n : Z) :
  py_get (JDict m) "data" (dict []) = Ok (JDict d) ->
  requested_int py (JDict d) "page" (JInt 1) = Ok p ->
  requested_int py (JDict d) "page_size" (JInt 20) = Ok n ->
  (py_truthy (default JNull (d !! "search_text")) = false ->
   _search_issues py jira config (JDict m) s
   = (Ok (error_envelope "Missing search text"), s))
  /\ (py_truthy (default JNull (d !! "epic_name")) = false ->
      _get_epic_with_subtasks py jira config (JDict m) s
      = (Ok (error_envelope "Missing epic name"), s)).
Proof.
  intros Hdata Hp Hn.
  unfold _search_issues, _get_epic_with_subtasks, bind, lift, ret, get_page, get_page_size.
  rewrite Hdata, Hp, Hn. cbn [py_get].
  change (match d !! "search_text" with Some v => v | None => JNull end)
    with (default JNull (d !! "search_text")).
  change (match d !! "epic_name" with Some v => v | None => JNull end)
    with (default JNull (d !! "epic_name")).
  split; intros ->; reflexivity.
Qed.

(** A search that the tracker answers: the response reports the tracker's
    total, the page from 1 on and the capped page size, and lists one row
    per issue found, in the tracker's order, under the key of the issue and
    with a null assignee when the issue has none. *)
Theorem search_issues_response (m d : gmap string json) (s : St W)
    (search_text : json) (p n : Z) (found : ResultList) (w1 : W) :
  py_get (JDict m) "data" (dict []) = Ok (JDict d) ->
  d !! "search_text" = Some search_text -> py_truthy search_text = true ->
  requested_int py (JDict d) "page" (JInt 1) = Ok p ->
  requested_int py (JDict d) "page_size" (JInt 20) = Ok n ->
  let page := Z.max 1 p in
  let page_size := Z.min (max_results config) n in
  page_size <> 0 ->
  jira_search_issues jira
    (search_jql py (default (JBool false) (d !! "title_only")) search_text)
    ((page - 1) * page_size) page_size (world s) = (Ok found, w1) ->
  exists env rows s',
    _search_issues py jira config (JDict m) s = (Ok env, s')
    /\ world s' = w1
    /\ lookup_path ["data"; "pagination"] env
       = Some (pagination (total found) page page_size
                 ((total found + page_size - 1) / page_size))
    /\ 1 <= page
    /\ lookup_path ["data"; "issues"] env = Some (JList rows)
    /\ length rows = length (issues found)
    /\ forall i issue,
         issues found !! i = Some issue ->
         exists row,
           rows !! i = Some row
           /\ lookup_path ["key"] row = Some (JStr (i_key issue))
           /\ lookup_path ["status"] row = Some (JStr (i_status issue))
           /\ lookup_path ["assignee"] row
              = Some (match i_assignee issue with Some a => JStr a | None => JNull end).
Proof.
  intros Hdata Htext Htruthy Hp Hn page page_size Hsize Hfound.
  exists (success_data
            (dict [("issues", JList (map search_row (issues found)));
                   ("pagination",
                    pagination (total found) page page_size
                      ((total found + page_size - 1) / page_size))])),
    (map search_row (issues found)).
  eexists. split; [ | split; [ | split; [ | split; [ | split; [ | split ] ] ] ] ].
  - unfold _search_issues, try_except, bind, lift, ret, call, get_page, get_page_size.
    rewrite Hdata, Hp, Hn. cbn [py_get]. rewrite Htext, Htruthy. cbn [negb].
    change (match d !! "title_only" with Some v => v | None => JBool false end)
      with (default (JBool false) (d !! "title_only")).
    fold page. fold page_size. rewrite Hfound. cbn [fst snd world calls total issues].
    unfold pagination_block, py_floordiv.
    destruct (Z.eqb_spec page_size 0) as [E | _]; [ now destruct Hsize | ].
    reflexivity.
  - reflexivity.
  - reflexivity.
  - subst page. lia.
  - reflexivity.
  - apply length_map.
  - intros i issue Hi. exists (search_row issue). split.
    + rewrite list_lookup_fmap, Hi. reflexivity.
    + repeat split; destruct (i_assignee issue); reflexivity.
Qed.

End SearchRequests.

(** An empty search text; and an epic name that is null. *)
Lemma missing_search_terms_witness :
  _search_issues Sample.python (Sample.accepting 5) Sample.config
    (message_of "search_issues" [("search_text", JStr EmptyString)]) (start tt)
  = (Ok (error_envelope "Missing search text"), start tt)
  /\ _get_epic_with_subtasks Sample.python (Sample.accepting 5) Sample.config
       (message_of "get_epic_with_subtasks" [("epic_name", JNull)]) (start tt)
     = (Ok (error_envelope "Missing epic name"), start tt).
Proof.
  split.
  - pose proof (missing_search_terms Sample.python (Sample.accepting 5) Sample.config
                  (list_to_map [("command", JStr "search_issues");
                                ("data", dict [("search_text", JStr EmptyString)])])
                  (list_to_map [("search_text", JStr EmptyString)]) (start tt) 1 20) as T.
    specialize (T ltac:(vm_compute; reflexivity) ltac:(vm_compute; reflexivity)
                  ltac:(vm_compute; reflexivity)).
    destruct T as [T _]. apply T. vm_compute. reflexivity.
  - pose proof (missing_search_terms Sample.python (Sample.accepting 5) Sample.config
                  (list_to_map [("command", JStr "get_epic_with_subtasks");
                                ("data", dict [("epic_name", JNull)])])
                  (list_to_map [("epic_name", JNull)]) (start tt) 1 20) as T.
    specialize (T ltac:(vm_compute; reflexivity) ltac:(vm_compute; reflexivity)
                  ltac:(vm_compute; reflexivity)).
    destruct T as [_ T]. apply T. vm_compute. reflexivity.
Defined.

(** Page 0 of "bug", ten per page, out of five issues. *)
Lemma search_issues_response_witness :
  exists env rows s',
    _search_issues Sample.python (Sample.accepting 5) Sample.config
      (message_of "search_issues"
         [("search_text", JStr "bug"); ("page", JInt 0); ("page_size", JInt 10)])
      (start tt) = (Ok env, s')
    /\ lookup_path ["data"; "pagination"] env = Some (pagination 5 1 10 1)
    /\ lookup_path ["data"; "issues"] env = Some (JList rows)
    /\ length rows = 1%nat.
Proof.
  pose proof (search_issues_response Sample.python (Sample.accepting 5) Sample.config
                (list_to_map [("command", JStr "search_issues");
                              ("data", dict [("search_text", JStr "bug");
                                             ("page", JInt 0); ("page_size", JInt 10)])])
                (list_to_map [("search_text", JStr "bug"); ("page", JInt 0);
                              ("page_size", JInt 10)])
                (start tt) (JStr "bug") 0 10
                {| issues := [Sample.issue "PROJ-1" "old"]; total := 5 |} tt) as T.
  specialize (T ltac:(vm_compute; reflexivity) ltac:(vm_compute; reflexivity)
                ltac:(vm_compute; reflexivity) ltac:(vm_compute; reflexivity)
                ltac:(vm_compute; reflexivity)).
  cbv zeta in T.
  specialize (T ltac:(vm_compute; discriminate) ltac:(vm_compute; reflexivity)).
  destruct T as (env & rows & s' & E & _ & Hpag & _ & Hrows & Hlen & _).
  exists env, rows, s'. repeat split; assumption.
Defined.
